(** * GitHub Topics Trending: a shallow embedding of the pipeline

    The development follows the Python sources file by file:
    - [AISummarizer]   : src/ai_summarizer.py
    - [TelegramSender] : src/telegram_sender.py
    - [WebGenerator]   : src/web_generator.py
    - [Driver]         : src/main.py
    - [TrendEngine]    : the trend computation engine and the snapshot store,
                         whose sources are not part of the tree.

    Python values are modelled as follows.  A [str] is a [string]
    holding its UTF-8 encoding: a character is a lead byte with the
    continuation bytes that follow it, and [len], slices and [strip]
    count and test characters ([chars], [py_len], [py_take]).  An
    [int] is a [Z].  A repository dict is a record
    whose fields are the keys the program reads, [None] standing for an
    absent key.  Values decoded from the AI response are untyped and
    live in [pyval].  [print] calls are not modelled. *)

From Stdlib Require Import ZArith NArith Strings.Ascii Floats.SpecFloat.
From stdpp Require Import base strings list gmap pretty.

Local Open Scope string_scope.
Local Open Scope list_scope.
Set Warnings "-register-all".

(** ** Strings *)

(** The double quote and the line feed, which the sources write inside
    their literals. *)
Definition dq : string := String "034"%char EmptyString.
Definition nl : string := String "010"%char EmptyString.

(** A literal between double quotes. *)
Definition q (s : string) : string := dq +:+ s +:+ dq.

(** [sep.join(l)] *)
Fixpoint str_join (sep : string) (l : list string) : string :=
  match l with
  | [] => EmptyString
  | [s] => s
  | s :: l' => s +:+ sep +:+ str_join sep l'
  end.

(** A text given by its lines. *)
Definition lines (l : list string) : string := str_join nl l.

(** [s * n] *)
Fixpoint str_repeat (s : string) (n : nat) : string :=
  match n with
  | O => EmptyString
  | S n' => s +:+ str_repeat s n'
  end.

(** [s[:n]], [s[n:]] and [s[:-n]] where the [n] characters that go
    are ASCII, one byte each: the fence marks of a response. *)
Definition str_take (n : nat) (s : string) : string := String.substring 0 n s.
Definition str_drop (n : nat) (s : string) : string :=
  String.substring n (String.length s - n) s.
Definition str_drop_end (n : nat) (s : string) : string :=
  str_take (String.length s - n) s.

Definition startswith (p s : string) : bool := String.prefix p s.
Definition endswith (p s : string) : bool :=
  String.eqb (str_drop (String.length s - String.length p) s) p
  && (String.length p <=? String.length s)%nat.

(** *** Characters

    The characters of a string: each is one byte with the
    continuation bytes (10xxxxxx) that follow it. *)
Definition is_continuation (c : ascii) : bool :=
  let n := N_of_ascii c in ((128 <=? n) && (n <? 192))%N.

Fixpoint chars (s : string) : list string :=
  match s with
  | EmptyString => []
  | String c s' =>
      let rest := chars s' in
      match s' with
      | String c' _ =>
          if is_continuation c' then
            match rest with
            | ch :: rest' => String c ch :: rest'
            | [] => [String c EmptyString]
            end
          else String c EmptyString :: rest
      | EmptyString => [String c EmptyString]
      end
  end.

Fixpoint join_chars (l : list string) : string :=
  match l with
  | [] => EmptyString
  | ch :: l' => ch +:+ join_chars l'
  end.

(** [len(s)] and [s[:n]] *)
Definition py_len (s : string) : nat := length (chars s).
Definition py_take (n : nat) (s : string) : string := join_chars (take n (chars s)).

(** [ord(ch)] for a one-character string: the code point that the
    bytes encode; [None] when they are not the encoding of one. *)
Definition continuation (c : ascii) : option N :=
  if is_continuation c then Some (N_of_ascii c - 128)%N else None.

Definition ord (ch : string) : option N :=
  match ch with
  | String a EmptyString =>
      let x := N_of_ascii a in
      if (x <? 128)%N then Some x else None
  | String a (String b EmptyString) =>
      let x := N_of_ascii a in
      match continuation b with
      | Some y =>
          let n := ((x - 192) * 64 + y)%N in
          if ((192 <=? x) && (x <? 224) && (128 <=? n))%N then Some n else None
      | None => None
      end
  | String a (String b (String c EmptyString)) =>
      let x := N_of_ascii a in
      match continuation b, continuation c with
      | Some y, Some z =>
          let n := ((x - 224) * 4096 + y * 64 + z)%N in
          if ((224 <=? x) && (x <? 240) && (2048 <=? n))%N then Some n else None
      | _, _ => None
      end
  | String a (String b (String c (String d EmptyString))) =>
      let x := N_of_ascii a in
      match continuation b, continuation c, continuation d with
      | Some y, Some z, Some w =>
          let n := ((x - 240) * 262144 + y * 4096 + z * 64 + w)%N in
          if ((240 <=? x) && (x <? 248) && (65536 <=? n))%N then Some n else None
      | _, _, _ => None
      end
  | _ => None
  end.

(** The code points for which [str.isspace] holds: U+0009 to
    U+000D, U+001C to U+0020, U+0085, U+00A0, U+1680, U+2000 to
    U+200A, U+2028, U+2029, U+202F, U+205F and U+3000. *)
Definition is_space_ord (n : N) : bool :=
  ((9 <=? n) && (n <=? 13) || (28 <=? n) && (n <=? 32)
   || (n =? 133) || (n =? 160) || (n =? 5760)
   || (8192 <=? n) && (n <=? 8202)
   || (n =? 8232) || (n =? 8233) || (n =? 8239) || (n =? 8287)
   || (n =? 12288))%N.

(** [ch.isspace()] for a one-character string *)
Definition isspace (ch : string) : bool :=
  match ord ch with
  | Some n => is_space_ord n
  | None => false
  end.

Fixpoint drop_while {A} (p : A → bool) (l : list A) : list A :=
  match l with
  | [] => []
  | x :: l' => if p x then drop_while p l' else l
  end.

(** [s.strip()]: the white space characters of both ends go. *)
Definition strip_chars (l : list string) : list string :=
  rev (drop_while isspace (rev (drop_while isspace l))).

Definition strip (s : string) : string := join_chars (strip_chars (chars s)).

(** [s.split(c)] *)
Fixpoint split_on (c : ascii) (s : string) : list string :=
  match s with
  | EmptyString => [EmptyString]
  | String a s' =>
      match split_on c s' with
      | h :: t => if Ascii.eqb a c then EmptyString :: h :: t else String a h :: t
      | [] => [String a EmptyString]
      end
  end.

(** [s.replace(c, t)] for a one-character pattern [c] *)
Fixpoint str_replace (c : ascii) (t : string) (s : string) : string :=
  match s with
  | EmptyString => EmptyString
  | String a s' =>
      if Ascii.eqb a c then t +:+ str_replace c t s'
      else String a (str_replace c t s')
  end.

Fixpoint has_char (c : ascii) (s : string) : bool :=
  match s with
  | EmptyString => false
  | String a s' => Ascii.eqb a c || has_char c s'
  end.

(** [s.split(c)[-1]]: what follows the last [c] *)
Fixpoint split_last (c : ascii) (s : string) : string :=
  match s with
  | EmptyString => EmptyString
  | String a s' =>
      if Ascii.eqb a c || has_char c s' then split_last c s' else s
  end.

(** [t] occurs in [s] as a substring *)
Definition occurs (t s : string) : Prop :=
  ∃ pre post, s = pre +:+ t +:+ post.

Fixpoint contains (t s : string) : bool :=
  String.prefix t s ||
  match s with
  | EmptyString => false
  | String _ s' => contains t s'
  end.

(** [str(n)] for an [int] *)
Definition str_of_int (n : Z) : string := pretty n.

(** ** Lists *)

(** [l[:n]] for an [int] bound of either sign: the length of the
    slice, the slice, and what it leaves. *)
Definition slice_len {A} (n : Z) (l : list A) : nat :=
  if (0 <=? n)%Z then Z.to_nat n else length l - Z.to_nat (- n).

Definition slice_to {A} (n : Z) (l : list A) : list A := take (slice_len n l) l.
Definition slice_from {A} (n : Z) (l : list A) : list A := drop (slice_len n l) l.

(** [enumerate(l, 1)] *)
Definition enumerate1 {A} (l : list A) : list (positive * A) :=
  imap (λ i x, (Pos.of_succ_nat i, x)) l.

(** ** Untyped values *)

Inductive pyval :=
| PNone
| PBool (b : bool)
| PInt (z : Z)
| PFloat (f : spec_float)
| PStr (s : string)
| PList (l : list pyval)
| PDict (d : list (string * pyval)).

(** A dict with string keys, in insertion order; a key is looked up at
    its first binding. *)
Definition pydict := list (string * pyval).

Fixpoint dict_lookup {V} (k : string) (d : list (string * V)) : option V :=
  match d with
  | [] => None
  | (k', v) :: d' => if String.eqb k k' then Some v else dict_lookup k d'
  end.

(** [d.get(k, dflt)] *)
Definition dict_get (k : string) (dflt : pyval) (d : pydict) : pyval :=
  default dflt (dict_lookup k d).

Definition has_key {V} (k : string) (d : list (string * V)) : Prop :=
  is_Some (dict_lookup k d).

(** Truth value of an object, as [not x] and [x or y] test it. *)
Definition truthy (v : pyval) : bool :=
  match v with
  | PNone => false
  | PBool b => b
  | PInt z => negb (z =? 0)%Z
  | PFloat (S754_zero _) => false
  | PFloat _ => true
  | PStr s => negb (String.eqb s EmptyString)
  | PList l => match l with [] => false | _ => true end
  | PDict d => match d with [] => false | _ => true end
  end.

(** [type(v).__name__] *)
Definition type_name (v : pyval) : string :=
  match v with
  | PNone => "NoneType"
  | PBool _ => "bool"
  | PInt _ => "int"
  | PFloat _ => "float"
  | PStr _ => "str"
  | PList _ => "list"
  | PDict _ => "dict"
  end.

(** Lists and dicts cannot be used as dict keys. *)
Definition hashable (v : pyval) : bool :=
  match v with
  | PList _ | PDict _ => false
  | _ => true
  end.

(** ** Dict keys

    A dict finds a key by [==]: strings by their text, numbers by
    their value ([True == 1 == 1.0]).  A number is kept as an odd
    mantissa and a binary exponent, the one form of its value.  The
    decoder hands out one NaN object, which a dict finds again. *)
Inductive key :=
| KNone
| KStr (s : string)
| KNum (m e : Z)
| KInf (negative : bool)
| KNaN.

#[global] Instance key_eq_dec : EqDecision key.
Proof. solve_decision. Defined.

Fixpoint odd_part (p : positive) : positive * Z :=
  match p with
  | xO p' => let (q, k) := odd_part p' in (q, (k + 1)%Z)
  | _ => (p, 0%Z)
  end.

(** The key of [m * 2^e] *)
Definition num_key (m e : Z) : key :=
  match m with
  | Z0 => KNum 0 0
  | Zpos p => let (q, k) := odd_part p in KNum (Zpos q) (e + k)
  | Zneg p => let (q, k) := odd_part p in KNum (Zneg q) (e + k)
  end.

Definition key_of (v : pyval) : option key :=
  match v with
  | PNone => Some KNone
  | PBool b => Some (num_key (if b then 1 else 0) 0)
  | PInt z => Some (num_key z 0)
  | PFloat (S754_zero _) => Some (KNum 0 0)
  | PFloat (S754_infinity s) => Some (KInf s)
  | PFloat S754_nan => Some KNaN
  | PFloat (S754_finite s m e) => Some (num_key (if s then Zneg m else Zpos m) e)
  | PStr s => Some (KStr s)
  | PList _ | PDict _ => None
  end.

(** A dict with keys of any hashable type, in insertion order:
    [d[k] = v] keeps the key that is there and replaces its value. *)
Fixpoint map_set {V} (k : pyval) (v : V) (d : list (pyval * V)) : list (pyval * V) :=
  match d with
  | [] => [(k, v)]
  | (k', v') :: d' =>
      if decide (key_of k' = key_of k) then (k', v) :: d'
      else (k', v') :: map_set k v d'
  end.

Fixpoint map_find {V} (k : pyval) (d : list (pyval * V)) : option V :=
  match d with
  | [] => None
  | (k', v) :: d' => if decide (key_of k' = key_of k) then Some v else map_find k d'
  end.

(** ** Repository dicts *)

Record repo := {
  repo_name : option string;
  name : option string;
  owner : option string;
  description : option string;
  language : option string;
  topics : option (list string);
  url : option string;
  stars : option Z;
  stars_delta : option Z;
  readme_summary : option string;
  summary : option string;
  category_zh : option string
}.

(** [repo["readme_summary"] = s] *)
Definition set_readme_summary (s : string) (r : repo) : repo :=
  {| repo_name := repo_name r; name := name r; owner := owner r;
     description := description r; language := language r;
     topics := topics r; url := url r; stars := stars r;
     stars_delta := stars_delta r; readme_summary := Some s;
     summary := summary r; category_zh := category_zh r |}.

(** [x or y] on optional strings: [None] and the empty string are false. *)
Definition str_truthy (o : option string) : bool :=
  match o with
  | Some s => negb (String.eqb s EmptyString)
  | None => false
  end.

Definition or_else (x y : option string) : option string :=
  if str_truthy x then x else y.

(** [repo.get("summary", EmptyString) or repo.get("description", EmptyString)] *)
Definition summary_or_description (r : repo) : string :=
  match default EmptyString (summary r) with
  | EmptyString => default EmptyString (description r)
  | s => s
  end.

(** What an f-string prints for the result of [d.get(k)]. *)
Definition fmt_opt (o : option string) : string := default "None" o.

(** ** Exceptions and effects *)

(** The exceptions a collaborator can raise: [KeyboardInterrupt], and
    the subclasses of [Exception], of which [JSONDecodeError] is named
    because the summarizer catches it on its own.  [msg] is what
    [str(e)] gives. *)
Inductive exn :=
| KeyboardInterrupt
| JSONDecodeError (msg : string)
| Exception (cls msg : string).

Definition is_Exception (e : exn) : bool :=
  match e with
  | KeyboardInterrupt => false
  | JSONDecodeError _ | Exception _ _ => true
  end.

(** [str(e)] *)
Definition exn_str (e : exn) : string :=
  match e with
  | KeyboardInterrupt => EmptyString
  | JSONDecodeError msg | Exception _ msg => msg
  end.

(** What [v.get] raises on a value that is not a dict. *)
Definition no_get (v : pyval) : exn :=
  Exception "AttributeError"
    ("'" +:+ type_name v +:+ "' object has no attribute 'get'").

(** Result of a call that has no effect of its own. *)
Inductive result (A : Type) :=
| Ok (a : A)
| Err (e : exn).
Arguments Ok {A} a.
Arguments Err {A} e.

(** What unwinds the stack: an exception, or the [SystemExit] of a
    [sys.exit(code)], which only the driver raises. *)
Inductive raised :=
| Exn (e : exn)
| SystemExit (code : Z).

Inductive outcome (A : Type) :=
| Return (a : A)
| Raise (r : raised).
Arguments Return {A} a.
Arguments Raise {A} r.

(** The calls that leave the process, in the order they are made. *)
Inductive event :=
| Database_init (path : string)
| GitHubFetcher_fetch (sort_by : string) (limit : Z)
| batch_fetch_readmes (repos : list repo)
| AISummarizer_init
| chat_completions_create (prompt : string)
| save_repo_details (records : list pydict)
| calculate_trends_call (today_repos : list repo) (date : string)
    (ai_summary_map : list (pyval * pydict)) (deduplicate_days : Z)
| generate_email_html (date : string)
| requests_post (api_url chat_id text parse_mode : string)
| record_notification (repo_names : list string)
| mkdir (path : string)
| get_repos_by_category (key : string) (limit : Z)
| write_text (path content : string)
| cleanup_old_data (days : Z)
| db_close.

(** A computation ends by returning or raising, and leaves the trace
    of the calls it made. *)
Definition M (A : Type) : Type := (outcome A * list event)%type.

Definition ret {A} (a : A) : M A := (Return a, []).

Definition raise {A} (r : raised) : M A := (Raise r, []).

Definition bind {A B} (m : M A) (f : A → M B) : M B :=
  match m with
  | (Return a, es) => let '(o, es') := f a in (o, es ++ es')
  | (Raise r, es) => (Raise r, es)
  end.

Definition lift {A} (x : result A) : M A :=
  match x with
  | Ok a => ret a
  | Err e => raise (Exn e)
  end.

(** A call to a collaborator: it is recorded, then returns or raises. *)
Definition call {A} (ev : event) (res : result A) : M A :=
  ((lift res).1, [ev]).

(** [try: m  except ...]: [clauses e] is the body of the first clause
    that matches [e], if one does.  What a clause raises is not
    caught by its siblings. *)
Definition try_except {A} (m : M A) (clauses : exn → option (M A)) : M A :=
  match m with
  | (Raise (Exn e), es) =>
      match clauses e with
      | Some (o, es') => (o, es ++ es')
      | None => m
      end
  | _ => m
  end.

(** [try: m  except Exception as e: h e] *)
Definition try_except_Exception {A} (m : M A) (h : exn → M A) : M A :=
  try_except m (λ e, if is_Exception e then Some (h e) else None).

(** [try: m  finally: fin]: what [fin] raises replaces the outcome. *)
Definition try_finally {A} (m : M A) (fin : M unit) : M A :=
  let '(o, es) := m in
  match fin with
  | (Return _, es') => (o, es ++ es')
  | (Raise r, es') => (Raise r, es ++ es')
  end.

(** The calls a computation made. *)
Definition trace {A} (m : M A) : list event := m.2.

Declare Scope py_scope.
Delimit Scope py_scope with py.
Notation "'let*' x ':=' m 'in' k" := (bind m (λ x, k))
  (at level 10, x name, m at level 100, k at level 200) : py_scope.
Local Open Scope py_scope.

(** [for x in l: body x] *)
Fixpoint for_each {A} (l : list A) (body : A → M unit) : M unit :=
  match l with
  | [] => ret tt
  | x :: l' => let* _ := body x in for_each l' body
  end.

(** [[f x for x in l]] where [f] has effects *)
Fixpoint map_M {A B} (f : A → M B) (l : list A) : M (list B) :=
  match l with
  | [] => ret []
  | x :: l' =>
      let* y := f x in
      let* ys := map_M f l' in
      ret (y :: ys)
  end.

(** ** Configuration (src/config.py)

    The module is not part of the tree: its constants are parameters
    of the development. *)

Record category_info := {
  cat_name : string;
  cat_icon : string;
  cat_description : string
}.

Record site_meta := {
  meta_title : string;
  meta_subtitle : string;
  meta_description : string
}.

Class Config := {
  GITHUB_TOKEN : string;
  NVIDIA_API_KEY : string;
  NVIDIA_BASE_URL : string;
  NVIDIA_MODEL : string;
  CLAUDE_MAX_TOKENS : Z;
  TELEGRAM_BOT_TOKEN : string;
  TELEGRAM_CHAT_ID : string;
  DEDUPLICATE_DAYS : Z;
  DB_PATH : string;
  DB_RETENTION_DAYS : Z;
  TOP_N_DETAILS : Z;
  TOPIC : string;
  OUTPUT_DIR : string;
  BASE_URL : string;
  SITE_META : site_meta;
  (** a dict: keys in insertion order, no key twice *)
  CATEGORIES : list (string * category_info);
  format_number : Z → string
}.

(** ** The engine's output, as its consumers read it *)

Record TrendResult := {
  topic : option string;
  top_20 : list repo;
  rising_top5 : list repo;
  new_entries : list repo;
  dropped_entries : list repo;
  surging : list repo;
  active : list repo
}.

(** ** Collaborators

    What the services outside the three modelled files answer: the
    GitHub and README fetchers, the store, the trend analyzer, the
    HTML reporter, the AI endpoint, Telegram, the file system and the
    clock.  [json_loads] and [float_repr] stand for [json.loads] and
    for [str] on a float. *)

Class World := {
  get_today_date : string;
  current_year : Z;
  Database_init_result : result unit;
  fetch_result : result (list repo);
  batch_fetch_readmes_result : list repo → result (list (string * string));
  OpenAI_result : result unit;
  chat_completions_create_result : string → result (option string);
  json_loads : string → result pyval;
  float_repr : spec_float → string;
  save_repo_details_result : list pydict → result unit;
  calculate_trends_result :
    list repo → string → list (pyval * pydict) → Z → result TrendResult;
  generate_email_html_result : TrendResult → string → result string;
  requests_post_result : string → string → string → string → result pyval;
  record_notification_result : list string → result unit;
  mkdir_result : string → result unit;
  get_repos_by_category_result : string → Z → result (list repo);
  write_text_result : string → string → result unit;
  cleanup_old_data_result : Z → result Z;
  db_close_result : result unit
}.

(** A dict with keys of any type with decidable equality, as a dict
    comprehension builds it: a later binding of a key replaces the
    earlier one in place. *)
Fixpoint assoc_insert {K V} `{EqDecision K} (k : K) (v : V)
    (d : list (K * V)) : list (K * V) :=
  match d with
  | [] => [(k, v)]
  | (k', v') :: d' =>
      if decide (k = k') then (k, v) :: d' else (k', v') :: assoc_insert k v d'
  end.

Fixpoint assoc_lookup {K V} `{EqDecision K} (k : K) (d : list (K * V)) : option V :=
  match d with
  | [] => None
  | (k', v) :: d' => if decide (k = k') then Some v else assoc_lookup k d'
  end.

(** * src/ai_summarizer.py *)

Module AISummarizer.
Section ai_summarizer.
Context `{Config} `{World}.

(** [get_category_list()] and the module constant built from it *)
Definition get_category_list : list (string * string) :=
  map (λ kv, (kv.1, cat_name kv.2)) CATEGORIES.

Definition REPO_CATEGORIES : list (string * string) := get_category_list.

(** [REPO_CATEGORIES.get(c, "其他")] *)
Definition category_zh_of (c : string) : string :=
  default "其他" (dict_lookup c REPO_CATEGORIES).

(** [AISummarizer()] with no argument *)
Definition __init__ : M unit :=
  if String.eqb NVIDIA_API_KEY EmptyString
  then raise (Exn (Exception "ValueError" "NVIDIA_API_KEY 环境变量未设置"))
  else try_except_Exception (call AISummarizer_init OpenAI_result)
         (λ e, raise (Exn (Exception "Exception"
                             ("AI 客户端初始化失败: " +:+ exn_str e)))).

(** The lines one repository adds to [repos_text]. *)
Definition repo_block (i : positive) (r : repo) : string :=
  nl +:+ str_repeat "sz" 40 +:+ nl
  +:+ "【仓库 " +:+ str_of_int (Z.pos i) +:+ "】" +:+ nl
  +:+ "名称: " +:+ fmt_opt (repo_name r) +:+ nl
  +:+ "描述: " +:+ default "N/A" (description r) +:+ nl
  +:+ "语言: " +:+ default "N/A" (language r) +:+ nl
  +:+ match default [] (topics r) with
      | [] => EmptyString
      | ts => "Topics: " +:+ str_join ", " (take 5 ts) +:+ nl
      end
  +:+ match default EmptyString (readme_summary r) with
      | EmptyString => EmptyString
      | readme => nl +:+ "README 摘要:" +:+ nl +:+ py_take 300 readme +:+ nl
      end.

Definition category_text : string :=
  str_join nl (map (λ kv, "  - " +:+ kv.1 +:+ ": " +:+ kv.2) REPO_CATEGORIES).

Definition prompt_task : string := lines [
  EmptyString;
  EmptyString;
  "---";
  EmptyString;
  "【任务要求】";
  EmptyString;
  "对每个仓库提取以下信息：";
  EmptyString;
  "1. **summary**: 一句话摘要（不超过30字）";
  "   - 简洁描述这个项目是什么";
  EmptyString;
  "2. **description**: 详细描述（50-100字）";
  "   - 详细说明项目的功能和价值";
  EmptyString;
  "3. **use_case**: 使用场景";
  "   - 谁在什么情况下会用到这个项目";
  EmptyString;
  "4. **solves**: 解决的问题列表";
  "   - 3-5个关键词或短语";
  "   - 描述这个项目解决什么具体问题";
  EmptyString;
  "5. **category**: 选择一个分类";
  "   可选分类:";
  EmptyString ].

Definition prompt_format : string := lines [
  EmptyString;
  EmptyString;
  "6. **category_zh**: 中文分类名";
  "   - 对应 category 的中文名称";
  EmptyString;
  "7. **tech_stack**: 技术栈标签（可选）";
  "   - 主要使用的技术";
  EmptyString;
  "【输出格式】";
  EmptyString;
  "严格按照以下 JSON 数组格式输出，不要有任何其他文字说明（如 ```json 等）：";
  EmptyString;
  "[";
  "  {";
  "    " +:+ q "repo_name" +:+ ": " +:+ q "owner/repo" +:+ ",";
  "    " +:+ q "summary" +:+ ": " +:+ q "一句话摘要" +:+ ",";
  "    " +:+ q "description" +:+ ": " +:+ q "详细描述" +:+ ",";
  "    " +:+ q "use_case" +:+ ": " +:+ q "使用场景" +:+ ",";
  "    " +:+ q "solves" +:+ ": [" +:+ q "问题1" +:+ ", " +:+ q "问题2"
         +:+ ", " +:+ q "问题3" +:+ "],";
  "    " +:+ q "category" +:+ ": " +:+ q "tool" +:+ ",";
  "    " +:+ q "category_zh" +:+ ": " +:+ q "工具" +:+ ",";
  "    " +:+ q "tech_stack" +:+ ": [" +:+ q "React" +:+ ", " +:+ q "TypeScript" +:+ "]";
  "  }";
  "]";
  EmptyString;
  "【重要】";
  "- 只输出纯 JSON 数组";
  "- 确保 JSON 格式正确有效";
  "- repo_name 必须与输入的仓库名称完全一致";
  EmptyString ].

Definition _build_batch_prompt (repos : list repo) : string :=
  let repos_text :=
    foldl (λ acc ir, acc +:+ repo_block ir.1 ir.2) EmptyString
          (enumerate1 (take 20 repos)) in
  "你是一个开源项目分析专家。请分析以下 "
  +:+ str_of_int (Z.min (Z.of_nat (length repos)) 20)
  +:+ " 个 GitHub 仓库，为每个仓库生成摘要和分类。" +:+ nl +:+ nl
  +:+ repos_text +:+ prompt_task +:+ category_text +:+ prompt_format.

(** [repo.get("repo_name") or repo.get("name", "unknown")] *)
Definition fallback_name (r : repo) : string :=
  if str_truthy (repo_name r) then default EmptyString (repo_name r)
  else default "unknown" (name r).

(** [description[:50] + "..." if len(description) > 50 else description] *)
Definition fallback_summary (description : string) : string :=
  if (50 <? py_len description)%nat
  then py_take 50 description +:+ "..."
  else description.

(** The record [_fallback_summaries] appends for one repository.  The
    locals [language] and [topics] are computed and never read. *)
Definition fallback_record (r : repo) : pydict :=
  let description := default EmptyString (description r) in
  let category := "other" in
  [ ("repo_name", PStr (fallback_name r));
    ("summary", PStr (fallback_summary description));
    ("description", PStr description);
    ("category", PStr category);
    ("category_zh", PStr (category_zh_of category));
    ("fallback", PBool true) ].

Definition _fallback_summaries (repos : list repo) : list pydict :=
  map fallback_record repos.

(** The markdown fence is removed from both ends of the response. *)
Definition clean_response (result_text : string) : string :=
  let s := strip result_text in
  let s := if startswith "```json" s then str_drop 7 s
           else if startswith "```" s then str_drop 3 s
           else s in
  let s := if endswith "```" s then str_drop_end 3 s else s in
  strip s.

(** [{r.get("repo_name") or r.get("name"): r for r in original_repos}] *)
Definition original_map (original_repos : list repo) : list (option string * repo) :=
  foldl (λ d r, assoc_insert (or_else (repo_name r) (name r)) r d) [] original_repos.

(** [original_map.get(repo_name, {})] for a hashable [repo_name]: the
    keys are strings or [None], so only a string can be found. *)
Definition original_of (original_repos : list repo) (repo_name : pyval) : option repo :=
  match repo_name with
  | PStr s => assoc_lookup (Some s) (original_map original_repos)
  | _ => None
  end.

(** What an f-string prints for a value that passed the lookup. *)
Definition py_str (v : pyval) : string :=
  match v with
  | PStr s => s
  | PInt z => str_of_int z
  | PBool true => "True"
  | PBool false => "False"
  | PNone => "None"
  | PFloat f => float_repr f
  | PList _ | PDict _ => EmptyString
  end.

Definition validated_result (repo_name : pyval) (original : option repo)
    (result : pydict) : pydict :=
  let orig_str (f : repo → option string) :=
    PStr (default EmptyString (original ≫= f)) in
  [ ("repo_name", repo_name);
    ("summary", dict_get "summary" (PStr (py_str repo_name +:+ " 项目")) result);
    ("description", dict_get "description" (PStr EmptyString) result);
    ("use_case", dict_get "use_case" (PStr EmptyString) result);
    ("solves", dict_get "solves" (PList []) result);
    ("category", dict_get "category" (PStr "other") result);
    ("category_zh", dict_get "category_zh" (PStr (category_zh_of "other")) result);
    ("tech_stack", dict_get "tech_stack" (PList []) result);
    ("language", orig_str language);
    ("topics", PList (map PStr (default [] (original ≫= topics))));
    ("readme_summary", orig_str readme_summary);
    ("owner", orig_str owner);
    ("url", orig_str url) ].

(** The loop over the decoded results.  An item that is not a dict,
    or whose [repo_name] is false, is skipped; a list or dict as
    [repo_name] makes the lookup in [original_map] raise. *)
Fixpoint validate (original_repos : list repo) (results : list pyval)
    : result (list pydict) :=
  match results with
  | [] => Ok []
  | PDict d :: rest =>
      let repo_name := dict_get "repo_name" PNone d in
      if negb (truthy repo_name) then validate original_repos rest
      else if negb (hashable repo_name)
      then Err (Exception "TypeError"
                  ("unhashable type: '" +:+ type_name repo_name +:+ "'"))
      else match validate original_repos rest with
           | Ok vs =>
               Ok (validated_result repo_name (original_of original_repos repo_name) d :: vs)
           | Err e => Err e
           end
  | _ :: rest => validate original_repos rest
  end.

Definition _parse_batch_response (result_text : string)
    (original_repos : list repo) : result (list pydict) :=
  match json_loads (clean_response result_text) with
  | Ok results =>
      let results := match results with PList l => l | v => [v] end in
      validate original_repos results
  | Err (JSONDecodeError _) => Ok (_fallback_summaries original_repos)
  | Err e => Err e
  end.

Definition summarize_and_classify (repos : list repo) : M (list pydict) :=
  match repos with
  | [] => ret []
  | _ =>
      let prompt := _build_batch_prompt repos in
      try_except_Exception
        (let* content := call (chat_completions_create prompt)
                              (chat_completions_create_result prompt) in
         match content with
         | Some result_text => lift (_parse_batch_response result_text repos)
         | None =>
             raise (Exn (Exception "AttributeError"
                           "'NoneType' object has no attribute 'strip'"))
         end)
        (λ _, ret (_fallback_summaries repos))
  end.

(** [categorize_by_rules] *)
Definition categorize_by_rules (r : repo) : string := "other".

End ai_summarizer.
End AISummarizer.

(** * src/telegram_sender.py *)

Module TelegramSender.
Section telegram_sender.
Context `{World}.
(** [self.token] and [self.chat_id] *)
Variables (token chat_id : string).

Definition api_url : string :=
  "https://api.telegram.org/bot" +:+ token +:+ "/sendMessage".

Definition send_message (text : string) (parse_mode : string) : M pydict :=
  if String.eqb token EmptyString || String.eqb chat_id EmptyString
  then ret [ ("success", PBool false); ("message", PStr "配置缺失") ]
  else
    try_except_Exception
      (let* result := call (requests_post api_url chat_id text parse_mode)
                           (requests_post_result api_url chat_id text parse_mode) in
       match result with
       | PDict d =>
           if truthy (dict_get "ok" PNone d)
           then ret [ ("success", PBool true); ("result", result) ]
           else ret [ ("success", PBool false);
                      ("message", dict_get "description" PNone d) ]
       | v => raise (Exn (no_get v))
       end)
      (λ e, ret [ ("success", PBool false); ("message", PStr (exn_str e)) ]).

Definition _format_repo_line (r : repo) : string :=
  let stars := default 0%Z (stars r) in
  let delta := default 0%Z (stars_delta r) in
  let delta_str :=
    if (0 <? delta)%Z then "+" +:+ str_of_int delta else str_of_int delta in
  "• [" +:+ fmt_opt (repo_name r) +:+ "](" +:+ fmt_opt (url r) +:+ ") ⭐"
  +:+ str_of_int stars +:+ " (" +:+ delta_str +:+ ")".

Definition _format_repo_item (index : positive) (r : repo) : string :=
  let summary := summary_or_description r in
  let category := default EmptyString (category_zh r) in
  let summary :=
    if (60 <? py_len summary)%nat
    then py_take 57 summary +:+ "..." else summary in
  let icon :=
    match index with
    | 1%positive => "🥇"
    | 2%positive => "🥈"
    | 3%positive => "🥉"
    | _ => "🔹"
    end in
  icon +:+ " *[" +:+ fmt_opt (repo_name r) +:+ "](" +:+ fmt_opt (url r) +:+ ")*"
  +:+ match category with
      | EmptyString => EmptyString
      | _ => " `[" +:+ category +:+ "]`"
      end
  +:+ nl +:+ "  _" +:+ summary +:+ "_".

(** A titled block of lines, left out when there is no entry. *)
Definition section (title : string) (body : list string) (trailer : list string)
    : list string :=
  match body with
  | [] => []
  | _ => title :: body ++ trailer
  end.

Definition _format_report (trends : TrendResult) (date : string) : string :=
  let rising := rising_top5 trends in
  let new_entries := take 5 (new_entries trends) in
  let top_list := take 10 (top_20 trends) in
  str_join nl
    ([ "🔥 *GitHub Topics Trending* `#" +:+ default "unknown" (topic trends) +:+ "`";
       "📅 *" +:+ date +:+ "*";
       EmptyString ]
     ++ section "🚀 *今日飙升*" (map _format_repo_line rising) [EmptyString]
     ++ section "✨ *新晋项目*" (map _format_repo_line new_entries) [EmptyString]
     ++ section "🏆 *热门精选*"
          (map (λ ir, _format_repo_item ir.1 ir.2) (enumerate1 top_list)) []
     ++ [ EmptyString;
          "[查看完整报告及更多分类](https://james5-cell.github.io/github-topics-trending/)" ]).

Definition send_report (trends : TrendResult) (date : string) : M pydict :=
  let message := _format_report trends date in
  send_message message "Markdown".

End telegram_sender.
End TelegramSender.

(** * src/web_generator.py *)

#[global] Instance category_info_eq_dec : EqDecision category_info.
Proof. solve_decision. Defined.

(** A list comprehension whose body may raise. *)
Fixpoint map_result {A B} (f : A → result B) (l : list A) : result (list B) :=
  match l with
  | [] => Ok []
  | x :: l' =>
      match f x with
      | Ok y =>
          match map_result f l' with
          | Ok ys => Ok (y :: ys)
          | Err e => Err e
          end
      | Err e => Err e
      end
  end.

(** [EmptyString.join(l)] *)
Definition str_concat (l : list string) : string := str_join EmptyString l.

Module WebGenerator.
Section web_generator.
Context `{Config} `{World}.
(** the constructor's [output_dir] argument *)
Variable output_dir : string.

Definition slash : ascii := "/"%char.

(** [pathlib] on POSIX: a path is its root and its parts.  Parsing
    a string keeps a leading slash (two leading slashes, when they
    are exactly two) as the root and drops the empty parts and the
    parts that are a single dot. *)
Record path := {
  path_root : string;
  path_parts : list string
}.

(** [Path(s)] *)
Definition path_of (s : string) : path :=
  {| path_root :=
       if startswith "/" s then
         if startswith "//" s && negb (startswith "///" s) then "//" else "/"
       else EmptyString;
     path_parts :=
       List.filter
         (λ x, negb (String.eqb x EmptyString) && negb (String.eqb x "."))
         (split_on slash s) |}.

(** [p / s]: a string with a root replaces the path *)
Definition path_div (p : path) (s : string) : path :=
  let q := path_of s in
  if String.eqb (path_root q) EmptyString
  then {| path_root := path_root p; path_parts := path_parts p ++ path_parts q |}
  else q.

(** [str(p)] *)
Definition path_str (p : path) : string :=
  match path_root p, path_parts p with
  | EmptyString, [] => "."
  | r, ps => r +:+ str_join "/" ps
  end.

(** [str(Path(a) / b)], for a path that is kept as its string *)
Definition path_join (a b : string) : string :=
  path_str (path_div (path_of a) b).

(** [Path(output_dir or OUTPUT_DIR)] *)
Definition self_output_dir : string :=
  path_str (path_of (if String.eqb output_dir EmptyString
                     then OUTPUT_DIR else output_dir)).

Fixpoint lstrip_slash (s : string) : string :=
  match s with
  | String c s' => if Ascii.eqb c slash then lstrip_slash s' else s
  | EmptyString => EmptyString
  end.

(** [s.rstrip('/')] *)
Definition rstrip_slash (s : string) : string :=
  String.rev (lstrip_slash (String.rev s)).

Definition url_prefix : string :=
  let p := rstrip_slash BASE_URL in
  if negb (String.eqb p EmptyString) && negb (startswith "/" p)
  then "/" +:+ p else p.

Definition mkdir_p (path : string) : M unit :=
  call (mkdir path) (mkdir_result path).

Definition __init__ : M unit :=
  let* _ := mkdir_p self_output_dir in
  let* _ := mkdir_p (path_join self_output_dir "trending") in
  let* _ := mkdir_p (path_join self_output_dir "category") in
  let* _ := mkdir_p (path_join self_output_dir "repo") in
  let* _ := mkdir_p (path_join (path_join self_output_dir "assets") "css") in
  mkdir_p (path_join (path_join self_output_dir "assets") "js").

Definition path_write_text (path content : string) : M unit :=
  call (write_text path content) (write_text_result path content).

Definition _get_base_html (title body_content : string) : string :=
  lines [
    "<!DOCTYPE html>";
    "<html lang=" +:+ q "en" +:+ ">";
    "<head>";
    "    <meta charset=" +:+ q "UTF-8" +:+ ">";
    "    <meta name=" +:+ q "viewport" +:+ " content="
      +:+ q "width=device-width, initial-scale=1.0" +:+ ">";
    "    <title>" +:+ title +:+ " | " +:+ meta_title SITE_META
      +:+ "</title>";
    "    <meta name=" +:+ q "description" +:+ " content=" +:+ dq
      +:+ meta_description SITE_META +:+ dq +:+ ">";
    "    <link rel=" +:+ q "stylesheet" +:+ " href=" +:+ dq +:+ url_prefix
      +:+ "/assets/css/style.css" +:+ dq +:+ ">";
    "    <link rel=" +:+ q "icon" +:+ " type=" +:+ q "image/svg+xml"
      +:+ " href="
      +:+ q "data:image/svg+xml,<svg xmlns=%22http://www.w3.org/2000/svg%22 viewBox=%220 0 100 100%22><text y=%22.9em%22 font-size=%2290%22>📈</text></svg>"
      +:+ ">";
    "</head>";
    "<body>";
    "    <nav class=" +:+ q "nav" +:+ ">";
    "        <div class=" +:+ q "container nav-content" +:+ ">";
    "            <a href=" +:+ dq +:+ url_prefix +:+ "/" +:+ dq
      +:+ " class=" +:+ q "nav-logo" +:+ ">" +:+ meta_title SITE_META
      +:+ "</a>";
    "            <div class=" +:+ q "nav-links" +:+ ">";
    "                <a href=" +:+ dq +:+ url_prefix +:+ "/" +:+ dq
      +:+ " class=" +:+ q "link" +:+ ">Home</a>";
    "                <a href=" +:+ dq +:+ url_prefix
      +:+ "/trending/latest.html" +:+ dq +:+ " class=" +:+ q "link"
      +:+ ">Trends</a>";
    "                <a href=" +:+ dq +:+ url_prefix
      +:+ "/category/plugin.html" +:+ dq +:+ " class=" +:+ q "link"
      +:+ ">Categories</a>";
    "            </div>";
    "        </div>";
    "    </nav>";
    EmptyString;
    "    <main>";
    "        " +:+ body_content;
    "    </main>";
    EmptyString;
    "    <footer class=" +:+ q "footer container" +:+ ">";
    "        <p>© " +:+ str_of_int current_year +:+ " "
      +:+ meta_title SITE_META +:+ ". Curated by AI.</p>";
    "        <p style=" +:+ q "margin-top: 8px;" +:+ ">";
    "            <a href=" +:+ dq +:+ "https://github.com/topics/" +:+ TOPIC
      +:+ dq +:+ ">#" +:+ TOPIC +:+ "</a> &bull; ";
    "            <a href="
      +:+ q "https://github.com/geekjourneyx/github-topics-trending"
      +:+ ">GitHub</a>";
    "        </p>";
    "    </footer>";
    "</body>";
    "</html>" ].

Definition _format_repo_card (r : repo) : string :=
  let repo_name := default EmptyString (repo_name r) in
  let url := default ("https://github.com/" +:+ repo_name) (url r) in
  let stars := default 0%Z (stars r) in
  let summary := summary_or_description r in
  let category := default EmptyString (category_zh r) in
  let tag :=
    match category with
    | EmptyString => EmptyString
    | _ => "<span class=" +:+ q "tag" +:+ ">" +:+ category +:+ "</span>"
    end in
  lines [
    EmptyString;
    "        <div class=" +:+ q "repo-card" +:+ ">";
    "            <div class=" +:+ q "card-header" +:+ ">";
    "                <div class=" +:+ q "repo-name" +:+ "><a href=" +:+ dq
      +:+ url +:+ dq +:+ " target=" +:+ q "_blank" +:+ ">"
      +:+ str_replace slash " / " repo_name +:+ "</a></div>";
    "                <div class=" +:+ q "repo-stats" +:+ ">★ "
      +:+ format_number stars +:+ "</div>";
    "            </div>";
    "            <p class=" +:+ q "repo-desc" +:+ ">" +:+ summary +:+ "</p>";
    "            <div class=" +:+ q "card-footer" +:+ ">";
    "                " +:+ tag;
    "            </div>";
    "        </div>";
    "        " ].

Definition _format_repo_list_item (r : repo) : string :=
  let repo_name := default EmptyString (repo_name r) in
  let url := default ("https://github.com/" +:+ repo_name) (url r) in
  let stars_delta := default 0%Z (stars_delta r) in
  let summary := summary_or_description r in
  let stars_display :=
    if (0 <? stars_delta)%Z then "+" +:+ format_number stars_delta
    else str_of_int stars_delta in
  lines [
    EmptyString;
    "        <a href=" +:+ dq +:+ url +:+ dq +:+ " target=" +:+ q "_blank"
      +:+ " class=" +:+ q "list-item" +:+ ">";
    "            <div class=" +:+ q "li-header" +:+ ">";
    "                <span class=" +:+ q "li-name" +:+ ">"
      +:+ split_last slash repo_name +:+ "</span>";
    "                <span class=" +:+ q "li-stars" +:+ ">"
      +:+ stars_display +:+ " ★</span>";
    "            </div>";
    "            <p class=" +:+ q "li-desc" +:+ ">" +:+ summary +:+ "</p>";
    "        </a>";
    "        " ].

(** [[k for k, v in CATEGORIES.items() if v == category][0]] *)
Definition category_key (category : category_info) : result string :=
  match filter (λ kv, kv.2 = category) CATEGORIES with
  | kv :: _ => Ok kv.1
  | [] => Err (Exception "IndexError" "list index out of range")
  end.

Definition _format_category_card (category : category_info) : result string :=
  match category_key category with
  | Ok key =>
      Ok (lines [
    EmptyString;
    "        <a href=" +:+ dq +:+ url_prefix +:+ "/category/" +:+ key
      +:+ ".html" +:+ dq +:+ " class=" +:+ q "category-card" +:+ ">";
    "            <div class=" +:+ q "cat-icon" +:+ ">" +:+ cat_icon category
      +:+ "</div>";
    "            <div class=" +:+ q "cat-name" +:+ ">" +:+ cat_name category
      +:+ "</div>";
    "        </a>";
    "        " ])
  | Err e => Err e
  end.

Definition index_body (date repo_cards category_cards : string) : string :=
  lines [
    EmptyString;
    "        <header class=" +:+ q "hero" +:+ ">";
    "            <div class=" +:+ q "hero-content" +:+ ">";
    "                <span class=" +:+ q "hero-label"
      +:+ ">Daily Trending</span>";
    "                <h1 class=" +:+ q "hero-title" +:+ ">"
      +:+ meta_title SITE_META +:+ "</h1>";
    "                <p class=" +:+ q "hero-subtitle" +:+ ">"
      +:+ meta_subtitle SITE_META +:+ "</p>";
    "                <div class=" +:+ q "hero-meta" +:+ ">";
    "                    <span class=" +:+ q "date-badge" +:+ ">" +:+ date
      +:+ "</span>";
    "                    <span class=" +:+ q "topic-badge" +:+ ">#"
      +:+ TOPIC +:+ "</span>";
    "                </div>";
    "            </div>";
    "        </header>";
    EmptyString;
    "        <div class=" +:+ q "container" +:+ ">";
    "            <section class=" +:+ q "section" +:+ ">";
    "                <div class=" +:+ q "section-header" +:+ ">";
    "                    <h2 class=" +:+ q "section-title"
      +:+ ">Top 20 Selection</h2>";
    "                    <p class=" +:+ q "section-desc"
      +:+ ">AI-curated essentials for today.</p>";
    "                </div>";
    "                <div class=" +:+ q "repo-grid" +:+ ">";
    "                    " +:+ repo_cards;
    "                </div>";
    "            </section>";
    EmptyString;
    "            <section class=" +:+ q "section" +:+ ">";
    "                <div class=" +:+ q "section-header" +:+ ">";
    "                    <h2 class=" +:+ q "section-title"
      +:+ ">Browse by Category</h2>";
    "                </div>";
    "                <div class=" +:+ q "category-grid" +:+ ">";
    "                    " +:+ category_cards;
    "                </div>";
    "            </section>";
    "        </div>";
    "        " ].

(** The home page for the entries [top_20]; the category cards
    look their key up and so may raise. *)
Definition index_content (top_20 : list repo) (date : string) : result string :=
  let repo_cards := str_concat (map _format_repo_card top_20) in
  match map_result _format_category_card (map snd CATEGORIES) with
  | Ok category_cards =>
      Ok (_get_base_html "Home"
            (index_body date repo_cards (str_concat category_cards)))
  | Err e => Err e
  end.

Definition generate_index (trends : TrendResult) (date : string) : M string :=
  let top_20 := take 20 (top_20 trends) in
  let* content := lift (index_content top_20 date) in
  let path := path_join self_output_dir "index.html" in
  let* _ := path_write_text path content in
  ret path.

Definition trending_body (date rising new active_items : string) : string :=
  lines [
    EmptyString;
    "        <header class=" +:+ q "page-header container" +:+ ">";
    "            <h1 class=" +:+ q "page-title" +:+ ">Trends Report</h1>";
    "            <p class=" +:+ q "page-subtitle" +:+ ">" +:+ date
      +:+ "</p>";
    "        </header>";
    EmptyString;
    "        <div class=" +:+ q "container" +:+ ">";
    "            <div class=" +:+ q "trend-grid" +:+ ">";
    "                <div class=" +:+ q "trend-column" +:+ ">";
    "                    <h2 class=" +:+ q "column-title"
      +:+ ">🔥 Rising Stars</h2>";
    "                    <div class=" +:+ q "repo-list" +:+ ">";
    "                        " +:+ rising;
    "                    </div>";
    "                </div>";
    EmptyString;
    "                <div class=" +:+ q "trend-column" +:+ ">";
    "                    <h2 class=" +:+ q "column-title"
      +:+ ">✨ New Arrivals</h2>";
    "                    <div class=" +:+ q "repo-list" +:+ ">";
    "                        " +:+ new;
    "                    </div>";
    "                </div>";
    "                ";
    "                <div class=" +:+ q "trend-column" +:+ ">";
    "                    <h2 class=" +:+ q "column-title"
      +:+ ">⚡ Active Today</h2>";
    "                    <div class=" +:+ q "repo-list" +:+ ">";
    "                        " +:+ active_items;
    "                    </div>";
    "                </div>";
    "            </div>";
    "        </div>";
    "        " ].

Definition trending_content (rising new_entries active : list repo)
    (date : string) : string :=
  _get_base_html ("Trending - " +:+ date)
    (trending_body date
       (str_concat (map _format_repo_list_item rising))
       (str_concat (map _format_repo_list_item new_entries))
       (str_concat (map _format_repo_list_item active))).

Definition generate_trending_page (trends : TrendResult) (date : string) : M string :=
  let content :=
    trending_content (rising_top5 trends) (take 10 (new_entries trends))
                     (active trends) date in
  let filename := date +:+ ".html" in
  let path := path_join (path_join self_output_dir "trending") filename in
  let* _ := path_write_text path content in
  let latest_path := path_join (path_join self_output_dir "trending") "latest.html" in
  let* _ := path_write_text latest_path content in
  ret path.

Definition category_body (info : category_info) (repo_cards : string) : string :=
  lines [
    EmptyString;
    "        <header class=" +:+ q "page-header container" +:+ ">";
    "            <div class=" +:+ q "category-icon-large" +:+ ">"
      +:+ cat_icon info +:+ "</div>";
    "            <h1 class=" +:+ q "page-title" +:+ ">" +:+ cat_name info
      +:+ "</h1>";
    "            <p class=" +:+ q "page-subtitle" +:+ ">"
      +:+ cat_description info +:+ "</p>";
    "        </header>";
    EmptyString;
    "        <div class=" +:+ q "container" +:+ ">";
    "            <div class=" +:+ q "repo-grid" +:+ ">";
    "                " +:+ repo_cards;
    "            </div>";
    "        </div>";
    "        " ].

Definition category_content (info : category_info) (repos : list repo) : string :=
  _get_base_html (cat_name info)
    (category_body info (str_concat (map _format_repo_card repos))).

(** One turn of the loop of [generate_category_pages]. *)
Definition generate_category_page (kv : string * category_info) : M string :=
  let key := kv.1 in
  let info := kv.2 in
  let* repos := call (get_repos_by_category key 50)
                     (get_repos_by_category_result key 50) in
  let content := category_content info repos in
  let path := path_join (path_join self_output_dir "category") (key +:+ ".html") in
  let* _ := path_write_text path content in
  ret path.

Definition generate_category_pages : M (list string) :=
  map_M generate_category_page CATEGORIES.

Definition css : string :=
  lines [
  EmptyString;
  "/* Minimalist Design System */";
  "@import url('https://fonts.googleapis.com/css2?family=Inter:wght@300;400;500;600;700&display=swap');";
  "@import url('https://fonts.googleapis.com/css2?family=JetBrains+Mono:wght@400;500&display=swap');";
  EmptyString;
  ":root {";
  "    --bg: #ffffff;";
  "    --text-primary: #111111;";
  "    --text-secondary: #666666;";
  "    --text-tertiary: #999999;";
  "    --accent: #111111;";
  "    --border: #eaeaea;";
  "    --card-bg: #ffffff;";
  "    --card-hover: #fafafa;";
  "    --nav-height: 64px;";
  "    --radius: 8px;";
  "}";
  EmptyString;
  "@media (prefers-color-scheme: dark) {";
  "    :root {";
  "        --bg: #0a0a0a;";
  "        --text-primary: #ededed;";
  "        --text-secondary: #a1a1a1;";
  "        --text-tertiary: #666666;";
  "        --accent: #ededed;";
  "        --border: #2a2a2a;";
  "        --card-bg: #0a0a0a;";
  "        --card-hover: #111111;";
  "    }";
  "}";
  EmptyString;
  "* { margin: 0; padding: 0; box-sizing: border-box; }";
  EmptyString;
  "body {";
  "    font-family: 'Inter', -apple-system, BlinkMacSystemFont, sans-serif;";
  "    background-color: var(--bg);";
  "    color: var(--text-primary);";
  "    line-height: 1.6;";
  "    -webkit-font-smoothing: antialiased;";
  "}";
  EmptyString;
  "/* Layout */";
  ".container {";
  "    max-width: 1024px;";
  "    margin: 0 auto;";
  "    padding: 0 24px;";
  "}";
  EmptyString;
  "/* Navigation */";
  ".nav {";
  "    height: var(--nav-height);";
  "    border-bottom: 1px solid var(--border);";
  "    position: sticky;";
  "    top: 0;";
  "    background: var(--bg);";
  "    z-index: 100;";
  "    backdrop-filter: blur(10px);";
  "    background-color: rgba(255, 255, 255, 0.8);";
  "}";
  EmptyString;
  "@media (prefers-color-scheme: dark) {";
  "    .nav { background-color: rgba(10, 10, 10, 0.8); }";
  "}";
  EmptyString;
  ".nav-content {";
  "    height: 100%;";
  "    display: flex;";
  "    justify-content: space-between;";
  "    align-items: center;";
  "}";
  EmptyString;
  ".nav-logo {";
  "    font-weight: 700;";
  "    font-size: 1.1rem;";
  "    color: var(--text-primary);";
  "    text-decoration: none;";
  "    letter-spacing: -0.02em;";
  "}";
  EmptyString;
  ".nav-links {";
  "    display: flex;";
  "    gap: 24px;";
  "}";
  EmptyString;
  ".link {";
  "    color: var(--text-secondary);";
  "    text-decoration: none;";
  "    font-size: 0.95rem;";
  "    font-weight: 500;";
  "    transition: color 0.2s;";
  "}";
  EmptyString;
  ".link:hover, .link.active {";
  "    color: var(--text-primary);";
  "}";
  EmptyString;
  "/* Hero Section */";
  ".hero {";
  "    padding: 100px 0 80px;";
  "    text-align: center;";
  "}";
  EmptyString;
  ".hero-label {";
  "    text-transform: uppercase;";
  "    font-size: 0.75rem;";
  "    letter-spacing: 0.1em;";
  "    color: var(--text-secondary);";
  "    font-weight: 600;";
  "    margin-bottom: 16px;";
  "    display: block;";
  "}";
  EmptyString;
  ".hero-title {";
  "    font-size: 3.5rem;";
  "    font-weight: 800;";
  "    line-height: 1.1;";
  "    margin-bottom: 16px;";
  "    letter-spacing: -0.03em;";
  "    background: linear-gradient(to right, var(--text-primary), var(--text-secondary));";
  "    -webkit-background-clip: text;";
  "    -webkit-text-fill-color: transparent;";
  "}";
  EmptyString;
  ".hero-subtitle {";
  "    font-size: 1.25rem;";
  "    color: var(--text-secondary);";
  "    max-width: 600px;";
  "    margin: 0 auto 32px;";
  "}";
  EmptyString;
  ".hero-meta {";
  "    display: flex;";
  "    justify-content: center;";
  "    gap: 12px;";
  "}";
  EmptyString;
  ".date-badge, .topic-badge {";
  "    padding: 6px 14px;";
  "    background: var(--card-hover);";
  "    border: 1px solid var(--border);";
  "    border-radius: 99px;";
  "    font-size: 0.85rem;";
  "    font-weight: 500;";
  "    color: var(--text-secondary);";
  "}";
  EmptyString;
  "/* Page Headers */";
  ".page-header {";
  "    padding: 80px 0 40px;";
  "    text-align: left;";
  "}";
  ".page-header.container { text-align: left; }";
  ".page-title {";
  "    font-size: 2.5rem;";
  "    font-weight: 700;";
  "    letter-spacing: -0.02em;";
  "    margin-bottom: 8px;";
  "}";
  ".page-subtitle {";
  "    color: var(--text-secondary);";
  "    font-size: 1.1rem;";
  "}";
  EmptyString;
  "/* Sections */";
  ".section { margin-bottom: 80px; }";
  ".section-header { margin-bottom: 32px; }";
  ".section-title {";
  "    font-size: 1.5rem;";
  "    font-weight: 600;";
  "    letter-spacing: -0.02em;";
  "    margin-bottom: 4px;";
  "}";
  ".section-desc { color: var(--text-secondary); }";
  EmptyString;
  "/* Repo Cards */";
  ".repo-grid {";
  "    display: grid;";
  "    grid-template-columns: repeat(auto-fill, minmax(320px, 1fr));";
  "    gap: 24px;";
  "}";
  EmptyString;
  ".repo-card {";
  "    background: var(--card-bg);";
  "    border: 1px solid var(--border);";
  "    border-radius: var(--radius);";
  "    padding: 24px;";
  "    display: flex;";
  "    flex-direction: column;";
  "    transition: all 0.2s ease;";
  "    height: 100%;";
  "    position: relative;";
  "    top: 0;";
  "}";
  EmptyString;
  ".repo-card:hover {";
  "    border-color: var(--text-primary);";
  "    transform: translateY(-2px);";
  "    box-shadow: 0 10px 30px -10px rgba(0,0,0,0.05);";
  "}";
  EmptyString;
  ".card-header {";
  "    display: flex;";
  "    justify-content: space-between;";
  "    align-items: flex-start;";
  "    margin-bottom: 16px;";
  "}";
  EmptyString;
  ".repo-name {";
  "    font-size: 1.1rem;";
  "    font-weight: 600;";
  "}";
  EmptyString;
  ".repo-name a {";
  "    color: var(--text-primary);";
  "    text-decoration: none;";
  "}";
  ".repo-name a:hover { text-decoration: underline; }";
  EmptyString;
  ".repo-stats {";
  "    font-family: 'JetBrains Mono', monospace;";
  "    font-size: 0.8rem;";
  "    color: var(--text-secondary);";
  "    background: var(--card-hover);";
  "    padding: 4px 8px;";
  "    border-radius: 4px;";
  "}";
  EmptyString;
  ".repo-desc {";
  "    font-size: 0.95rem;";
  "    color: var(--text-secondary);";
  "    margin-bottom: 20px;";
  "    flex-grow: 1;";
  "    display: -webkit-box;";
  "    -webkit-line-clamp: 3;";
  "    -webkit-box-orient: vertical;";
  "    overflow: hidden;";
  "}";
  EmptyString;
  ".card-footer {";
  "    display: flex;";
  "    gap: 8px;";
  "    flex-wrap: wrap;";
  "}";
  EmptyString;
  ".tag {";
  "    font-size: 0.75rem;";
  "    padding: 4px 10px;";
  "    border-radius: 99px;";
  "    border: 1px solid var(--border);";
  "    color: var(--text-secondary);";
  "    font-weight: 500;";
  "}";
  EmptyString;
  "/* Category Grid */";
  ".category-grid {";
  "    display: grid;";
  "    grid-template-columns: repeat(auto-fill, minmax(200px, 1fr));";
  "    gap: 16px;";
  "}";
  EmptyString;
  ".category-card {";
  "    padding: 24px;";
  "    border: 1px solid var(--border);";
  "    border-radius: var(--radius);";
  "    text-decoration: none;";
  "    color: var(--text-primary);";
  "    transition: all 0.2s;";
  "    display: flex;";
  "    flex-direction: column;";
  "    align-items: center;";
  "    text-align: center;";
  "}";
  EmptyString;
  ".category-card:hover {";
  "    background: var(--card-hover);";
  "    border-color: var(--text-secondary);";
  "}";
  EmptyString;
  ".cat-icon { font-size: 2rem; margin-bottom: 12px; }";
  ".cat-name { font-weight: 600; font-size: 1rem; }";
  EmptyString;
  "/* Lists */";
  ".trend-grid {";
  "    display: grid;";
  "    grid-template-columns: repeat(auto-fit, minmax(300px, 1fr));";
  "    gap: 40px;";
  "}";
  EmptyString;
  ".column-title {";
  "    font-size: 1.2rem;";
  "    font-weight: 600;";
  "    margin-bottom: 24px;";
  "    padding-bottom: 12px;";
  "    border-bottom: 1px solid var(--border);";
  "}";
  EmptyString;
  ".repo-list { display: flex; flex-direction: column; gap: 16px; }";
  EmptyString;
  ".list-item {";
  "    display: block;";
  "    text-decoration: none;";
  "    padding: 16px;";
  "    border: 1px solid var(--border);";
  "    border-radius: var(--radius);";
  "    transition: all 0.2s;";
  "}";
  EmptyString;
  ".list-item:hover {";
  "    border-color: var(--text-primary);";
  "    background: var(--card-hover);";
  "}";
  EmptyString;
  ".li-header {";
  "    display: flex;";
  "    justify-content: space-between;";
  "    margin-bottom: 6px;";
  "}";
  EmptyString;
  ".li-name { color: var(--text-primary); font-weight: 600; }";
  ".li-stars { font-family: 'JetBrains Mono', monospace; font-size: 0.8rem; color: var(--text-secondary); }";
  ".li-desc { font-size: 0.85rem; color: var(--text-secondary); white-space: nowrap; overflow: hidden; text-overflow: ellipsis; }";
  EmptyString;
  "/* Footer */";
  ".footer {";
  "    border-top: 1px solid var(--border);";
  "    padding: 40px 0;";
  "    margin-top: 80px;";
  "    color: var(--text-tertiary);";
  "    font-size: 0.9rem;";
  "    text-align: center;";
  "}";
  EmptyString;
  ".footer a { color: var(--text-secondary); text-decoration: none; }";
  ".footer a:hover { color: var(--text-primary); }";
  EmptyString;
  "@media (max-width: 768px) {";
  "    .hero-title { font-size: 2.5rem; }";
  "}";
  EmptyString ].

Definition generate_css : M string :=
  let path := path_join (path_join (path_join self_output_dir "assets") "css")
                        "style.css" in
  let* _ := path_write_text path css in
  ret path.

Definition generate_all (trends : TrendResult) (date : string) : M (list string) :=
  let* index_path := generate_index trends date in
  let* trending_path := generate_trending_page trends date in
  let* category_files := generate_category_pages in
  let* css_path := generate_css in
  ret ([index_path] ++ [trending_path] ++ category_files ++ [css_path]).

(** [generate_website]: construct the generator, then generate. *)
Definition generate_website (trends : TrendResult) (date : string) : M (list string) :=
  let* _ := __init__ in
  generate_all trends date.

End web_generator.
End WebGenerator.

(** * src/main.py *)

Module Driver.
Section main.
Context `{Config} `{World}.

Definition check_environment : bool :=
  negb (String.eqb GITHUB_TOKEN EmptyString)
  && negb (String.eqb NVIDIA_API_KEY EmptyString)
  && negb (String.eqb TELEGRAM_BOT_TOKEN EmptyString)
  && negb (String.eqb TELEGRAM_CHAT_ID EmptyString).

(** [sys.exit(code)] *)
Definition sys_exit {A} (code : Z) : M A := raise (SystemExit code).

(** [d[k]] *)
Definition dict_item (k : string) (d : pydict) : result pyval :=
  match dict_lookup k d with
  | Some v => Ok v
  | None => Err (Exception "KeyError" ("'" +:+ k +:+ "'"))
  end.

(** [r["repo_name"]] *)
Definition repo_name_item (r : repo) : result string :=
  match repo_name r with
  | Some s => Ok s
  | None => Err (Exception "KeyError" "'repo_name'")
  end.

(** The loop that copies the README summaries into the repository
    dicts.  The dicts of [top_repos] are those of [today_repos]. *)
Definition merge_readme (readme_summaries : list (string * string)) (r : repo) : repo :=
  match repo_name r ≫= λ n, dict_lookup n readme_summaries with
  | Some s => set_readme_summary s r
  | None => r
  end.

(** [{s["repo_name"]: s for s in ai_summaries}]: a record without
    the key raises a KeyError, an unhashable name a TypeError; a
    name that is there already keeps its place and gets the later
    record. *)
Fixpoint summary_map_from (acc : list (pyval * pydict)) (ai_summaries : list pydict)
    : result (list (pyval * pydict)) :=
  match ai_summaries with
  | [] => Ok acc
  | s :: rest =>
      match dict_item "repo_name" s with
      | Ok k =>
          if hashable k then summary_map_from (map_set k s acc) rest
          else Err (Exception "TypeError"
                      ("unhashable type: '" +:+ type_name k +:+ "'"))
      | Err e => Err e
      end
  end.

Definition summary_map (ai_summaries : list pydict) : result (list (pyval * pydict)) :=
  summary_map_from [] ai_summaries.

(** Steps 1 to 5: fetch, READMEs, AI analysis, detail save, trends.
    The fetcher, the README fetcher and the analyzer are constructed
    and called in one go.  [ai_summary_map] is handed over as the
    dict the comprehension builds, its items in insertion order. *)
Definition analysis (today : string) : M TrendResult :=
  (* 1 *)
  let* today_repos := call (GitHubFetcher_fetch "stars" 100) fetch_result in
  (* 2 *)
  let top_repos := slice_to TOP_N_DETAILS today_repos in
  let* readme_summaries :=
    call (batch_fetch_readmes top_repos) (batch_fetch_readmes_result top_repos) in
  let top_repos := map (merge_readme readme_summaries) top_repos in
  let today_repos := top_repos ++ slice_from TOP_N_DETAILS today_repos in
  (* 3 *)
  let* _ := AISummarizer.__init__ in
  let* ai_summaries := AISummarizer.summarize_and_classify top_repos in
  let* ai_summary_map := lift (summary_map ai_summaries) in
  (* 4 *)
  let* _ := call (save_repo_details ai_summaries)
                 (save_repo_details_result ai_summaries) in
  (* 5 *)
  call (calculate_trends_call today_repos today ai_summary_map DEDUPLICATE_DAYS)
       (calculate_trends_result today_repos today ai_summary_map DEDUPLICATE_DAYS).

(** Step 7: the Telegram push and the record of what was pushed. *)
Definition notify (trends : TrendResult) (today : string) : M unit :=
  let* result :=
    TelegramSender.send_report TELEGRAM_BOT_TOKEN TELEGRAM_CHAT_ID trends today in
  let* success := lift (dict_item "success" result) in
  if truthy success then
    let* notified_repos := lift (map_result repo_name_item (top_20 trends)) in
    match notified_repos with
    | [] => ret tt
    | _ => call (record_notification notified_repos)
                (record_notification_result notified_repos)
    end
  else ret tt.

(** Step 8: the web site. *)
Definition publish (trends : TrendResult) (today : string) : M (list string) :=
  let* _ := WebGenerator.__init__ OUTPUT_DIR in
  WebGenerator.generate_all OUTPUT_DIR trends today.

(** Steps 6 to 9: HTML report, notification, web site, cleanup. *)
Definition delivery (trends : TrendResult) (today : string) : M unit :=
  (* 6 *)
  let* html_content := call (generate_email_html today)
                            (generate_email_html_result trends today) in
  (* 7 *)
  let* _ := notify trends today in
  (* 8 *)
  let* web_files := publish trends today in
  (* 9 *)
  let* deleted := call (cleanup_old_data DB_RETENTION_DAYS)
                       (cleanup_old_data_result DB_RETENTION_DAYS) in
  ret tt.

(** The body of the [try] statement. *)
Definition pipeline (today : string) : M unit :=
  let* trends := analysis today in
  delivery trends today.

(** The two [except] clauses of [main]. *)
Definition main_clauses (e : exn) : option (M unit) :=
  match e with
  | KeyboardInterrupt => Some (sys_exit 130)
  | _ => Some (sys_exit 1)
  end.

Definition main : M unit :=
  if negb check_environment then sys_exit 1
  else
    let today := get_today_date in
    let* _ := call (Database_init DB_PATH) Database_init_result in
    try_finally
      (try_except (pipeline today) main_clauses)
      (call db_close db_close_result).

(** The status the interpreter exits with when [main] was its last
    call: 0 on return, the code of a [SystemExit], 1 for an
    exception that reaches the top, 130 for an interrupt that does. *)
Definition exit_status (o : outcome unit) : Z :=
  match o with
  | Return _ => 0
  | Raise (SystemExit code) => code
  | Raise (Exn KeyboardInterrupt) => 130
  | Raise (Exn _) => 1
  end.

End main.
End Driver.

(** * The trend computation engine and the snapshot store

    [src/trend_analyzer.py] and [src/database.py] are not part of the
    tree.  This module follows sections 3 and 4 of the specification.
    A calendar day is its day number. *)

Module TrendEngine.

(** Stable insertion sort for a boolean order. *)
Fixpoint insert_sorted {A} (le : A → A → bool) (x : A) (l : list A) : list A :=
  match l with
  | [] => [x]
  | y :: l' => if le x y then x :: l else y :: insert_sorted le x l'
  end.

Definition sort_by {A} (le : A → A → bool) (l : list A) : list A :=
  foldr (insert_sorted le) [] l.

(** Modelled from the spec: the repository record of the fetcher,
    src/github_fetcher.py, which is not in the tree (section 1). *)
Record RepositoryRecord := {
  r_repo_name : string;
  r_stars : Z;
  r_language : string;
  r_topics : list string;
  r_description : string;
  r_url : string
}.

(** Modelled from the spec: a row of the snapshot table of
    src/database.py, which is not in the tree: one repository on one
    day (section 3). *)
Record RepositorySnapshotEntry := {
  s_repo_name : string;
  s_stars : Z;
  s_rank : positive;
  s_date : Z
}.

(** Modelled from the spec: a row of the detail table of
    src/database.py, the AI-derived enrichment (section 3). *)
Record RepositoryDetail := {
  d_summary : string;
  d_description : string;
  d_category : string;
  d_category_zh : string;
  d_tech_stack : list string;
  d_solves : list string;
  d_language : string;
  d_topics : list string;
  d_url : string
}.

(** Modelled from the spec: a row of the notification log of
    src/database.py, the proof of a past push (section 3). *)
Record NotificationRecord := {
  n_repo_name : string;
  n_notified_date : Z
}.

(** Modelled from the spec: the state of the store of
    src/database.py, its three logical tables (section 6); the
    notification log is append-only and not unique. *)
Record Store := {
  snapshots : list RepositorySnapshotEntry;
  details : gmap string RepositoryDetail;
  notifications : list NotificationRecord
}.

Definition empty_store : Store :=
  {| snapshots := []; details := ∅; notifications := [] |}.

(** Modelled from the spec: [save_today_snapshot(date, entries)] of
    src/database.py (section 4.1).  It replaces the rows of [date];
    ranks are 1-based, in the order received. *)
Definition save_today_snapshot (date : Z) (entries : list RepositoryRecord)
    (st : Store) : Store :=
  {| snapshots :=
       filter (λ e, s_date e ≠ date) (snapshots st)
       ++ imap (λ i r, {| s_repo_name := r_repo_name r; s_stars := r_stars r;
                          s_rank := Pos.of_succ_nat i; s_date := date |}) entries;
     details := details st;
     notifications := notifications st |}.

(** Modelled from the spec: the most recent tracked day strictly
    before [before_date], as [get_previous_snapshot] needs it. *)
Definition previous_date (before_date : Z) (st : Store) : option Z :=
  match map s_date (filter (λ e, (s_date e < before_date)%Z) (snapshots st)) with
  | [] => None
  | d :: ds => Some (foldr Z.max d ds)
  end.

Definition snapshot_on (date : Z) (st : Store) : list RepositorySnapshotEntry :=
  sort_by (λ a b, (s_rank a <=? s_rank b)%positive)
          (filter (λ e, s_date e = date) (snapshots st)).

(** Modelled from the spec: [get_previous_snapshot(before_date)] of
    src/database.py (section 4.1), the most recent snapshot strictly
    earlier, by rank, empty when there is none. *)
Definition get_previous_snapshot (before_date : Z) (st : Store)
    : list RepositorySnapshotEntry :=
  match previous_date before_date st with
  | Some d => snapshot_on d st
  | None => []
  end.

(** Modelled from the spec: [get_notified_repo_names(since_date)] of
    src/database.py (section 4.1), the names with a notification
    dated on or after [since_date]. *)
Definition get_notified_repo_names (since_date : Z) (st : Store) : gset string :=
  list_to_set
    (map n_repo_name
         (filter (λ n, (since_date ≤ n_notified_date n)%Z) (notifications st))).

(** Modelled from the spec: [record_notification(repo_names, date)]
    of src/database.py (section 4.1), which appends one record per
    name. *)
Definition record_notification (repo_names : list string) (date : Z)
    (st : Store) : Store :=
  {| snapshots := snapshots st;
     details := details st;
     notifications :=
       notifications st
       ++ map (λ n, {| n_repo_name := n; n_notified_date := date |}) repo_names |}.

(** Modelled from the spec: an entry of today's enriched working
    set of src/trend_analyzer.py, which is not in the tree: the
    record, its enrichment and its star delta (section 4.2). *)
Record EnrichedEntry := {
  entry : RepositoryRecord;
  detail : RepositoryDetail;
  delta : Z
}.

(** Modelled from the spec: the output of the engine of
    src/trend_analyzer.py (section 3). *)
Record TrendResult := {
  topic : string;
  top_20 : list EnrichedEntry;
  rising_top5 : list EnrichedEntry;
  new_entries : list EnrichedEntry;
  dropped_entries : list RepositorySnapshotEntry;
  surging : list EnrichedEntry;
  active : list EnrichedEntry
}.

Section engine.
(** The topic tracked, and what the specification leaves open in
    the fallback enrichment: how a description is truncated and
    the display name of the sentinel category. *)
Variables (TOPIC : string) (truncate : string → string) (other_zh : string).

(** Modelled from the spec: the fallback enrichment of step 1 of
    [calculate_trends], summary = truncated description and category
    = other. *)
Definition fallback_detail (r : RepositoryRecord) : RepositoryDetail :=
  {| d_summary := truncate (r_description r);
     d_description := r_description r;
     d_category := "other";
     d_category_zh := other_zh;
     d_tech_stack := [];
     d_solves := [];
     d_language := r_language r;
     d_topics := r_topics r;
     d_url := r_url r |}.

(** Modelled from the spec: steps 2 and 3 of [calculate_trends],
    [previous_stars] and the delta, 0 for a repository that was not
    there. *)
Definition previous_stars_of (previous : list RepositorySnapshotEntry)
    : gmap string Z :=
  list_to_map (map (λ e, (s_repo_name e, s_stars e)) previous).

Definition enrich (enrichment_map : gmap string RepositoryDetail)
    (previous_stars : gmap string Z) (r : RepositoryRecord) : EnrichedEntry :=
  {| entry := r;
     detail := default (fallback_detail r) (enrichment_map !! r_repo_name r);
     delta := r_stars r - default (r_stars r) (previous_stars !! r_repo_name r) |}.

Definition e_name (e : EnrichedEntry) : string := r_repo_name (entry e).
Definition e_stars (e : EnrichedEntry) : Z := r_stars (entry e).

(** Modelled from the spec: the order of step 6, descending delta,
    then descending stars, then name. *)
Definition rising_before (a b : EnrichedEntry) : bool :=
  if (delta b <? delta a)%Z then true
  else if (delta a <? delta b)%Z then false
  else if (e_stars b <? e_stars a)%Z then true
  else if (e_stars a <? e_stars b)%Z then false
  else String.leb (e_name a) (e_name b).

(** Modelled from the spec: the test of step 7, delta at least
    max(10, 10% of the previous stars). *)
Definition is_surging (previous_stars : gmap string Z) (e : EnrichedEntry) : bool :=
  let prev := default (e_stars e) (previous_stars !! e_name e) in
  (10 <=? delta e)%Z && (prev <=? 10 * delta e)%Z.

(** Modelled from the spec: the walk of step 8, the [n] tracked
    snapshots before [before_date], most recent first; [None] when
    history runs out. *)
Fixpoint trailing_snapshots (n : nat) (before_date : Z) (st : Store)
    : option (list (list RepositorySnapshotEntry)) :=
  match n with
  | O => Some []
  | S n' =>
      match previous_date before_date st with
      | None => None
      | Some d =>
          match trailing_snapshots n' d st with
          | Some rest => Some (snapshot_on d st :: rest)
          | None => None
          end
      end
  end.

Definition in_snapshot (n : string) (snap : list RepositorySnapshotEntry) : bool :=
  bool_decide (n ∈ map s_repo_name snap).

(** Modelled from the spec: [calculate_trends] of
    src/trend_analyzer.py, which is not in the tree, steps 1 to 11 of
    section 4.2.  The result comes with the store after step 10. *)
Definition calculate_trends (st : Store) (today_entries : list RepositoryRecord)
    (today_date : Z) (enrichment_map : gmap string RepositoryDetail)
    (deduplicate_days : Z) : TrendResult * Store :=
  let previous := get_previous_snapshot today_date st in
  let previous_stars := previous_stars_of previous in
  let today := map (enrich enrichment_map previous_stars) today_entries in
  let today_names := map r_repo_name today_entries in
  let present e := bool_decide (is_Some (previous_stars !! e_name e)) in
  let new_entries := filter (λ e, present e = false) today in
  let dropped := filter (λ s, s_repo_name s ∉ today_names) previous in
  let rising :=
    take 5 (sort_by rising_before
              (filter (λ e, present e = true ∧ (0 < delta e)%Z) today)) in
  let surging := filter (λ e, is_surging previous_stars e = true) today in
  let active :=
    match trailing_snapshots 3 today_date st with
    | Some snaps =>
        filter (λ e, forallb (in_snapshot (e_name e)) snaps = true) today
    | None => []
    end in
  let excluded := get_notified_repo_names (today_date - deduplicate_days) st in
  let top := take 20 (filter (λ e, e_name e ∉ excluded) today) in
  ({| topic := TOPIC; top_20 := top; rising_top5 := rising;
      new_entries := new_entries; dropped_entries := dropped;
      surging := surging; active := active |},
   save_today_snapshot today_date today_entries st).

End engine.
End TrendEngine.

(** * Observations on traces *)

(** The texts posted to Telegram and the lists of names handed to
    [record_notification], in order. *)
Definition posted_texts (t : list event) : list string :=
  omap (λ ev, match ev with
              | requests_post _ _ text _ => Some text
              | _ => None
              end) t.

Definition recorded_names (t : list event) : list (list string) :=
  omap (λ ev, match ev with
              | record_notification names => Some names
              | _ => None
              end) t.

Definition is_db_close (ev : event) : bool :=
  match ev with
  | db_close => true
  | _ => false
  end.

Definition is_record_notification (ev : event) : bool :=
  match ev with
  | record_notification _ => true
  | _ => false
  end.

(** The Telegram request, and the calls of the site generator. *)
Definition is_send (ev : event) : bool :=
  match ev with
  | requests_post _ _ _ _ => true
  | _ => false
  end.

Definition is_site (ev : event) : bool :=
  match ev with
  | mkdir _ | write_text _ _ | get_repos_by_category _ _ => true
  | _ => false
  end.

(** The calls of steps 1 to 5. *)
Definition is_analysis (ev : event) : bool :=
  match ev with
  | GitHubFetcher_fetch _ _ | batch_fetch_readmes _ | AISummarizer_init
  | chat_completions_create _ | save_repo_details _
  | calculate_trends_call _ _ _ _ => true
  | _ => false
  end.

(** A computation whose calls all satisfy [P] and which does not
    leave by [sys.exit]. *)
Definition confined {A} (P : event → bool) (m : M A) : Prop :=
  Forall (λ ev, P ev = true) (trace m) ∧ ∀ code, m.1 ≠ Raise (SystemExit code).

(** The decoded response as the list the validation loop runs over. *)
Definition as_list (v : pyval) : list pyval :=
  match v with
  | PList l => l
  | v => [v]
  end.

(** The fields the summarizer is to deliver, and those every record
    has. *)
Definition summary_fields : list string :=
  ["summary"; "description"; "category"; "category_zh";
   "tech_stack"; "solves"; "use_case"].

Definition common_fields : list string :=
  ["repo_name"; "summary"; "description"; "category"; "category_zh"].

Definition analysis_fields : list string := ["tech_stack"; "solves"; "use_case"].

(** The repositories every entry of which carries its name, and
    their names. *)
Definition named (l : list repo) : Prop := Forall (λ r, is_Some (repo_name r)) l.

Definition repo_names (l : list repo) : list string := omap repo_name l.

(** The result dict of a send says that the message went out. *)
Definition reports_success (d : pydict) : Prop :=
  ∃ v, dict_lookup "success" d = Some v ∧ truthy v = true.

(** A call that was not cut short by an interrupt of the process. *)
Definition uninterrupted {A} (res : result A) : Prop := res ≠ Err KeyboardInterrupt.

(** What the sender returns when it has no token or no chat id. *)
Definition not_configured : pydict :=
  [ ("success", PBool false); ("message", PStr "配置缺失") ].

(** The record the validation loop builds from a decoded object. *)
Definition record_of `{Config} `{World} (original_repos : list repo)
    (d : pydict) : pydict :=
  AISummarizer.validated_result (dict_get "repo_name" PNone d)
    (AISummarizer.original_of original_repos (dict_get "repo_name" PNone d)) d.

(** The path of a category page, and the calls that produce the page
    from what the store holds for the category. *)
Definition category_path `{Config} (output_dir : string)
    (kv : string * category_info) : string :=
  WebGenerator.path_join
    (WebGenerator.path_join (WebGenerator.self_output_dir output_dir) "category")
    (kv.1 +:+ ".html").

Definition category_calls `{Config} `{World} (output_dir : string)
    (stored : string → list repo) (kv : string * category_info) : list event :=
  [ get_repos_by_category kv.1 50;
    write_text (category_path output_dir kv)
               (WebGenerator.category_content kv.2 (stored kv.1)) ].

(** ** Further observations *)

(** A part of a path: not empty, not a dot, without a slash. *)
Definition is_part (x : string) : bool :=
  negb (String.eqb x EmptyString) && negb (String.eqb x ".")
  && negb (has_char WebGenerator.slash x).

(** A path as [pathlib] keeps it. *)
Definition normal (p : WebGenerator.path) : Prop :=
  (WebGenerator.path_root p = EmptyString ∨ WebGenerator.path_root p = "/"
   ∨ WebGenerator.path_root p = "//")
  ∧ Forall (λ x, is_part x = true) (WebGenerator.path_parts p).

(** A string of white space characters only. *)
Definition all_space (s : string) : bool := forallb isspace (chars s).

(** A string that is empty or starts a character. *)
Definition starts_char (s : string) : bool :=
  match s with
  | String c _ => negb (is_continuation c)
  | EmptyString => true
  end.

Fixpoint all_continuation (s : string) : bool :=
  match s with
  | EmptyString => true
  | String c s' => is_continuation c && all_continuation s'
  end.

(** One character: a byte and continuation bytes. *)
Definition is_char (ch : string) : bool :=
  match ch with
  | String _ k => all_continuation k
  | EmptyString => false
  end.

(** The decoded objects the validation loop keeps: the dicts whose
    [repo_name] is true. *)
Definition kept_objects (results : list pyval) : list pydict :=
  omap (λ v, match v with
             | PDict d =>
                 if truthy (dict_get "repo_name" PNone d) then Some d else None
             | _ => None
             end) results.


(** The link to the page of a category, as the pages write it. *)
Definition category_link `{Config} (key : string) : string :=
  "href=" +:+ dq +:+ WebGenerator.url_prefix +:+ "/category/" +:+ key
  +:+ ".html" +:+ dq.

(** The retention periods handed to [cleanup_old_data], in order. *)
Definition cleanups (t : list event) : list Z :=
  omap (λ ev, match ev with
              | cleanup_old_data days => Some days
              | _ => None
              end) t.

(** What the trend analyzer is called with: the repositories, the
    date and the deduplication window. *)
Definition analyzed (t : list event) : list (list repo * string * Z) :=
  omap (λ ev, match ev with
              | calculate_trends_call repos date _ days => Some (repos, date, days)
              | _ => None
              end) t.

(** [r'] is [r], but for a README summary it may have received. *)
Definition same_but_readme (r r' : repo) : Prop :=
  r' = r ∨ ∃ s, r' = set_readme_summary s r.

(** * Sample data *)

Definition mk_repo (n d : string) (s delta : Z) : repo :=
  {| repo_name := Some n; name := None; owner := None;
     description := Some d; language := Some "Python"; topics := Some ["cli"];
     url := Some ("https://github.com/" +:+ n); stars := Some s;
     stars_delta := Some delta; readme_summary := None;
     summary := None; category_zh := None |}.

Definition sample_config : Config :=
  {| GITHUB_TOKEN := "ghp_token";
     NVIDIA_API_KEY := "nvapi_key";
     NVIDIA_BASE_URL := "https://integrate.api.nvidia.com/v1";
     NVIDIA_MODEL := "nim-model";
     CLAUDE_MAX_TOKENS := 8192;
     TELEGRAM_BOT_TOKEN := "123:abc";
     TELEGRAM_CHAT_ID := "-1001";
     DEDUPLICATE_DAYS := 7;
     DB_PATH := "data/trending.db";
     DB_RETENTION_DAYS := 90;
     TOP_N_DETAILS := 50;
     TOPIC := "claude-code";
     OUTPUT_DIR := "docs";
     BASE_URL := "/github-topics-trending/";
     SITE_META := {| meta_title := "Topics Trending";
                     meta_subtitle := "Daily picks";
                     meta_description := "Trending repositories" |};
     CATEGORIES :=
       [ ("plugin", {| cat_name := "Plugins"; cat_icon := "P";
                       cat_description := "Extensions" |});
         ("tool", {| cat_name := "Tools"; cat_icon := "T";
                     cat_description := "Utilities" |});
         ("other", {| cat_name := "Other"; cat_icon := "O";
                      cat_description := "Everything else" |}) ];
     format_number := str_of_int |}.

Definition sample_repos : list repo :=
  [ mk_repo "acme/alpha"
      "A command line companion that keeps every project note in one place" 1200 0;
    mk_repo "acme/beta" "Tiny helper" 800 0 ].

(** A digest with eleven top picks. *)
Definition sample_trends : TrendResult :=
  {| topic := Some "claude-code";
     top_20 := map (λ n, mk_repo ("org/" +:+ n) ("About " +:+ n) 100 0)
                 ["one"; "two"; "three"; "four"; "five"; "six"; "seven";
                  "eight"; "nine"; "ten"; "eleven"];
     rising_top5 := [mk_repo "org/two" "About two" 100 30];
     new_entries := [mk_repo "org/three" "About three" 100 0];
     dropped_entries := [];
     surging := [];
     active := [] |}.

(** A response the model can give: one object, whose category is not
    one of the configured keys. *)
Definition sample_response : string :=
  "[{" +:+ q "repo_name" +:+ ": " +:+ q "acme/alpha" +:+ ", "
  +:+ q "summary" +:+ ": " +:+ q "Notes" +:+ ", "
  +:+ q "category" +:+ ": " +:+ q "banana" +:+ "}]".

Definition sample_decoded : pyval :=
  PList [ PDict [ ("repo_name", PStr "acme/alpha");
                  ("summary", PStr "Notes");
                  ("category", PStr "banana") ] ].

(** A world in which every collaborator answers; the fetcher, the AI
    endpoint, Telegram and the store's close are given. *)
Definition sample_world (fetch : result (list repo))
    (completion : result (option string)) (post close : result unit)
    : World :=
  {| get_today_date := "2026-01-15";
     current_year := 2026;
     Database_init_result := Ok tt;
     fetch_result := fetch;
     batch_fetch_readmes_result := λ _, Ok [("acme/alpha", "Alpha keeps notes.")];
     OpenAI_result := Ok tt;
     chat_completions_create_result := λ _, completion;
     json_loads := λ text,
       if String.eqb text sample_response then Ok sample_decoded
       else Err (JSONDecodeError "Expecting value");
     float_repr := λ _, "0.0";
     save_repo_details_result := λ _, Ok tt;
     calculate_trends_result := λ _ _ _ _, Ok sample_trends;
     generate_email_html_result := λ _ _, Ok "<html></html>";
     requests_post_result := λ _ _ _ _,
       match post with
       | Ok _ => Ok (PDict [("ok", PBool true)])
       | Err e => Err e
       end;
     record_notification_result := λ _, Ok tt;
     mkdir_result := λ _, Ok tt;
     get_repos_by_category_result := λ _ _, Ok sample_repos;
     write_text_result := λ _ _, Ok tt;
     cleanup_old_data_result := λ _, Ok 0%Z;
     db_close_result := close |}.

Definition happy_world : World :=
  sample_world (Ok sample_repos) (Ok (Some sample_response)) (Ok tt) (Ok tt).

(** Telegram rejects the message. *)
Definition rejecting_world : World :=
  sample_world (Ok sample_repos) (Ok (Some sample_response))
               (Err (Exception "ConnectionError" "timed out")) (Ok tt).

(** The AI endpoint is down. *)
Definition offline_world : World :=
  sample_world (Ok sample_repos) (Err (Exception "APIError" "503")) (Ok tt) (Ok tt).

(** The fetcher fails. *)
Definition fetchless_world : World :=
  sample_world (Err (Exception "HTTPError" "403")) (Ok None) (Ok tt) (Ok tt).

(** White space that is not ASCII: U+00A0 and U+3000. *)
Definition nbsp : string := String "194" (String "160" EmptyString).
Definition wide_space : string :=
  String "227" (String "128" (String "128" EmptyString)).

(** A description of 21 characters and a summary of 26, three bytes
    each. *)
Definition chinese_description : string :=
  "一个帮助开发者管理项目笔记的命令行小工具集".
Definition chinese_summary : string :=
  "把仓库里的笔记整理成每日摘要并推送到你的频道的小助手".

Definition mixed_repos : list repo :=
  [ mk_repo "acme/alpha"
      "A command line companion that keeps every project note in one place" 1200 0;
    mk_repo "acme/gamma" chinese_description 300 0 ].

(** Sample data for the engine. *)
Definition record (n : string) (s : Z) : TrendEngine.RepositoryRecord :=
  {| TrendEngine.r_repo_name := n; TrendEngine.r_stars := s;
     TrendEngine.r_language := "Python"; TrendEngine.r_topics := [];
     TrendEngine.r_description := "About " +:+ n;
     TrendEngine.r_url := "https://github.com/" +:+ n |}.

Definition sample_engine :=
  TrendEngine.calculate_trends "claude-code" (py_take 50) "Other".

Definition entry_names (l : list TrendEngine.EnrichedEntry) : list string :=
  map TrendEngine.e_name l.

(** A store in which x/y was pushed on day 100. *)
Definition pushed_store : TrendEngine.Store :=
  TrendEngine.record_notification ["x/y"] 100 TrendEngine.empty_store.

(** The stores of scenarios B and C of the specification: the
    snapshot of the day before, and a push three days ago. *)
Definition yesterday_store : TrendEngine.Store :=
  TrendEngine.save_today_snapshot 99 [record "A" 100; record "B" 50]
    TrendEngine.empty_store.

Definition pushed_three_days_ago : TrendEngine.Store :=
  TrendEngine.record_notification ["X"] 97 TrendEngine.empty_store.

(** More repositories than one prompt takes. *)
Definition twenty_one_repos : list repo :=
  replicate 21 (mk_repo "acme/alpha" "Notes" 1 0).

(** A decoded response whose object gives a list as [repo_name]. *)
Definition unhashable_decoded : pyval :=
  PList [ PDict [ ("repo_name", PList [PStr "acme/alpha"]);
                  ("summary", PStr "Notes") ] ].

(** A world with faults: every response decodes to [decoded], the
    store raises for the category [broken_category], and
    [record_notification] answers [recorded]. *)
Definition faulty_world (decoded : pyval) (broken_category : string)
    (recorded : result unit) : World :=
  {| get_today_date := "2026-01-15";
     current_year := 2026;
     Database_init_result := Ok tt;
     fetch_result := Ok sample_repos;
     batch_fetch_readmes_result := λ _, Ok [("acme/alpha", "Alpha keeps notes.")];
     OpenAI_result := Ok tt;
     chat_completions_create_result := λ _, Ok (Some sample_response);
     json_loads := λ _, Ok decoded;
     float_repr := λ _, "0.0";
     save_repo_details_result := λ _, Ok tt;
     calculate_trends_result := λ _ _ _ _, Ok sample_trends;
     generate_email_html_result := λ _ _, Ok "<html></html>";
     requests_post_result := λ _ _ _ _, Ok (PDict [("ok", PBool true)]);
     record_notification_result := λ _, recorded;
     mkdir_result := λ _, Ok tt;
     get_repos_by_category_result := λ key _,
       if String.eqb key broken_category
       then Err (Exception "OperationalError" "database is locked")
       else Ok sample_repos;
     write_text_result := λ _ _, Ok tt;
     cleanup_old_data_result := λ _, Ok 0%Z;
     db_close_result := Ok tt |}.

(** * Facts about computations *)

Section computations.
Context {A B : Type}.
Implicit Types (P : event → bool) (m : M A).

Lemma trace_bind (m : M A) (f : A → M B) :
  trace (bind m f) =
  match m.1 with
  | Return a => trace m ++ trace (f a)
  | Raise _ => trace m
  end.
Proof.
  destruct m as [[a | r] es]; simpl; [| done].
  unfold trace. simpl. by destruct (f a).
Qed.

Lemma trace_bind_prefix (m : M A) (f : A → M B) :
  ∃ es, trace (bind m f) = trace m ++ es.
Proof.
  rewrite trace_bind. destruct m.1; [by eexists |].
  exists []. by rewrite app_nil_r.
Qed.

Lemma confined_ret P (a : A) : confined P (ret a).
Proof. split; [constructor | done]. Qed.

Lemma confined_raise P (e : exn) : confined P (raise (A := A) (Exn e)).
Proof. split; [constructor | done]. Qed.

Lemma confined_lift P (x : result A) : confined P (lift x).
Proof. destruct x; [apply confined_ret | apply confined_raise]. Qed.

Lemma confined_call P ev (res : result A) :
  P ev = true → confined P (call ev res).
Proof.
  intros Hev. split.
  - by repeat constructor.
  - intros code. by destruct res.
Qed.

Lemma confined_bind P (m : M A) (f : A → M B) :
  confined P m → (∀ a, confined P (f a)) → confined P (bind m f).
Proof.
  unfold confined, trace. intros [Hm Hx] Hf.
  destruct m as [[a | r] es]; simpl in *.
  2:{ split; [done |]. intros code [= ->]. by apply (Hx code). }
  destruct (Hf a) as [Ha Hxa]. destruct (f a) as [o es'].
  split; [by apply Forall_app | done].
Qed.

Lemma confined_try_except_Exception P (m : M A) (h : exn → M A) :
  confined P m → (∀ e, confined P (h e)) → confined P (try_except_Exception m h).
Proof.
  unfold confined, trace, try_except_Exception, try_except. intros [Hm Hx] Hh.
  destruct m as [[a | [e | code]] es]; simpl in *; try by split.
  destruct (is_Exception e); [| done].
  destruct (Hh e) as [He Hxe]. destruct (h e) as [o es'].
  split; [by apply Forall_app | done].
Qed.

Lemma confined_mono P Q (m : M A) :
  (∀ ev, P ev = true → Q ev = true) → confined P m → confined Q m.
Proof.
  intros HPQ [Hm Hx]. split; [| done].
  eapply Forall_impl; [apply Hm | done].
Qed.
End computations.

Lemma confined_map_M {A B} P (f : A → M B) (l : list A) :
  (∀ x, confined P (f x)) → confined P (map_M f l).
Proof.
  intros Hf. induction l as [| x l IH]; simpl.
  - apply confined_ret.
  - apply confined_bind; [done |]. intros y.
    apply confined_bind; [done |]. intros ys. apply confined_ret.
Qed.

(** Peels one construct off a [confined] goal. *)
Ltac confine_step :=
  lazymatch goal with
  | |- confined _ (bind _ _) => apply confined_bind; [| intros ?]
  | |- confined _ (ret _) => apply confined_ret
  | |- confined _ (raise (Exn _)) => apply confined_raise
  | |- confined _ (lift _) => apply confined_lift
  | |- confined _ (call _ _) => apply confined_call; reflexivity
  | |- confined _ (try_except_Exception _ _) =>
      apply confined_try_except_Exception; [| intros ?]
  | |- confined _ (map_M _ _) => apply confined_map_M; intros ?
  | |- confined _ (match ?x with _ => _ end) => destruct x
  | |- confined _ (if ?b then _ else _) => destruct b
  end.

Ltac confine := repeat confine_step.

Section confinement.
Context `{Config} `{World}.

Lemma AISummarizer_init_confined P :
  P AISummarizer_init = true → confined P AISummarizer.__init__.
Proof. intros HP. unfold AISummarizer.__init__. confine. by apply confined_call. Qed.

Lemma summarize_and_classify_confined P repos :
  (∀ prompt, P (chat_completions_create prompt) = true) →
  confined P (AISummarizer.summarize_and_classify repos).
Proof.
  intros HP. unfold AISummarizer.summarize_and_classify.
  destruct repos; confine. by apply confined_call.
Qed.

Lemma send_message_confined P token chat_id text parse_mode :
  (∀ a b c d, P (requests_post a b c d) = true) →
  confined P (TelegramSender.send_message token chat_id text parse_mode).
Proof.
  intros HP. unfold TelegramSender.send_message. confine. by apply confined_call.
Qed.

Lemma WebGenerator_init_confined P output_dir :
  (∀ p, P (mkdir p) = true) → confined P (WebGenerator.__init__ output_dir).
Proof.
  intros HP. unfold WebGenerator.__init__, WebGenerator.mkdir_p.
  confine; by apply confined_call.
Qed.

Lemma generate_all_confined P output_dir trends date :
  (∀ ev, is_site ev = true → P ev = true) →
  confined P (WebGenerator.generate_all output_dir trends date).
Proof.
  intros HP.
  unfold WebGenerator.generate_all, WebGenerator.generate_index,
    WebGenerator.generate_trending_page, WebGenerator.generate_category_pages,
    WebGenerator.generate_category_page, WebGenerator.generate_css,
    WebGenerator.path_write_text.
  confine; apply confined_call; by apply HP.
Qed.

Lemma analysis_confined today : confined is_analysis (Driver.analysis today).
Proof.
  unfold Driver.analysis. confine.
  - apply AISummarizer_init_confined; reflexivity.
  - apply summarize_and_classify_confined; reflexivity.
Qed.

Lemma notify_confined P trends today :
  (∀ a b c d, P (requests_post a b c d) = true) →
  (∀ names, P (record_notification names) = true) →
  confined P (Driver.notify trends today).
Proof.
  intros HP HR. unfold Driver.notify, TelegramSender.send_report. confine.
  - by apply send_message_confined.
  - by apply confined_call.
Qed.

Lemma delivery_confined trends today :
  confined (λ ev, negb (is_db_close ev) && negb (is_analysis ev))
           (Driver.delivery trends today).
Proof.
  unfold Driver.delivery, Driver.publish. confine.
  - apply notify_confined; reflexivity.
  - apply WebGenerator_init_confined; reflexivity.
  - apply generate_all_confined. by intros [].
Qed.

Lemma pipeline_confined today :
  confined (λ ev, negb (is_db_close ev)) (Driver.pipeline today).
Proof.
  unfold Driver.pipeline. apply confined_bind.
  - eapply confined_mono; [| apply analysis_confined]. by intros [].
  - intros trends. eapply confined_mono; [| apply delivery_confined].
    by intros [].
Qed.
End confinement.

(** * The pipeline driver *)

Section driver.
Context `{Config} `{World}.

(** The [except] clauses of [main] make no call, and turn what the
    body raises into an exit. *)
Lemma main_clauses_run (p : M unit) :
  try_except p Driver.main_clauses =
  (match p.1 with
   | Raise (Exn KeyboardInterrupt) => Raise (SystemExit 130)
   | Raise (Exn _) => Raise (SystemExit 1)
   | o => o
   end, trace p).
Proof.
  destruct p as [[[] | [[] | code]] es]; simpl; unfold trace; simpl;
    by rewrite ?app_nil_r.
Qed.

Lemma main_run :
  Driver.check_environment = true → Database_init_result = Ok tt →
  Driver.main =
  let m := try_finally
             (try_except (Driver.pipeline get_today_date) Driver.main_clauses)
             (call db_close db_close_result) in
  (m.1, Database_init DB_PATH :: m.2).
Proof.
  intros Henv Hinit. unfold Driver.main. rewrite Henv, Hinit. simpl.
  by destruct (try_finally _ _).
Qed.

Lemma main_trace :
  Driver.check_environment = true → Database_init_result = Ok tt →
  trace Driver.main =
  Database_init DB_PATH :: trace (Driver.pipeline get_today_date) ++ [db_close].
Proof.
  intros Henv Hinit. rewrite main_run by done. rewrite main_clauses_run.
  unfold try_finally, call, trace. simpl.
  by destruct db_close_result.
Qed.

(** Without a store there is nothing to close: a failed environment
    check makes no call, a failed initialisation only its own. *)
Lemma main_without_store :
  (Driver.check_environment = false → Driver.main = (Raise (SystemExit 1), []))
  ∧ (∀ e, Driver.check_environment = true → Database_init_result = Err e →
          Driver.main = (Raise (Exn e), [Database_init DB_PATH])).
Proof.
  split.
  - intros Henv. unfold Driver.main. by rewrite Henv.
  - intros e Henv Hinit. unfold Driver.main. by rewrite Henv, Hinit.
Qed.

(** C8. The store handle is released on every exit path: in every
    run of [main] that opened the store, whatever the steps of the
    pipeline return or raise (normal completion, KeyboardInterrupt,
    any other exception), [db.close()] is called exactly once, and it
    is the last call of the run. *)
Theorem store_closed_exactly_once :
  Driver.check_environment = true → Database_init_result = Ok tt →
  ∃ es, trace Driver.main = Database_init DB_PATH :: es ++ [db_close]
        ∧ Forall (λ ev, is_db_close ev = false) es.
Proof.
  intros Henv Hinit. exists (trace (Driver.pipeline get_today_date)).
  split; [by apply main_trace |].
  destruct (pipeline_confined get_today_date) as [Hes _].
  eapply Forall_impl; [apply Hes |]. intros ev. simpl. by destruct (is_db_close ev).
Qed.

(** What [main] ends with, from what the pipeline ends with. *)
Lemma main_outcome :
  Driver.check_environment = true → Database_init_result = Ok tt →
  Driver.main.1 =
  match db_close_result with
  | Err e => Raise (Exn e)
  | Ok _ =>
      match (Driver.pipeline get_today_date).1 with
      | Raise (Exn KeyboardInterrupt) => Raise (SystemExit 130)
      | Raise (Exn _) => Raise (SystemExit 1)
      | o => o
      end
  end.
Proof.
  intros Henv Hinit. rewrite main_run by done. rewrite main_clauses_run.
  unfold try_finally, call. simpl. by destruct db_close_result.
Qed.

(** Steps 1 to 5 end by returning the trends or by raising an
    exception of a collaborator. *)
Lemma analysis_raises today r :
  (Driver.analysis today).1 = Raise r → ∃ e, r = Exn e.
Proof.
  intros Hr. destruct (analysis_confined today) as [_ Hx].
  destruct r as [e | code]; [by exists e |]. by destruct (Hx code).
Qed.

Lemma pipeline_of_failed_analysis today r :
  (Driver.analysis today).1 = Raise r →
  Driver.pipeline today = (Raise r, trace (Driver.analysis today)).
Proof.
  unfold Driver.pipeline, trace. destruct (Driver.analysis today) as [o es].
  simpl. by intros ->.
Qed.

Lemma analysis_of_failed_fetch today e :
  fetch_result = Err e → (Driver.analysis today).1 = Raise (Exn e).
Proof. intros Hf. unfold Driver.analysis. by rewrite Hf. Qed.

(** C7. Abort before notify and publish: if a step up to and
    including the trend computation raises (an exception or a
    KeyboardInterrupt), the run makes no Telegram request and no call
    of the site generator, and the process exits with status 1 or
    130. *)
Theorem failure_before_trends_aborts r :
  Driver.check_environment = true → Database_init_result = Ok tt →
  (Driver.analysis get_today_date).1 = Raise r →
  Forall (λ ev, is_send ev = false ∧ is_site ev = false) (trace Driver.main)
  ∧ (Driver.exit_status Driver.main.1 = 1%Z
     ∨ Driver.exit_status Driver.main.1 = 130%Z).
Proof.
  intros Henv Hinit Hr. split.
  - rewrite main_trace by done.
    rewrite (pipeline_of_failed_analysis _ _ Hr). unfold trace at 1. simpl.
    constructor; [done |]. apply Forall_app. split; [| by repeat constructor].
    destruct (analysis_confined get_today_date) as [Hes _].
    eapply Forall_impl; [apply Hes |]. by intros [].
  - rewrite main_outcome by done.
    rewrite (pipeline_of_failed_analysis _ _ Hr). simpl.
    destruct (analysis_raises _ _ Hr) as [e ->].
    destruct db_close_result as [| []]; destruct e; simpl; auto.
Qed.
End driver.

(** * Strings *)

Lemma append_cons (x : ascii) (a b : string) :
  String x a +:+ b = String x (a +:+ b).
Proof. reflexivity. Qed.

Lemma append_assoc (a b c : string) : (a +:+ b) +:+ c = a +:+ b +:+ c.
Proof.
  induction a as [| x a IH]; [done |]. by rewrite !append_cons, IH.
Qed.

Lemma prefix_append (t s : string) : String.prefix t (t +:+ s) = true.
Proof.
  induction t as [| x t IH]; [by destruct s |].
  rewrite append_cons. simpl. destruct (ascii_dec x x); [done | congruence].
Qed.

Lemma occurs_app_l (t s b : string) : occurs t s → occurs t (s +:+ b).
Proof.
  intros (pre & post & ->). exists pre, (post +:+ b).
  by rewrite !append_assoc.
Qed.

Lemma occurs_app_r (t a s : string) : occurs t s → occurs t (a +:+ s).
Proof.
  intros (pre & post & ->). exists (a +:+ pre), post.
  by rewrite !append_assoc.
Qed.

Lemma occurs_join (sep t s : string) (l : list string) :
  s ∈ l → occurs t s → occurs t (str_join sep l).
Proof.
  intros Hin Hocc. induction l as [| x l IH]; [by apply elem_of_nil in Hin |].
  apply elem_of_cons in Hin as [-> | Hin].
  - destruct l; simpl; [done | by apply occurs_app_l].
  - specialize (IH Hin). destruct l as [| y l]; [by apply elem_of_nil in Hin |].
    change (occurs t (x +:+ sep +:+ str_join sep (y :: l))).
    by do 2 apply occurs_app_r.
Qed.

Lemma contains_occurs (t s : string) : occurs t s → contains t s = true.
Proof.
  intros (pre & post & ->). induction pre as [| x pre IH].
  - change (contains t (t +:+ post) = true).
    pose proof (prefix_append t post) as Hp.
    destruct (t +:+ post); unfold contains; fold contains; by rewrite Hp.
  - rewrite append_cons. simpl. rewrite IH. apply orb_true_r.
Qed.

Lemma length_append (a b : string) :
  String.length (a +:+ b) = (String.length a + String.length b)%nat.
Proof.
  induction a as [| x a IH]; [done |]. rewrite append_cons. simpl. by rewrite IH.
Qed.

Lemma append_nil_r (s : string) : s +:+ EmptyString = s.
Proof. induction s as [| x s IH]; [done |]. by rewrite append_cons, IH. Qed.

Lemma occurs_refl (s : string) : occurs s s.
Proof. exists EmptyString, EmptyString. by rewrite append_nil_r. Qed.

Lemma occurs_concat (t s : string) (l : list string) :
  s ∈ l → occurs t s → occurs t (str_concat l).
Proof. apply occurs_join. Qed.

(** Finds a line among the lines of a text. *)
Ltac pick_line :=
  repeat (apply elem_of_cons; first [left; reflexivity | right]).

(** ** Characters *)

Lemma chars_cons (c : ascii) (s : string) :
  chars (String c s) =
  match s with
  | String c' _ =>
      if is_continuation c' then
        match chars s with
        | ch :: rest => String c ch :: rest
        | [] => [String c EmptyString]
        end
      else String c EmptyString :: chars s
  | EmptyString => [String c EmptyString]
  end.
Proof. destruct s; reflexivity. Qed.

Lemma chars_cons_nonempty (c : ascii) (s : string) : chars (String c s) ≠ [].
Proof.
  rewrite chars_cons. destruct s as [| c' s']; [done |].
  destruct (is_continuation c'); [by destruct (chars _) | done].
Qed.

Lemma chars_start (c : ascii) (s : string) :
  starts_char s = true → chars (String c s) = String c EmptyString :: chars s.
Proof.
  rewrite chars_cons. destruct s as [| c' s']; [done |]. simpl starts_char.
  by intros ->%negb_true_iff.
Qed.

Lemma chars_app (a b : string) :
  starts_char b = true → chars (a +:+ b) = chars a ++ chars b.
Proof.
  intros Hb. induction a as [| c a IH]; [done |].
  rewrite append_cons, (chars_cons c (a +:+ b)), (chars_cons c a), IH.
  destruct a as [| c' a'].
  - change (EmptyString +:+ b) with b. destruct b as [| c' b']; [done |].
    simpl in Hb. apply negb_true_iff in Hb. by rewrite Hb.
  - rewrite append_cons. destruct (is_continuation c'); [| done].
    pose proof (chars_cons_nonempty c' a') as Hne.
    by destruct (chars (String c' a')).
Qed.

Lemma join_chars_app (l l' : list string) :
  join_chars (l ++ l') = join_chars l +:+ join_chars l'.
Proof.
  induction l as [| ch l IH]; [done |]. simpl. by rewrite IH, append_assoc.
Qed.

Lemma join_chars_chars (s : string) : join_chars (chars s) = s.
Proof.
  induction s as [| c s IH]; [done |].
  rewrite chars_cons. destruct s as [| c' s']; [done |].
  destruct (is_continuation c').
  - pose proof (chars_cons_nonempty c' s') as Hne.
    destruct (chars (String c' s')) as [| ch rest]; [done |].
    change (String c (join_chars (ch :: rest)) = String c (String c' s')).
    by rewrite IH.
  - change (String c (join_chars (chars (String c' s'))) = String c (String c' s')).
    by rewrite IH.
Qed.

Lemma chars_char (ch : string) : is_char ch = true → chars ch = [ch].
Proof.
  destruct ch as [| c k]; [done |]. simpl. revert c.
  induction k as [| c' k IH]; intros c Hk; [done |].
  simpl in Hk. apply andb_true_iff in Hk as [Hc Hk].
  rewrite chars_cons, Hc, (IH c' Hk). done.
Qed.

Lemma chars_head (c : ascii) (s ch : string) (rest : list string) :
  chars (String c s) = ch :: rest → ∃ k, ch = String c k.
Proof.
  rewrite chars_cons. destruct s as [| c' s'].
  - intros [= <- _]. by eexists.
  - destruct (is_continuation c').
    + destruct (chars (String c' s')); intros [= <- _]; by eexists.
    + intros [= <- _]. by eexists.
Qed.

(** What [chars] returns: characters, each but the first starting
    with a byte that is no continuation. *)
Lemma chars_wf (s : string) :
  Forall (λ ch, is_char ch = true) (chars s)
  ∧ Forall (λ ch, starts_char ch = true) (tail (chars s)).
Proof.
  induction s as [| c s [IH1 IH2]]; [by split |].
  rewrite chars_cons. destruct s as [| c' s']; [by split; repeat constructor |].
  pose proof (chars_cons_nonempty c' s') as Hne.
  destruct (chars (String c' s')) as [| ch rest] eqn:Hch; [done |].
  destruct (chars_head _ _ _ _ Hch) as [k ->].
  apply Forall_cons in IH1 as [Hch1 Hrest]. cbn [tail] in *.
  destruct (is_continuation c') eqn:Hc.
  - split; [| done]. constructor; [| done].
    cbn [is_char all_continuation] in *. by rewrite Hc.
  - split; [by repeat constructor |]. cbn [tail].
    constructor; [| done]. cbn [starts_char]. by rewrite Hc.
Qed.

Lemma starts_char_join (l : list string) :
  Forall (λ ch, is_char ch = true) l →
  Forall (λ ch, starts_char ch = true) l → starts_char (join_chars l) = true.
Proof.
  intros Hc Hs. destruct Hs as [| ch l Hch _]; [done |].
  apply Forall_cons in Hc as [Hc _].
  destruct ch as [| c k]; [done |]. done.
Qed.

(** A list of characters is the list of characters of its text. *)
Lemma chars_join (l : list string) :
  Forall (λ ch, is_char ch = true) l →
  Forall (λ ch, starts_char ch = true) (tail l) →
  chars (join_chars l) = l.
Proof.
  induction l as [| ch l IH]; [done |].
  intros [Hch Hl]%Forall_cons Ht. simpl in *.
  rewrite chars_app, (chars_char ch Hch); [| by apply starts_char_join].
  simpl. f_equal. apply IH; [done |].
  destruct Ht as [| ? ? _ Ht]; [constructor | done].
Qed.

Lemma chars_take (n : nat) (s : string) :
  chars (py_take n s) = take n (chars s).
Proof.
  unfold py_take. destruct (chars_wf s) as [Hc Ht]. apply chars_join.
  - by apply Forall_take.
  - destruct n as [| n]; [constructor |].
    destruct (chars s) as [| ch l]; [constructor |]. simpl in *.
    by apply Forall_take.
Qed.

Lemma py_len_take (n : nat) (s : string) :
  py_len (py_take n s) = (n `min` py_len s)%nat.
Proof. unfold py_len. by rewrite chars_take, length_take. Qed.

Lemma py_len_app (a b : string) :
  starts_char b = true → py_len (a +:+ b) = (py_len a + py_len b)%nat.
Proof. intros Hb. unfold py_len. by rewrite chars_app, length_app. Qed.

Lemma py_take_all (n : nat) (s : string) :
  (py_len s ≤ n)%nat → py_take n s = s.
Proof.
  intros Hn. unfold py_take. rewrite take_ge by done. apply join_chars_chars.
Qed.

(** [s[:n] + s[n:]] *)
Lemma py_take_drop (n : nat) (s : string) :
  s = py_take n s +:+ join_chars (drop n (chars s))
  ∧ chars s = chars (py_take n s) ++ drop n (chars s).
Proof.
  split.
  - unfold py_take. by rewrite <- join_chars_app, take_drop, join_chars_chars.
  - by rewrite chars_take, take_drop.
Qed.

(** * The Telegram sender *)

Section telegram.
Context `{World}.
Variables (token chat_id : string).

Lemma send_message_run text parse_mode :
  TelegramSender.send_message token chat_id text parse_mode =
  if String.eqb token EmptyString || String.eqb chat_id EmptyString
  then (Return not_configured, [])
  else
    (match requests_post_result (TelegramSender.api_url token) chat_id text parse_mode with
     | Ok (PDict d) =>
         if truthy (dict_get "ok" PNone d)
         then Return [ ("success", PBool true); ("result", PDict d) ]
         else Return [ ("success", PBool false);
                       ("message", dict_get "description" PNone d) ]
     | Ok v =>
         Return [ ("success", PBool false); ("message", PStr (exn_str (no_get v))) ]
     | Err e =>
         if is_Exception e
         then Return [ ("success", PBool false); ("message", PStr (exn_str e)) ]
         else Raise (Exn e)
     end,
     [requests_post (TelegramSender.api_url token) chat_id text parse_mode]).
Proof.
  unfold TelegramSender.send_message.
  destruct (String.eqb token EmptyString || String.eqb chat_id EmptyString); [done |].
  destruct (requests_post_result _ _ _ _) as [[] | e]; simpl; try done.
  - by destruct (truthy _).
  - by destruct e.
Qed.

(** Whatever is returned starts with the [success] flag. *)
Lemma send_message_result text parse_mode d :
  (TelegramSender.send_message token chat_id text parse_mode).1 = Return d →
  ∃ b rest, d = ("success", PBool b) :: rest.
Proof.
  rewrite send_message_run.
  destruct (_ || _); simpl; [intros [= <-]; by eexists _, _ |].
  destruct (requests_post_result _ _ _ _) as [[] | e]; simpl;
    try (intros [= <-]; by eexists _, _).
  - destruct (truthy _); intros [= <-]; by eexists _, _.
  - destruct (is_Exception e); [intros [= <-]; by eexists _, _ | done].
Qed.

Lemma send_message_trace text parse_mode :
  trace (TelegramSender.send_message token chat_id text parse_mode) =
  if String.eqb token EmptyString || String.eqb chat_id EmptyString then []
  else [requests_post (TelegramSender.api_url token) chat_id text parse_mode].
Proof. rewrite send_message_run. by destruct (_ || _). Qed.

(** C10. Totality of the Telegram sender: whatever the text or the
    trends, and whatever Telegram answers or the HTTP layer raises
    (anything but an interrupt of the process), [send_message] and
    [send_report] return a dict with a [success] key; the only thing
    they can let through is that interrupt.  With an empty token or
    chat id they return [success = False] and make no HTTP request. *)
Theorem telegram_sender_total :
  (∀ text parse_mode,
     uninterrupted
       (requests_post_result (TelegramSender.api_url token) chat_id text parse_mode) →
     ∃ d, (TelegramSender.send_message token chat_id text parse_mode).1 = Return d
          ∧ has_key "success" d)
  ∧ (∀ trends date,
       uninterrupted
         (requests_post_result (TelegramSender.api_url token) chat_id
            (TelegramSender._format_report trends date) "Markdown") →
       ∃ d, (TelegramSender.send_report token chat_id trends date).1 = Return d
            ∧ has_key "success" d)
  ∧ (∀ text parse_mode r,
       (TelegramSender.send_message token chat_id text parse_mode).1 = Raise r →
       r = Exn KeyboardInterrupt)
  ∧ (token = EmptyString ∨ chat_id = EmptyString →
     (∀ text parse_mode,
        TelegramSender.send_message token chat_id text parse_mode
        = (Return not_configured, []))
     ∧ (∀ trends date,
        TelegramSender.send_report token chat_id trends date
        = (Return not_configured, []))
     ∧ dict_lookup "success" not_configured = Some (PBool false)).
Proof.
  assert (Hmsg : ∀ text parse_mode,
    uninterrupted
      (requests_post_result (TelegramSender.api_url token) chat_id text parse_mode) →
    ∃ d, (TelegramSender.send_message token chat_id text parse_mode).1 = Return d
         ∧ has_key "success" d).
  { intros text parse_mode Hpost. rewrite send_message_run.
    destruct (_ || _); simpl;
      [| destruct (requests_post_result _ _ _ _) as [[] | []]; simpl;
         try destruct (truthy _); try by destruct Hpost ];
      (eexists; split; [reflexivity | by eexists]). }
  split; [done |]. split; [intros; by apply Hmsg |]. split.
  - intros text parse_mode r. rewrite send_message_run.
    destruct (_ || _); simpl; [done |].
    destruct (requests_post_result _ _ _ _) as [[] | []]; simpl;
      try destruct (truthy _); try done. by intros [= <-].
  - intros Hempty.
    assert (String.eqb token EmptyString || String.eqb chat_id EmptyString = true) as Hc.
    { destruct Hempty as [-> | ->]; [done | apply orb_true_r]. }
    split; [| split; [| done]].
    + intros. by rewrite send_message_run, Hc.
    + intros. unfold TelegramSender.send_report. by rewrite send_message_run, Hc.
Qed.
End telegram.


(** * Step 7: notification *)

Section notification.
Context `{Config} `{World}.

Lemma repo_names_named (l : list repo) :
  named l →
  map_result Driver.repo_name_item l = Ok (repo_names l)
  ∧ Forall2 (λ r n, repo_name r = Some n) l (repo_names l).
Proof.
  unfold named, repo_names. induction 1 as [| r l [n Hn] _ [IH1 IH2]]; [done |].
  simpl. unfold Driver.repo_name_item at 1. rewrite Hn, IH1. simpl.
  split; [done | by constructor].
Qed.

Lemma recorded_names_send_report trends today :
  recorded_names
    (trace (TelegramSender.send_report TELEGRAM_BOT_TOKEN TELEGRAM_CHAT_ID trends today))
  = [].
Proof.
  unfold TelegramSender.send_report. rewrite send_message_trace.
  by destruct (_ || _).
Qed.

(** The notification step, case by case. *)
Lemma notify_run trends today :
  let sent :=
    TelegramSender.send_report TELEGRAM_BOT_TOKEN TELEGRAM_CHAT_ID trends today in
  match sent.1 with
  | Return d =>
      ∃ b rest, d = ("success", PBool b) :: rest ∧
      Driver.notify trends today =
      if b then
        match map_result Driver.repo_name_item (top_20 trends) with
        | Ok [] => (Return tt, trace sent)
        | Ok names =>
            ((lift (record_notification_result names)).1,
             trace sent ++ [record_notification names])
        | Err e => (Raise (Exn e), trace sent)
        end
      else (Return tt, trace sent)
  | Raise r => Driver.notify trends today = (Raise r, trace sent)
  end.
Proof.
  intros sent. unfold Driver.notify. fold sent.
  pose proof (send_message_result TELEGRAM_BOT_TOKEN TELEGRAM_CHAT_ID
                (TelegramSender._format_report trends today) "Markdown") as Hres.
  change (TelegramSender.send_message _ _ _ _) with sent in Hres.
  destruct sent as [[d | r] es]; simpl in *; [| done].
  destruct (Hres d eq_refl) as (b & rest & ->). exists b, rest. split; [done |].
  unfold trace. simpl. destruct b; simpl; [| by rewrite app_nil_r].
  destruct (map_result Driver.repo_name_item (top_20 trends)) as [[| n names] | e];
    simpl; try by rewrite app_nil_r.
  by destruct (record_notification_result (n :: names)).
Qed.

Lemma repo_names_nil (l : list repo) : named l → repo_names l = [] ↔ l = [].
Proof.
  intros Hnamed. split; [| by intros ->].
  destruct Hnamed as [| r l [n Hn] _]; [done |].
  unfold repo_names. simpl. by rewrite Hn.
Qed.

Lemma reports_success_flag b rest :
  reports_success (("success", PBool b) :: rest) ↔ b = true.
Proof.
  unfold reports_success. simpl. split.
  - by intros (v & [= <-] & Hv).
  - intros ->. by eexists.
Qed.

Lemma publish_first_call trends today :
  ∃ es, trace (Driver.publish trends today)
        = mkdir (WebGenerator.self_output_dir OUTPUT_DIR) :: es.
Proof.
  unfold Driver.publish, WebGenerator.__init__.
  match goal with
  | |- context [trace (bind (bind ?m ?f) ?g)] =>
      destruct (trace_bind_prefix (bind m f) g) as [es ->];
      destruct (trace_bind_prefix m f) as [es' ->]
  end.
  by eexists.
Qed.

(** C3. Notification records are created only on a successful push:
    step 7 calls [record_notification] if and only if the result of
    the Telegram send reports success and [top_20] is not empty; when
    the send reports a failure, nothing is recorded and the step
    returns, so that the run goes on to build the web site. *)
Theorem notification_recorded_iff_pushed trends today :
  named (top_20 trends) →
  let sent :=
    TelegramSender.send_report TELEGRAM_BOT_TOKEN TELEGRAM_CHAT_ID trends today in
  (recorded_names (trace (Driver.notify trends today)) ≠ []
   ↔ (∃ d, sent.1 = Return d ∧ reports_success d) ∧ top_20 trends ≠ [])
  ∧ (∀ d, sent.1 = Return d → ¬ reports_success d →
       (Driver.notify trends today).1 = Return tt
       ∧ recorded_names (trace (Driver.notify trends today)) = []
       ∧ ∀ html, generate_email_html_result trends today = Ok html →
           mkdir (WebGenerator.self_output_dir OUTPUT_DIR)
           ∈ trace (Driver.delivery trends today)).
Proof.
  intros Hnamed sent.
  pose proof (notify_run trends today) as Hrun.
  pose proof (recorded_names_send_report trends today) as Hsent.
  fold sent in Hrun, Hsent. simpl in Hrun.
  destruct (repo_names_named _ Hnamed) as [Hnames _]. rewrite Hnames in Hrun.
  destruct (sent.1) as [d | r] eqn:Hd.
  - destruct Hrun as (b & rest & -> & Hrun).
    split.
    + rewrite Hrun. destruct b.
      * destruct (repo_names (top_20 trends)) as [| n names] eqn:Hn.
        -- unfold trace at 1. simpl. rewrite Hsent. split; [done |].
           intros [_ Htop]. destruct Htop. by apply (repo_names_nil _ Hnamed).
        -- unfold trace at 1. simpl. unfold recorded_names at 1.
           rewrite omap_app. fold (recorded_names (trace sent)). rewrite Hsent.
           simpl. split; [| done]. intros _. split.
           ++ eexists. split; [done |]. by apply reports_success_flag.
           ++ intros Htop. apply (repo_names_nil _ Hnamed) in Htop. congruence.
      * unfold trace at 1. simpl. rewrite Hsent. split; [done |].
        intros [(d & [= <-] & Hs) _]. by apply reports_success_flag in Hs.
    + intros d [= <-] Hfail.
      assert (b = false) as ->.
      { destruct b; [| done]. destruct Hfail. by apply reports_success_flag. }
      rewrite Hrun. unfold trace at 1 2. simpl. rewrite Hsent.
      split; [done |]. split; [done |]. intros html Hhtml.
      unfold Driver.delivery. rewrite trace_bind. unfold call at 1 2.
      rewrite Hhtml. simpl. rewrite trace_bind, Hrun. simpl.
      destruct (publish_first_call trends today) as [es Hes].
      match goal with
      | |- context [trace (bind (Driver.publish ?a ?b) ?f)] =>
          destruct (trace_bind_prefix (Driver.publish a b) f) as [es' ->]
      end.
      rewrite Hes. set_solver.
  - split.
    + rewrite Hrun. unfold trace at 1. simpl. rewrite Hsent. split; [done |].
      by intros [(d & ? & _) _].
    + done.
Qed.
Lemma recorded_names_none (es : list event) :
  Forall (λ ev, is_record_notification ev = false) es → recorded_names es = [].
Proof.
  induction 1 as [| ev es Hev _ IH]; [done |].
  destruct ev; try discriminate Hev; exact IH.
Qed.

Lemma recorded_names_confined {A} (P : event → bool) (m : M A) :
  (∀ ev, P ev = true → is_record_notification ev = false) →
  confined P m → recorded_names (trace m) = [].
Proof.
  intros HP [Hes _]. apply recorded_names_none.
  eapply Forall_impl; [apply Hes | done].
Qed.

Lemma recorded_names_app (es es' : list event) :
  recorded_names (es ++ es') = recorded_names es ++ recorded_names es'.
Proof. unfold recorded_names. apply omap_app. Qed.

(** In a run of [main], a call of [record_notification] is the one
    of step 7, made for the trends that steps 1 to 5 returned. *)
Lemma main_records_in_step_7 names :
  names ∈ recorded_names (trace Driver.main) →
  ∃ trends, (Driver.analysis get_today_date).1 = Return trends
            ∧ names ∈ recorded_names (trace (Driver.notify trends get_today_date)).
Proof.
  destruct Driver.check_environment eqn:Henv.
  2:{ destruct main_without_store as [Hno _]. rewrite (Hno Henv).
      by intros ?%elem_of_nil. }
  destruct Database_init_result as [[] | e] eqn:Hinit.
  2:{ destruct main_without_store as [_ Hno]. rewrite (Hno e Henv Hinit).
      by intros ?%elem_of_nil. }
  rewrite main_trace by done.
  change (Database_init DB_PATH :: ?es) with ([Database_init DB_PATH] ++ es).
  rewrite !recorded_names_app. simpl. rewrite app_nil_r.
  unfold Driver.pipeline. rewrite trace_bind.
  assert (Han : recorded_names (trace (Driver.analysis get_today_date)) = []).
  { apply (recorded_names_confined is_analysis);
      [by intros [] | apply analysis_confined]. }
  destruct (Driver.analysis get_today_date).1 as [trends | r];
    [| rewrite Han; by intros ?%elem_of_nil].
  rewrite recorded_names_app, Han. simpl.
  intros Hin. exists trends. split; [done |].
  revert Hin. unfold Driver.delivery. rewrite trace_bind.
  destruct (call (generate_email_html get_today_date) _).1 as [html | r];
    [| by intros ?%elem_of_nil].
  rewrite recorded_names_app, trace_bind.
  change (recorded_names (trace (call _ _))) with (@nil (list string)).
  rewrite app_nil_l.
  destruct (Driver.notify trends get_today_date).1; [| done].
  rewrite recorded_names_app.
  match goal with
  | |- context [trace (bind (Driver.publish ?a ?b) ?f)] =>
      rewrite (recorded_names_confined (λ ev, negb (is_record_notification ev))
                 (bind (Driver.publish a b) f))
  end; [by rewrite app_nil_r | by intros [] |].
  unfold Driver.publish. confine.
  - apply WebGenerator_init_confined; reflexivity.
  - apply generate_all_confined. by intros [].
Qed.
End notification.

Section digest.
Context `{Config} `{World}.

Lemma map_result_repo_names (l : list repo) names :
  map_result Driver.repo_name_item l = Ok names →
  Forall2 (λ r n, repo_name r = Some n) l names.
Proof.
  revert names. induction l as [| r l IH]; intros names; simpl.
  - intros [= <-]. constructor.
  - unfold Driver.repo_name_item at 1. destruct (repo_name r) as [n |] eqn:Hn; [| done].
    destruct (map_result Driver.repo_name_item l) as [ns | e]; [| done].
    intros [= <-]. constructor; [done | by apply IH].
Qed.

Lemma section_elem (title x : string) (body trailer : list string) :
  x ∈ body → x ∈ TelegramSender.section title body trailer.
Proof.
  destruct body as [| y body]; [by intros ?%elem_of_nil |].
  intros Hin. change (x ∈ title :: (y :: body) ++ trailer).
  apply elem_of_cons. right. apply elem_of_app. by left.
Qed.

Lemma occurs_prefix (t b : string) : occurs t (t +:+ b).
Proof. by exists EmptyString, b. Qed.

Lemma format_repo_item_shows index r n :
  repo_name r = Some n → occurs n (TelegramSender._format_repo_item index r).
Proof.
  intros Hn. unfold TelegramSender._format_repo_item. rewrite Hn. simpl.
  do 2 apply occurs_app_r. apply occurs_prefix.
Qed.

(** The digest shows the name of each of the first ten top picks. *)
Lemma format_report_shows trends date i r n :
  take 10 (top_20 trends) !! i = Some r → repo_name r = Some n →
  occurs n (TelegramSender._format_report trends date).
Proof.
  intros Hi Hn. unfold TelegramSender._format_report.
  apply occurs_join with (s := TelegramSender._format_repo_item (Pos.of_succ_nat i) r);
    [| by apply format_repo_item_shows].
  rewrite !elem_of_app. right. right. right. left.
  apply section_elem. apply list_elem_of_fmap.
  exists (Pos.of_succ_nat i, r). split; [done |].
  unfold enumerate1. apply elem_of_lookup_imap. by exists i, r.
Qed.

(** C2 (amended). What the driver records after a push is the name
    of every entry of [top_20], in order; the digest that was sent is
    the formatted report, and it shows the first ten of these names.
    Names beyond the tenth are recorded without being shown in the
    top picks. *)
Theorem recorded_names_are_all_top_picks trends today names :
  names ∈ recorded_names (trace (Driver.notify trends today)) →
  Forall2 (λ r n, repo_name r = Some n) (top_20 trends) names
  ∧ posted_texts (trace (Driver.notify trends today))
    = [TelegramSender._format_report trends today]
  ∧ ∀ n, n ∈ take 10 names →
         occurs n (TelegramSender._format_report trends today).
Proof.
  pose proof (notify_run trends today) as Hrun.
  pose proof (recorded_names_send_report trends today) as Hsent.
  simpl in Hrun.
  set (sent := TelegramSender.send_report TELEGRAM_BOT_TOKEN TELEGRAM_CHAT_ID
                 trends today) in *.
  assert (Hnone : Driver.notify trends today = (Return tt, trace sent)
                  ∨ (∃ r, Driver.notify trends today = (Raise r, trace sent)) →
                  names ∈ recorded_names (trace (Driver.notify trends today)) → False).
  { intros [-> | [r ->]]; change (trace (_, trace sent)) with (trace sent);
      rewrite Hsent; by intros ?%elem_of_nil. }
  destruct (sent.1) as [d | r] eqn:Hd; [| intros Hin; destruct Hnone; eauto].
  destruct Hrun as (b & rest & -> & Hrun).
  destruct b; [| intros Hin; destruct Hnone; eauto].
  destruct (map_result Driver.repo_name_item (top_20 trends))
    as [[| n0 ns] | e] eqn:Hmap; try (intros Hin; destruct Hnone; by eauto).
  rewrite Hrun. change (trace (_, ?es)) with es.
  unfold recorded_names at 1. rewrite omap_app.
  fold (recorded_names (trace sent)). rewrite Hsent. simpl.
  intros ->%list_elem_of_singleton.
  apply map_result_repo_names in Hmap as Hall. split; [done |].
  (* the message went out: the sender was configured *)
  assert (Hposted : posted_texts (trace sent)
                    = [TelegramSender._format_report trends today]).
  { revert Hd. unfold sent, TelegramSender.send_report.
    rewrite send_message_run. by destruct (_ || _). }
  split.
  - unfold posted_texts at 1. rewrite omap_app.
    fold (posted_texts (trace sent)). rewrite Hposted. done.
  - intros n Hn. apply list_elem_of_lookup in Hn as [i Hi].
    rewrite lookup_take_Some in Hi. destruct Hi as [Hi Hlt].
    destruct (Forall2_lookup_r _ _ _ _ _ Hall Hi) as (r & Hr & Hrn).
    apply format_report_shows with (i := i) (r := r); [| done].
    by rewrite lookup_take_Some.
Qed.
End digest.

(** C2, as stated, fails: the eleventh pick is recorded and not shown. *)
Lemma recorded_but_not_shown :
  ∃ names text,
    recorded_names (trace (@Driver.main sample_config happy_world)) = [names]
    ∧ posted_texts (trace (@Driver.main sample_config happy_world)) = [text]
    ∧ "org/eleven" ∈ names
    ∧ ¬ occurs "org/eleven" text.
Proof.
  eexists _, _. split; [vm_compute; reflexivity |].
  split; [vm_compute; reflexivity |]. split.
  - apply list_elem_of_In. vm_compute. tauto.
  - intros Hocc%contains_occurs. vm_compute in Hocc. discriminate.
Qed.

Lemma recorded_names_are_all_top_picks_witness :
  let names := map (λ n, "org/" +:+ n)
                 ["one"; "two"; "three"; "four"; "five"; "six"; "seven";
                  "eight"; "nine"; "ten"; "eleven"] in
  names ∈ recorded_names
            (trace (@Driver.notify sample_config happy_world sample_trends "2026-01-15"))
  ∧ occurs "org/ten"
      (TelegramSender._format_report sample_trends "2026-01-15").
Proof.
  intros names.
  assert (Hin : names ∈ recorded_names
            (trace (@Driver.notify sample_config happy_world sample_trends "2026-01-15"))).
  { apply list_elem_of_In. vm_compute. tauto. }
  split; [exact Hin |].
  destruct (@recorded_names_are_all_top_picks sample_config happy_world
              sample_trends "2026-01-15" names Hin) as (_ & _ & Hshown).
  apply Hshown. apply list_elem_of_In. vm_compute. tauto.
Defined.

Lemma map_result_Ok {A B} (f : A → result B) (l : list A) :
  (∀ x, x ∈ l → ∃ y, f x = Ok y) → ∃ ys, map_result f l = Ok ys.
Proof.
  induction l as [| x l IH]; intros Hf; simpl; [by eexists |].
  destruct (Hf x) as [y ->]; [set_solver |].
  destruct IH as [ys ->]; [intros; apply Hf; set_solver |]. by eexists.
Qed.

(** * The site generator *)

Section site.
Context `{Config} `{World}.
Variable output_dir : string.

Let out := WebGenerator.self_output_dir output_dir.

(** Every configured category has a key to be found. *)
Lemma category_key_found kv :
  kv ∈ CATEGORIES → ∃ key, WebGenerator.category_key kv.2 = Ok key.
Proof.
  intros Hin. unfold WebGenerator.category_key.
  destruct (filter (λ kv', kv'.2 = kv.2) CATEGORIES) as [| kv' l] eqn:Hf;
    [| by eexists].
  assert (kv ∈ filter (λ kv', kv'.2 = kv.2) CATEGORIES) as Hkv
    by by apply list_elem_of_filter.
  rewrite Hf in Hkv. by apply elem_of_nil in Hkv.
Qed.

Lemma index_content_Ok top date :
  ∃ page, WebGenerator.index_content top date = Ok page.
Proof.
  unfold WebGenerator.index_content.
  destruct (map_result_Ok WebGenerator._format_category_card (map snd CATEGORIES))
    as [cards ->]; [| by eexists].
  intros cat (kv & -> & Hkv)%list_elem_of_fmap.
  unfold WebGenerator._format_category_card.
  destruct (category_key_found kv Hkv) as [key ->]. by eexists.
Qed.

Lemma generate_category_pages_run (stored : string → list repo)
    (categories : list (string * category_info)) :
  (∀ path content, write_text_result path content = Ok tt) →
  (∀ key, get_repos_by_category_result key 50 = Ok (stored key)) →
  map_M (WebGenerator.generate_category_page output_dir) categories
  = (Return (map (category_path output_dir) categories),
     flat_map (category_calls output_dir stored) categories).
Proof.
  intros Hw Hs. induction categories as [| kv l IH]; [done |].
  simpl. rewrite IH. unfold WebGenerator.generate_category_page at 1.
  unfold WebGenerator.path_write_text, call. rewrite Hs. simpl. rewrite Hw. simpl.
  by rewrite app_nil_r.
Qed.

(** ** What the pages hold *)

Lemma base_html_shows (title body t : string) :
  occurs t body → occurs t (WebGenerator._get_base_html title body).
Proof.
  intros Ht. unfold WebGenerator._get_base_html, lines.
  apply occurs_join with (s := "        " +:+ body); [pick_line |].
  by apply occurs_app_r.
Qed.

Lemma index_content_shows top date page r :
  WebGenerator.index_content top date = Ok page → r ∈ top →
  occurs (WebGenerator._format_repo_card r) page.
Proof.
  unfold WebGenerator.index_content.
  destruct (map_result WebGenerator._format_category_card (map snd CATEGORIES))
    as [cards | e]; [| done].
  intros [= <-] Hr. apply base_html_shows. unfold WebGenerator.index_body, lines.
  apply occurs_join
    with (s := "                    "
               +:+ str_concat (map WebGenerator._format_repo_card top));
    [pick_line |].
  apply occurs_app_r.
  apply occurs_concat with (s := WebGenerator._format_repo_card r);
    [by apply list_elem_of_fmap_2 | apply occurs_refl].
Qed.

Lemma trending_content_shows rising new_ones active_ones date r :
  r ∈ rising ∨ r ∈ new_ones ∨ r ∈ active_ones →
  occurs (WebGenerator._format_repo_list_item r)
         (WebGenerator.trending_content rising new_ones active_ones date).
Proof.
  intros Hr. unfold WebGenerator.trending_content. apply base_html_shows.
  unfold WebGenerator.trending_body, lines.
  assert (Hitem : ∀ l, r ∈ l →
    occurs (WebGenerator._format_repo_list_item r)
           ("                        "
            +:+ str_concat (map WebGenerator._format_repo_list_item l))).
  { intros l Hl. apply occurs_app_r.
    apply occurs_concat with (s := WebGenerator._format_repo_list_item r);
      [by apply list_elem_of_fmap_2 | apply occurs_refl]. }
  destruct Hr as [Hr | [Hr | Hr]].
  - eapply occurs_join; [| exact (Hitem rising Hr)]. pick_line.
  - eapply occurs_join; [| exact (Hitem new_ones Hr)].
    do 12 apply list_elem_of_further.  pick_line.
  - eapply occurs_join; [| exact (Hitem active_ones Hr)].
    do 20 apply list_elem_of_further. pick_line.
Qed.

Lemma category_content_shows info repos r :
  r ∈ repos →
  occurs (WebGenerator._format_repo_card r) (WebGenerator.category_content info repos).
Proof.
  intros Hr. unfold WebGenerator.category_content. apply base_html_shows.
  unfold WebGenerator.category_body, lines.
  apply occurs_join
    with (s := "                "
               +:+ str_concat (map WebGenerator._format_repo_card repos));
    [pick_line |].
  apply occurs_app_r.
  apply occurs_concat with (s := WebGenerator._format_repo_card r);
    [by apply list_elem_of_fmap_2 | apply occurs_refl].
Qed.

(** A card shows the link, the name, the stars and the summary of
    its repository; a list item its link, the last part of its name
    and its summary. *)
Lemma repo_card_shows r :
  let n := default EmptyString (repo_name r) in
  let card := WebGenerator._format_repo_card r in
  occurs ("href=" +:+ dq +:+ default ("https://github.com/" +:+ n) (url r) +:+ dq) card
  ∧ occurs (str_replace WebGenerator.slash " / " n +:+ "</a>") card
  ∧ occurs ("★ " +:+ format_number (default 0%Z (stars r))) card
  ∧ occurs (">" +:+ summary_or_description r +:+ "</p>") card.
Proof.
  intros n card. subst n card. unfold WebGenerator._format_repo_card, lines.
  repeat split.
  - eapply occurs_join;
      [do 3 apply list_elem_of_further; apply list_elem_of_here |].
    exists ("                <div class=" +:+ q "repo-name" +:+ "><a ").
    eexists. rewrite !append_assoc. reflexivity.
  - eapply occurs_join;
      [do 3 apply list_elem_of_further; apply list_elem_of_here |].
    do 9 apply occurs_app_r. exists EmptyString, "</div>".
    rewrite !append_assoc. reflexivity.
  - eapply occurs_join;
      [do 4 apply list_elem_of_further; apply list_elem_of_here |].
    exists ("                <div class=" +:+ q "repo-stats" +:+ ">"), "</div>".
    rewrite !append_assoc. reflexivity.
  - eapply occurs_join;
      [do 6 apply list_elem_of_further; apply list_elem_of_here |].
    exists ("            <p class=" +:+ q "repo-desc"), EmptyString.
    rewrite append_nil_r, !append_assoc. reflexivity.
Qed.

Lemma repo_list_item_shows r :
  let n := default EmptyString (repo_name r) in
  let item := WebGenerator._format_repo_list_item r in
  occurs ("href=" +:+ dq +:+ default ("https://github.com/" +:+ n) (url r) +:+ dq) item
  ∧ occurs (">" +:+ split_last WebGenerator.slash n +:+ "</span>") item
  ∧ occurs (">" +:+ summary_or_description r +:+ "</p>") item.
Proof.
  intros n item. subst n item. unfold WebGenerator._format_repo_list_item, lines.
  repeat split.
  - eapply occurs_join; [apply list_elem_of_further; apply list_elem_of_here |].
    exists "        <a ". eexists. rewrite !append_assoc. reflexivity.
  - eapply occurs_join;
      [do 3 apply list_elem_of_further; apply list_elem_of_here |].
    exists ("                <span class=" +:+ q "li-name"), EmptyString.
    rewrite append_nil_r, !append_assoc. reflexivity.
  - eapply occurs_join;
      [do 6 apply list_elem_of_further; apply list_elem_of_here |].
    exists ("            <p class=" +:+ q "li-desc"), EmptyString.
    rewrite append_nil_r, !append_assoc. reflexivity.
Qed.

(** C9. Site generator coverage: when the store and the file system
    answer, [generate_all] writes the index page, the trending page
    of the day, the same content again at latest.html, and for every
    key of [CATEGORIES] one category page made from what
    [get_repos_by_category(key, limit=50)] returns; then the style
    sheet.  It makes no other call and returns the paths written.
    The index page holds the card of each of the first 20 entries
    of [top_20]; the trending page holds the list item of every
    entry of [rising_top5], of the first ten of [new_entries] and of
    [active]; a category page holds the card of every repository the
    store returned for its key.  A card shows the link, the name,
    the stars and the summary of its repository, a list item its
    link, the last part of its name and its summary. *)
Theorem generate_all_coverage (stored : string → list repo) trends date :
  (∀ path content, write_text_result path content = Ok tt) →
  (∀ key, get_repos_by_category_result key 50 = Ok (stored key)) →
  let trending := WebGenerator.path_join out "trending" in
  let css_path :=
    WebGenerator.path_join
      (WebGenerator.path_join (WebGenerator.path_join out "assets") "css")
      "style.css" in
  let trending_page :=
    WebGenerator.trending_content (rising_top5 trends)
      (take 10 (new_entries trends)) (active trends) date in
  ∃ index_page,
    WebGenerator.index_content (take 20 (top_20 trends)) date = Ok index_page
    ∧ WebGenerator.generate_all output_dir trends date =
      (Return ([ WebGenerator.path_join out "index.html";
                 WebGenerator.path_join trending (date +:+ ".html") ]
               ++ map (category_path output_dir) CATEGORIES ++ [css_path]),
       [ write_text (WebGenerator.path_join out "index.html") index_page;
         write_text (WebGenerator.path_join trending (date +:+ ".html")) trending_page;
         write_text (WebGenerator.path_join trending "latest.html") trending_page ]
       ++ flat_map (category_calls output_dir stored) CATEGORIES
       ++ [ write_text css_path WebGenerator.css ])
    ∧ (∀ r, r ∈ take 20 (top_20 trends) →
            occurs (WebGenerator._format_repo_card r) index_page)
    ∧ (∀ r, r ∈ rising_top5 trends ∨ r ∈ take 10 (new_entries trends)
            ∨ r ∈ active trends →
            occurs (WebGenerator._format_repo_list_item r) trending_page)
    ∧ (∀ kv r, kv ∈ CATEGORIES → r ∈ stored kv.1 →
         ∃ page, write_text (category_path output_dir kv) page
                 ∈ category_calls output_dir stored kv
                 ∧ occurs (WebGenerator._format_repo_card r) page)
    ∧ (∀ r, let n := default EmptyString (repo_name r) in
            let link :=
              "href=" +:+ dq +:+ default ("https://github.com/" +:+ n) (url r)
              +:+ dq in
            let text := ">" +:+ summary_or_description r +:+ "</p>" in
            (occurs link (WebGenerator._format_repo_card r)
             ∧ occurs (str_replace WebGenerator.slash " / " n +:+ "</a>")
                      (WebGenerator._format_repo_card r)
             ∧ occurs ("★ " +:+ format_number (default 0%Z (stars r)))
                      (WebGenerator._format_repo_card r)
             ∧ occurs text (WebGenerator._format_repo_card r))
            ∧ (occurs link (WebGenerator._format_repo_list_item r)
               ∧ occurs (">" +:+ split_last WebGenerator.slash n +:+ "</span>")
                        (WebGenerator._format_repo_list_item r)
               ∧ occurs text (WebGenerator._format_repo_list_item r))).
Proof.
  intros Hw Hs trending css_path trending_page.
  destruct (index_content_Ok (take 20 (top_20 trends)) date) as [page Hpage].
  exists page. split; [done |]. split.
  { unfold WebGenerator.generate_all, WebGenerator.generate_index,
      WebGenerator.generate_trending_page, WebGenerator.generate_category_pages,
      WebGenerator.generate_css.
    rewrite Hpage, (generate_category_pages_run stored) by done.
    unfold WebGenerator.path_write_text, call. simpl.
    repeat (rewrite Hw; simpl). done. }
  split; [intros r Hr; by eapply index_content_shows |].
  split; [intros r Hr; by apply trending_content_shows |].
  split.
  { intros kv r Hkv Hr. eexists. split.
    - unfold category_calls. apply list_elem_of_further, list_elem_of_here.
    - by apply category_content_shows. }
  intros r n link text. split.
  - apply repo_card_shows.
  - apply repo_list_item_shows.
Qed.
End site.

(** ** Paths *)

Lemma split_on_nonempty c s : split_on c s ≠ [].
Proof.
  destruct s as [| a s]; [done |]. simpl.
  destruct (split_on c s); [done |]. by destruct (Ascii.eqb a c).
Qed.

Lemma split_on_no_char c s : has_char c s = false → split_on c s = [s].
Proof.
  induction s as [| a s IH]; [done |]. simpl.
  intros [Ha Hs]%orb_false_iff. rewrite (IH Hs), Ha. done.
Qed.

Lemma split_on_app c x y :
  has_char c x = false →
  split_on c (x +:+ String c y) = x :: split_on c y.
Proof.
  induction x as [| a x IH]; simpl.
  - intros _. pose proof (split_on_nonempty c y).
    destruct (split_on c y); [done |]. by rewrite Ascii.eqb_refl.
  - intros [Ha Hx]%orb_false_iff. rewrite (IH Hx), Ha. done.
Qed.

Lemma split_on_parts c s : Forall (λ x, has_char c x = false) (split_on c s).
Proof.
  induction s as [| a s IH]; [by repeat constructor |]. simpl.
  pose proof (split_on_nonempty c s) as Hne.
  destruct (split_on c s) as [| h t]; [done |]. destruct (Ascii.eqb a c) eqn:Ha.
  - by constructor.
  - apply Forall_cons in IH as [Hh Ht]. constructor; [| done].
    simpl. by rewrite Ha, Hh.
Qed.

Lemma path_of_normal s : normal (WebGenerator.path_of s).
Proof.
  split.
  - unfold WebGenerator.path_of. simpl. destruct (startswith "/" s); [| by left].
    destruct (_ && _); by auto.
  - unfold WebGenerator.path_of. simpl. apply Forall_forall. intros x Hx.
    apply list_elem_of_In, filter_In in Hx as [Hx Hok].
    apply list_elem_of_In in Hx.
    pose proof (split_on_parts WebGenerator.slash s) as Hall. rewrite Forall_forall in Hall.
    unfold is_part. by rewrite Hok, (Hall x Hx).
Qed.

Lemma path_div_normal p s : normal p → normal (WebGenerator.path_div p s).
Proof.
  intros [Hr Hp]. unfold WebGenerator.path_div.
  pose proof (path_of_normal s) as [Hr' Hp'].
  destruct (String.eqb _ _); [| done].
  split; [done |]. simpl. by apply Forall_app.
Qed.

(** The parts of a joined path are found again. *)
Lemma split_on_join (ps : list string) :
  ps ≠ [] → Forall (λ x, is_part x = true) ps →
  split_on WebGenerator.slash (str_join "/" ps) = ps.
Proof.
  intros Hne Hps. induction Hps as [| x ps Hx Hps IH]; [done |].
  unfold is_part in Hx. apply andb_true_iff in Hx as [_ Hx%negb_true_iff].
  destruct ps as [| y ps].
  - by apply split_on_no_char.
  - change (str_join "/" (x :: y :: ps)) with (x +:+ String WebGenerator.slash (str_join "/" (y :: ps))).
    rewrite split_on_app by done. by rewrite IH.
Qed.

Lemma filter_parts (ps : list string) :
  Forall (λ x, is_part x = true) ps →
  List.filter (λ x, negb (String.eqb x EmptyString) && negb (String.eqb x ".")) ps = ps.
Proof.
  induction 1 as [| x ps Hx _ IH]; [done |]. simpl.
  unfold is_part in Hx. apply andb_true_iff in Hx as [-> _]. by rewrite IH.
Qed.

Lemma startswith_cons (c a : ascii) (p s : string) :
  startswith (String c p) (String a s) = Ascii.eqb c a && startswith p s.
Proof.
  unfold startswith. cbn [String.prefix].
  destruct (ascii_dec c a) as [-> | Hne].
  - by rewrite Ascii.eqb_refl.
  - apply Ascii.eqb_neq in Hne. by rewrite Hne.
Qed.

Lemma startswith_nil (s : string) : startswith EmptyString s = true.
Proof. by destruct s. Qed.

Lemma join_starts (ps : list string) :
  Forall (λ x, is_part x = true) ps → startswith "/" (str_join "/" ps) = false.
Proof.
  intros Hps. destruct Hps as [| x ps Hx _]; [done |].
  unfold is_part in Hx.
  apply andb_true_iff in Hx as [[Hx _]%andb_true_iff Hs%negb_true_iff].
  destruct x as [| a x]; [done |].
  cbn [has_char] in Hs. apply orb_false_iff in Hs as [Ha _].
  assert (Hj : ∃ rest, str_join "/" (String a x :: ps) = String a rest)
    by (destruct ps; by eexists).
  destruct Hj as [rest ->]. rewrite startswith_cons.
  rewrite Ascii.eqb_sym. unfold WebGenerator.slash in Ha. by rewrite Ha.
Qed.

Lemma split_on_joined (ps : list string) :
  Forall (λ x, is_part x = true) ps →
  List.filter (λ x, negb (String.eqb x EmptyString) && negb (String.eqb x "."))
              (split_on WebGenerator.slash (str_join "/" ps)) = ps.
Proof.
  intros Hps. destruct ps as [| x ps]; [done |].
  rewrite split_on_join by done. by apply filter_parts.
Qed.

(** A path is found again from its string: to keep a path as its
    string loses nothing. *)
Lemma path_of_str (p : WebGenerator.path) : normal p → WebGenerator.path_of (WebGenerator.path_str p) = p.
Proof.
  destruct p as [r ps]. intros [Hr Hps]. cbn [WebGenerator.path_root WebGenerator.path_parts] in *.
  pose proof (join_starts ps Hps) as Hj. pose proof (split_on_joined ps Hps) as Hs.
  unfold WebGenerator.path_of.
  destruct Hr as [-> | [-> | ->]].
  - destruct ps as [| x ps]; [done |].
    change (WebGenerator.path_str
              {| WebGenerator.path_root := EmptyString;
                 WebGenerator.path_parts := x :: ps |})
      with (str_join "/" (x :: ps)).
    by rewrite Hj, Hs.
  - change (WebGenerator.path_str
              {| WebGenerator.path_root := "/"; WebGenerator.path_parts := ps |})
      with (String WebGenerator.slash (str_join "/" ps)).
    rewrite !startswith_cons, Hj, startswith_nil.
    change (String WebGenerator.slash (str_join "/" ps))
      with (EmptyString +:+ String WebGenerator.slash (str_join "/" ps)).
    rewrite split_on_app by done. cbn [List.filter]. rewrite Hs. reflexivity.
  - change (WebGenerator.path_str
              {| WebGenerator.path_root := "//"; WebGenerator.path_parts := ps |})
      with (String WebGenerator.slash (String WebGenerator.slash (str_join "/" ps))).
    rewrite !startswith_cons, Hj, !startswith_nil.
    change (String WebGenerator.slash (String WebGenerator.slash (str_join "/" ps)))
      with (EmptyString +:+ String WebGenerator.slash (EmptyString +:+ String WebGenerator.slash (str_join "/" ps))).
    rewrite !split_on_app by done. cbn [List.filter]. rewrite Hs. reflexivity.
Qed.

(** Two joins in a row are the two divisions of [pathlib]. *)
Lemma path_join_join (a b c : string) :
  WebGenerator.path_join (WebGenerator.path_join a b) c
  = WebGenerator.path_str (WebGenerator.path_div (WebGenerator.path_div (WebGenerator.path_of a) b) c).
Proof.
  unfold WebGenerator.path_join. rewrite path_of_str; [done |].
  apply path_div_normal, path_of_normal.
Qed.

(** The paths are those of [pathlib]: however the output directory
    is spelled, the style sheet goes to one place. *)
Example paths_are_normalised :
  map (λ o, WebGenerator.path_join
              (WebGenerator.path_join
                 (WebGenerator.path_join
                    (@WebGenerator.self_output_dir sample_config o) "assets")
                 "css")
              "style.css")
      [ "docs"; "docs/"; "./docs"; "docs//"; EmptyString; "."; "/srv/site/" ]
  = [ "docs/assets/css/style.css"; "docs/assets/css/style.css";
      "docs/assets/css/style.css"; "docs/assets/css/style.css";
      "docs/assets/css/style.css"; "assets/css/style.css";
      "/srv/site/assets/css/style.css" ].
Proof. reflexivity. Qed.

(** * The AI summarizer *)

Section summarizer.
Context `{Config} `{World}.

(** What the validation loop keeps: one record per decoded object
    that has a true, hashable [repo_name]. *)
Lemma validate_records repos results records rec :
  AISummarizer.validate repos results = Ok records → rec ∈ records →
  ∃ d, PDict d ∈ results ∧ rec = record_of repos d.
Proof.
  revert records. induction results as [| v results IH]; intros records; simpl.
  - intros [= <-] ?%elem_of_nil. done.
  - assert (Hskip : AISummarizer.validate repos results = Ok records →
                    rec ∈ records → ∃ d, PDict d ∈ v :: results ∧ rec = record_of repos d).
    { intros Hv Hin. destruct (IH _ Hv Hin) as (d & Hd & ->).
      exists d. split; [by right | done]. }
    destruct v as [| | | | | | d]; try exact Hskip.
    destruct (truthy (dict_get "repo_name" PNone d)); simpl; [| exact Hskip].
    destruct (hashable (dict_get "repo_name" PNone d)); simpl; [| done].
    destruct (AISummarizer.validate repos results) as [vs | e]; [| done].
    intros [= <-] [-> | Hin]%elem_of_cons.
    + exists d. split; [by left | done].
    + destruct (IH _ eq_refl Hin) as (d' & Hd' & ->).
      exists d'. split; [by right | done].
Qed.

(** What [_parse_batch_response] returns: the fallback records when
    the text does not decode, the validated records otherwise. *)
Lemma parse_batch_response_cases text repos records :
  AISummarizer._parse_batch_response text repos = Ok records →
  (∃ msg, json_loads (AISummarizer.clean_response text) = Err (JSONDecodeError msg)
          ∧ records = AISummarizer._fallback_summaries repos)
  ∨ (∃ v, json_loads (AISummarizer.clean_response text) = Ok v
          ∧ AISummarizer.validate repos (as_list v) = Ok records).
Proof.
  unfold AISummarizer._parse_batch_response.
  destruct (json_loads _) as [v | [| msg |]]; try done.
  - intros Hv. right. exists v. split; [done |]. by destruct v.
  - intros [= <-]. left. by exists msg.
Qed.

(** The validation loop, as a function of the objects it keeps. *)
Lemma validate_kept repos results :
  match AISummarizer.validate repos results with
  | Ok records =>
      forallb (λ d, hashable (dict_get "repo_name" PNone d)) (kept_objects results) = true
      ∧ records = map (record_of repos) (kept_objects results)
  | Err e =>
      forallb (λ d, hashable (dict_get "repo_name" PNone d)) (kept_objects results) = false
      ∧ ∃ msg, e = Exception "TypeError" msg
  end.
Proof.
  induction results as [| v results IH]; [done |].
  destruct v as [| | | | | | d]; try exact IH.
  simpl. unfold kept_objects in *. simpl.
  destruct (truthy (dict_get "repo_name" PNone d)); simpl; [| exact IH].
  destruct (hashable (dict_get "repo_name" PNone d)); simpl; [| by eauto].
  destruct (AISummarizer.validate repos results) as [records | e]; [| done].
  destruct IH as [-> ->]. done.
Qed.

(** C4 (amended). The category of a record produced by the response
    parsing is the category value of the decoded object it was built
    from, passed on as it is and not checked against the category
    set; it is the sentinel other only when that object has no
    category key, and on the fallback path. *)
Theorem parsed_category_is_passed_through text repos records :
  AISummarizer._parse_batch_response text repos = Ok records →
  (∃ msg, json_loads (AISummarizer.clean_response text) = Err (JSONDecodeError msg)
          ∧ Forall2 (λ (r : repo) rec, dict_lookup "category" rec = Some (PStr "other"))
                    repos records)
  ∨ (∃ v, json_loads (AISummarizer.clean_response text) = Ok v
          ∧ Forall2
              (λ d rec,
                 dict_lookup "repo_name" rec = Some (dict_get "repo_name" PNone d)
                 ∧ match dict_lookup "category" d with
                   | Some c => dict_lookup "category" rec = Some c
                   | None => dict_lookup "category" rec = Some (PStr "other")
                   end)
              (kept_objects (as_list v)) records).
Proof.
  intros [(msg & Hj & ->) | (v & Hv & Hval)]%parse_batch_response_cases.
  - left. exists msg. split; [done |].
    unfold AISummarizer._fallback_summaries.
    apply Forall2_fmap_r, Forall_Forall2_diag, Forall_forall. by intros r _.
  - right. exists v. split; [done |].
    pose proof (validate_kept repos (as_list v)) as Hk. rewrite Hval in Hk.
    destruct Hk as [_ ->].
    apply Forall2_fmap_r, Forall_Forall2_diag, Forall_forall. intros d _.
    split; [done |]. simpl. unfold dict_get.
    by destruct (dict_lookup "category" d).
Qed.

(** What [summarize_and_classify] returns, path by path. *)
Lemma summarize_and_classify_cases repos records :
  (AISummarizer.summarize_and_classify repos).1 = Return records →
  records = AISummarizer._fallback_summaries repos
  ∨ ∃ text, AISummarizer._parse_batch_response text repos = Ok records.
Proof.
  unfold AISummarizer.summarize_and_classify.
  destruct repos as [| r repos]; [intros [= <-]; by left |].
  set (l := r :: repos). clearbody l.
  unfold try_except_Exception, try_except, call. simpl.
  destruct (chat_completions_create_result _) as [[text |] | e]; simpl.
  - destruct (AISummarizer._parse_batch_response text l) as [recs | e] eqn:Hp; simpl.
    + intros [= <-]. right. by exists text.
    + destruct (is_Exception e); simpl; [intros [= <-]; by left | done].
  - intros [= <-]. by left.
  - destruct (is_Exception e); simpl; [intros [= <-]; by left | done].
Qed.

(** An interrupt aside, [summarize_and_classify] returns. *)
Lemma summarize_and_classify_returns repos :
  (∀ prompt, uninterrupted (chat_completions_create_result prompt)) →
  (∀ text, uninterrupted (json_loads text)) →
  ∃ records, (AISummarizer.summarize_and_classify repos).1 = Return records.
Proof.
  intros Hc Hj. unfold AISummarizer.summarize_and_classify.
  destruct repos as [| r repos]; [by eexists |].
  set (l := r :: repos). clearbody l.
  unfold try_except_Exception, try_except, call. simpl.
  specialize (Hc (AISummarizer._build_batch_prompt l)).
  destruct (chat_completions_create_result _) as [[text |] | e]; simpl.
  - unfold AISummarizer._parse_batch_response. specialize (Hj (AISummarizer.clean_response text)).
    destruct (json_loads _) as [v | e]; simpl.
    + destruct (AISummarizer.validate l _) as [recs | e] eqn:Hv; simpl; [by eexists |].
      assert (is_Exception e = true) as ->; [| by eexists].
      clear -Hv. revert Hv. generalize (match v with PList l0 => l0 | _ => [v] end).
      intros results. induction results as [| x results IH]; simpl; [done |].
      destruct x; try exact IH.
      destruct (truthy _); simpl; [| exact IH].
      destruct (hashable _); simpl; [| by intros [= <-]].
      destruct (AISummarizer.validate l results); [done |]. intros [= <-]. by apply IH.
    + destruct e; simpl; [by destruct Hj | by eexists | by eexists].
  - by eexists.
  - destruct e; simpl; [by destruct Hc | by eexists | by eexists].
Qed.

Lemma fallback_record_fields r :
  Forall (λ k, has_key k (AISummarizer.fallback_record r)) common_fields
  ∧ dict_lookup "fallback" (AISummarizer.fallback_record r) = Some (PBool true)
  ∧ Forall (λ k, dict_lookup k (AISummarizer.fallback_record r) = None) analysis_fields.
Proof. split; [| split]; repeat constructor; by eexists. Qed.

Lemma validated_result_fields n o d :
  Forall (λ k, has_key k (AISummarizer.validated_result n o d))
         (common_fields ++ analysis_fields).
Proof. repeat constructor; by eexists. Qed.

(** The paths of [summarize_and_classify]: no repository, a degraded
    answer, a parsed answer. *)
Lemma summarize_and_classify_paths repos records :
  (AISummarizer.summarize_and_classify repos).1 = Return records →
  let answer :=
    chat_completions_create_result (AISummarizer._build_batch_prompt repos) in
  (repos = [] ∧ records = [])
  ∨ (repos ≠ []
     ∧ ((∃ e, answer = Err e) ∨ answer = Ok None
        ∨ (∃ text e, answer = Ok (Some text)
             ∧ json_loads (AISummarizer.clean_response text) = Err e)
        ∨ (∃ text v d, answer = Ok (Some text)
             ∧ json_loads (AISummarizer.clean_response text) = Ok v
             ∧ d ∈ kept_objects (as_list v)
             ∧ hashable (dict_get "repo_name" PNone d) = false))
     ∧ records = AISummarizer._fallback_summaries repos)
  ∨ (repos ≠ []
     ∧ ∃ text v, answer = Ok (Some text)
         ∧ json_loads (AISummarizer.clean_response text) = Ok v
         ∧ Forall (λ d, hashable (dict_get "repo_name" PNone d) = true)
                  (kept_objects (as_list v))
         ∧ records = map (record_of repos) (kept_objects (as_list v))).
Proof.
  unfold AISummarizer.summarize_and_classify.
  destruct repos as [| r repos]; [intros [= <-]; by left |].
  set (l := r :: repos). assert (l ≠ []) as Hne by done. clearbody l.
  unfold try_except_Exception, try_except, call. simpl.
  destruct (chat_completions_create_result _) as [[text |] | e] eqn:Hc; simpl.
  - unfold AISummarizer._parse_batch_response.
    destruct (json_loads (AISummarizer.clean_response text)) as [v | e] eqn:Hj.
    + change (match v with PList l0 => l0 | _ => [v] end) with (as_list v).
      pose proof (validate_kept l (as_list v)) as Hk.
      destruct (AISummarizer.validate l (as_list v)) as [recs | e]; simpl.
      * destruct Hk as [Hall ->]. intros [= <-]. right. right.
        split; [done |]. exists text, v. split; [done |]. split; [done |].
        split; [| done]. apply Forall_forall. intros d Hd.
        rewrite forallb_forall in Hall. apply Hall. by apply list_elem_of_In.
      * destruct Hk as [Hall (msg & ->)]. simpl. intros [= <-]. right. left.
        split; [done |]. split; [| done]. right. right. right.
        assert (∃ d, d ∈ kept_objects (as_list v)
                     ∧ hashable (dict_get "repo_name" PNone d) = false)
          as (d & Hd & Hh).
        { clear -Hall. induction (kept_objects (as_list v)) as [| d ds IH]; [done |].
          simpl in Hall. destruct (hashable (dict_get "repo_name" PNone d)) eqn:Hh.
          - destruct (IH Hall) as (d' & Hd' & Hh'). exists d'.
            split; [by apply list_elem_of_further | done].
          - exists d. split; [apply list_elem_of_here | done]. }
        by exists text, v, d.
    + destruct e as [| msg | cls msg]; simpl; [done | |];
        (intros [= <-]; right; left; split; [done |]; split; [| done];
         right; right; left; by eexists text, _).
  - intros [= <-]. right. left. split; [done |]. split; [| done]. right. by left.
  - destruct (is_Exception e); simpl; [| done]. intros [= <-]. right. left.
    split; [done |]. split; [| done]. left. by exists e.
Qed.

(** C5 (amended). Every record returned by [summarize_and_classify]
    is keyed by [repo_name] and has the fields summary, description,
    category and category_zh.  When the response was parsed, the
    records are those of the decoded objects, and each has
    tech_stack, solves and use_case as well, and no [fallback] mark;
    on the degraded path (the call raised, the answer has no text,
    the text does not decode, or a name is unhashable) there is one
    record per repository, with none of the three fields and with the
    [fallback] mark. *)
Theorem summary_record_shape repos records :
  (AISummarizer.summarize_and_classify repos).1 = Return records →
  let answer :=
    chat_completions_create_result (AISummarizer._build_batch_prompt repos) in
  Forall (λ rec, Forall (λ k, has_key k rec) common_fields) records
  ∧ ((repos = [] ∧ records = [])
     ∨ (repos ≠ []
        ∧ ((∃ e, answer = Err e) ∨ answer = Ok None
           ∨ (∃ text e, answer = Ok (Some text)
                ∧ json_loads (AISummarizer.clean_response text) = Err e)
           ∨ (∃ text v d, answer = Ok (Some text)
                ∧ json_loads (AISummarizer.clean_response text) = Ok v
                ∧ d ∈ kept_objects (as_list v)
                ∧ hashable (dict_get "repo_name" PNone d) = false))
        ∧ Forall2
            (λ (r : repo) rec,
               dict_lookup "fallback" rec = Some (PBool true)
               ∧ Forall (λ k, dict_lookup k rec = None) analysis_fields)
            repos records)
     ∨ (repos ≠ []
        ∧ ∃ text v, answer = Ok (Some text)
            ∧ json_loads (AISummarizer.clean_response text) = Ok v
            ∧ Forall (λ d, hashable (dict_get "repo_name" PNone d) = true)
                     (kept_objects (as_list v))
            ∧ Forall2
                (λ d rec,
                   dict_lookup "repo_name" rec = Some (dict_get "repo_name" PNone d)
                   ∧ Forall (λ k, has_key k rec) analysis_fields
                   ∧ dict_lookup "fallback" rec = None)
                (kept_objects (as_list v)) records)).
Proof.
  intros Hret answer.
  destruct (summarize_and_classify_paths repos records Hret)
    as [[-> ->] | [(Hne & Hpath & ->) | (Hne & text & v & Hc & Hj & Hall & ->)]].
  - split; [constructor | by left].
  - split.
    + unfold AISummarizer._fallback_summaries. apply Forall_fmap, Forall_forall.
      intros r _. by destruct (fallback_record_fields r).
    + right. left. split; [done |]. split; [exact Hpath |].
      unfold AISummarizer._fallback_summaries.
      apply Forall2_fmap_r, Forall_Forall2_diag, Forall_forall. intros r _.
      by destruct (fallback_record_fields r) as (_ & ? & ?).
  - assert (Hf : ∀ d,
      Forall (λ k, has_key k (record_of repos d)) (common_fields ++ analysis_fields)).
    { intros d. apply validated_result_fields. }
    split.
    + apply Forall_fmap, Forall_forall. intros d _.
      by destruct (proj1 (Forall_app _ _ _) (Hf d)).
    + right. right. split; [done |]. exists text, v.
      split; [done |]. split; [done |]. split; [done |].
      apply Forall2_fmap_r, Forall_Forall2_diag, Forall_forall. intros d _.
      split; [done |]. split; [| done].
      by destruct (proj1 (Forall_app _ _ _) (Hf d)).
Qed.

(** The summary of a fallback record: the description, cut after
    its first 50 characters and followed by three dots when it is
    longer. *)
Lemma fallback_summary_spec (d : string) :
  ((py_len d ≤ 50)%nat ∧ AISummarizer.fallback_summary d = d)
  ∨ ((50 < py_len d)%nat
     ∧ ∃ pre rest, d = pre +:+ rest ∧ chars pre = take 50 (chars d)
                   ∧ AISummarizer.fallback_summary d = pre +:+ "...").
Proof.
  unfold AISummarizer.fallback_summary.
  destruct (Nat.ltb_spec 50 (py_len d)) as [Hlt | Hle]; [right | by left].
  split; [done |].
  exists (py_take 50 d), (join_chars (drop 50 (chars d))).
  split; [apply py_take_drop |]. split; [apply chars_take | done].
Qed.

(** Characters are counted, not bytes: a description of 21 Chinese
    characters is kept whole. *)
Example chinese_description_is_kept :
  py_len chinese_description = 21%nat
  ∧ String.length chinese_description = 63%nat
  ∧ AISummarizer.fallback_summary chinese_description = chinese_description.
Proof. repeat split; reflexivity. Qed.

(** C6. Degradation: when the AI call raises an exception, or when
    its response text fails JSON parsing, [summarize_and_classify]
    returns one fallback record per input repository, in order, built
    from the repository's raw metadata: as name its [repo_name], or
    when that is absent or empty its [name], or unknown; its
    description; the category other; and as summary the description,
    cut to its first 50 characters followed by three dots when it
    has more than 50 characters. *)
Theorem degraded_summaries repos :
  let prompt := AISummarizer._build_batch_prompt repos in
  (∃ e, chat_completions_create_result prompt = Err e ∧ is_Exception e = true)
  ∨ (∃ text msg, chat_completions_create_result prompt = Ok (Some text)
       ∧ json_loads (AISummarizer.clean_response text) = Err (JSONDecodeError msg)) →
  ∃ records,
    (AISummarizer.summarize_and_classify repos).1 = Return records
    ∧ Forall2
        (λ r rec,
           let d := default EmptyString (description r) in
           dict_lookup "repo_name" rec
           = Some (PStr match repo_name r with
                        | Some (String c k) => String c k
                        | _ => default "unknown" (name r)
                        end)
           ∧ dict_lookup "description" rec = Some (PStr d)
           ∧ dict_lookup "category" rec = Some (PStr "other")
           ∧ dict_lookup "fallback" rec = Some (PBool true)
           ∧ ∃ s, dict_lookup "summary" rec = Some (PStr s)
               ∧ (((py_len d ≤ 50)%nat ∧ s = d)
                  ∨ ((50 < py_len d)%nat
                     ∧ ∃ pre rest, d = pre +:+ rest
                                   ∧ chars pre = take 50 (chars d)
                                   ∧ s = pre +:+ "...")))
        repos records.
Proof.
  intros prompt Hfail.
  exists (AISummarizer._fallback_summaries repos). split.
  - unfold AISummarizer.summarize_and_classify. fold prompt.
    destruct repos as [| r repos]; [done |].
    set (l := r :: repos) in *. clearbody l.
    unfold try_except_Exception, try_except, call.
    destruct Hfail as [(e & -> & He) | (text & msg & -> & Hj)]; simpl.
    + by rewrite He.
    + unfold AISummarizer._parse_batch_response. by rewrite Hj.
  - unfold AISummarizer._fallback_summaries. apply Forall2_fmap_r, Forall_Forall2_diag.
    apply Forall_forall. intros r _. cbn zeta. split.
    { simpl. unfold AISummarizer.fallback_name, str_truthy.
      by destruct (repo_name r) as [[| c k] |]. }
    repeat split; try done.
    eexists. split; [done |]. apply fallback_summary_spec.
Qed.
End summarizer.

(** C4, as stated, fails: the response names a category outside the
    configured set, and the record keeps it. *)
Lemma unknown_category_is_kept :
  ∃ rec,
    @AISummarizer._parse_batch_response sample_config happy_world
      sample_response sample_repos = Ok [rec]
    ∧ dict_lookup "category" rec = Some (PStr "banana")
    ∧ "banana" ∉ map fst (@CATEGORIES sample_config).
Proof.
  eexists. split; [vm_compute; reflexivity |]. split; [reflexivity |].
  intros Hin%list_elem_of_In. vm_compute in Hin. intuition discriminate.
Qed.

(** C5, as stated, fails: a record of the degraded path has no
    tech_stack, solves or use_case. *)
Lemma fallback_record_lacks_fields :
  ∃ rec records,
    (@AISummarizer.summarize_and_classify sample_config offline_world sample_repos).1
    = Return (rec :: records)
    ∧ ¬ Forall (λ k, has_key k rec) summary_fields.
Proof.
  eexists _, _. split; [vm_compute; reflexivity |].
  intros Hall. rewrite Forall_forall in Hall.
  destruct (Hall "tech_stack") as [v Hv]; [set_solver |]. vm_compute in Hv. discriminate.
Qed.

Local Open Scope Z_scope.

(** * The trend engine *)

Section engine.
Variables (TOPIC : string) (truncate : string → string) (other_zh : string).

(** C1. Dedup correctness of the top picks: for every run, no
    repository whose name is in
    [get_notified_repo_names(today - deduplicate_days)] appears in
    the [top_20] of the result of [calculate_trends]. *)
Theorem top_picks_exclude_notified st today_entries today_date enrichment_map
    deduplicate_days e :
  e ∈ TrendEngine.top_20
        (TrendEngine.calculate_trends TOPIC truncate other_zh st today_entries
           today_date enrichment_map deduplicate_days).1 →
  TrendEngine.e_name e
  ∉ TrendEngine.get_notified_repo_names (today_date - deduplicate_days) st.
Proof.
  intros Hin. simpl in Hin.
  apply subseteq_take in Hin. by apply list_elem_of_filter in Hin as [Hex _].
Qed.

(** The top picks are at most 20, in the order received. *)
Lemma top_picks_at_most_20 st today_entries today_date enrichment_map
    deduplicate_days :
  (length (TrendEngine.top_20
      (TrendEngine.calculate_trends TOPIC truncate other_zh st today_entries
         today_date enrichment_map deduplicate_days).1) ≤ 20)%nat.
Proof. simpl. rewrite length_take. lia. Qed.
End engine.

(** The model on the scenarios of the specification (section 8).
    A: no previous snapshot.  B: one repository rises, one drops, one
    is new.  C: a push three days ago, window of 7 days.  D: the same
    with a window of 0 days, which reaches no push of an earlier
    day. *)
Example scenario_A :
  let r := (sample_engine TrendEngine.empty_store
              [record "A" 100; record "B" 50] 100 ∅ 7).1 in
  entry_names (TrendEngine.new_entries r) = ["A"; "B"]
  ∧ TrendEngine.rising_top5 r = []
  ∧ TrendEngine.dropped_entries r = [].
Proof. vm_compute. done. Qed.

Example scenario_B :
  let r := (sample_engine yesterday_store
              [record "A" 130; record "C" 10] 100 ∅ 7).1 in
  entry_names (TrendEngine.new_entries r) = ["C"]
  ∧ map TrendEngine.s_repo_name (TrendEngine.dropped_entries r) = ["B"]
  ∧ map (λ e, (TrendEngine.e_name e, TrendEngine.delta e)) (TrendEngine.rising_top5 r)
    = [("A", 30)]
  ∧ entry_names (TrendEngine.surging r) = ["A"].
Proof. vm_compute. done. Qed.

Example scenario_C :
  entry_names
    (TrendEngine.top_20
       (sample_engine pushed_three_days_ago
          [record "X" 100; record "Y" 50] 100 ∅ 7).1)
  = ["Y"].
Proof. vm_compute. done. Qed.

Example scenario_D :
  entry_names
    (TrendEngine.top_20
       (sample_engine pushed_three_days_ago
          [record "X" 100; record "Y" 50] 100 ∅ 0).1)
  = ["X"; "Y"].
Proof. vm_compute. done. Qed.

Lemma top_picks_exclude_notified_witness :
  ∃ e, e ∈ TrendEngine.top_20
             (sample_engine pushed_store [record "x/y" 5; record "u/v" 3] 103 ∅ 7).1
       ∧ TrendEngine.e_name e = "u/v"
       ∧ TrendEngine.e_name e
         ∉ TrendEngine.get_notified_repo_names (103 - 7) pushed_store.
Proof.
  eexists.
  match goal with
  | |- ?P ∧ _ => assert (Hin : P) by (apply list_elem_of_In; vm_compute; left; reflexivity)
  end.
  split; [exact Hin |]. split; [reflexivity |].
  exact (top_picks_exclude_notified _ _ _ _ _ _ _ _ _ Hin).
Defined.


Local Close Scope Z_scope.

(** * Witnesses *)

Lemma store_closed_exactly_once_witness :
  ∃ es, trace (@Driver.main sample_config happy_world)
        = Database_init "data/trending.db" :: es ++ [db_close]
        ∧ Forall (λ ev, is_db_close ev = false) es.
Proof.
  apply (@store_closed_exactly_once sample_config happy_world); reflexivity.
Defined.

Lemma failure_before_trends_aborts_witness :
  Forall (λ ev, is_send ev = false ∧ is_site ev = false)
         (trace (@Driver.main sample_config fetchless_world))
  ∧ (Driver.exit_status (@Driver.main sample_config fetchless_world).1 = 1%Z
     ∨ Driver.exit_status (@Driver.main sample_config fetchless_world).1 = 130%Z).
Proof.
  apply (@failure_before_trends_aborts sample_config fetchless_world
           (Exn (Exception "HTTPError" "403"))); reflexivity.
Defined.

Lemma notification_recorded_iff_pushed_witness :
  named (top_20 sample_trends)
  ∧ recorded_names
      (trace (@Driver.notify sample_config rejecting_world sample_trends "2026-01-15"))
    = [].
Proof.
  assert (Hnamed : named (top_20 sample_trends)).
  { unfold named. simpl. repeat constructor; by eexists. }
  split; [exact Hnamed |].
  destruct (@notification_recorded_iff_pushed sample_config rejecting_world
              sample_trends "2026-01-15" Hnamed) as [_ Hfail].
  eapply Hfail; [reflexivity |].
  intros (v & Hv & Ht). vm_compute in Hv. injection Hv as <-. discriminate.
Defined.

Lemma telegram_sender_total_witness :
  ∃ d, (@TelegramSender.send_report happy_world "123:abc" "-1001"
          sample_trends "2026-01-15").1 = Return d
       ∧ has_key "success" d.
Proof.
  apply (@telegram_sender_total happy_world "123:abc" "-1001").
  unfold uninterrupted. simpl. discriminate.
Defined.

Lemma generate_all_coverage_witness :
  ∃ index_page,
    @WebGenerator.index_content sample_config happy_world
      (take 20 (top_20 sample_trends)) "2026-01-15" = Ok index_page
    ∧ write_text "docs/index.html" index_page
      ∈ trace (@WebGenerator.generate_all sample_config happy_world "docs"
                 sample_trends "2026-01-15")
    ∧ occurs (@WebGenerator._format_repo_card sample_config
                (mk_repo "org/one" "About one" 100 0)) index_page
    ∧ occurs (@WebGenerator._format_repo_list_item sample_config
                (mk_repo "org/two" "About two" 100 30))
             (@WebGenerator.trending_content sample_config happy_world
                (rising_top5 sample_trends) (take 10 (new_entries sample_trends))
                (active sample_trends) "2026-01-15").
Proof.
  destruct (@generate_all_coverage sample_config happy_world "docs"
              (λ _, sample_repos) sample_trends "2026-01-15")
    as (page & Hpage & Hrun & Hcards & Hitems & _); [reflexivity | reflexivity |].
  exists page. split; [exact Hpage |]. split; [| split].
  - rewrite Hrun. unfold trace. simpl. apply list_elem_of_here.
  - apply Hcards. apply list_elem_of_here.
  - apply Hitems. left. apply list_elem_of_here.
Defined.

Lemma parsed_category_is_passed_through_witness :
  ∃ rec,
    @AISummarizer._parse_batch_response sample_config happy_world
      sample_response sample_repos = Ok [rec]
    ∧ dict_lookup "category" rec = Some (PStr "banana").
Proof.
  eexists.
  assert (Hparse :
    @AISummarizer._parse_batch_response sample_config happy_world
      sample_response sample_repos
    = Ok (map (@record_of sample_config happy_world sample_repos)
              (kept_objects (as_list sample_decoded))))
    by (vm_compute; reflexivity).
  split; [exact Hparse |].
  destruct (@parsed_category_is_passed_through sample_config happy_world
              sample_response sample_repos _ Hparse)
    as [(msg & Hj & _) | (v & Hj & Hall)].
  - vm_compute in Hj. discriminate.
  - vm_compute in Hj. injection Hj as <-.
    apply Forall2_cons_1 in Hall as [[_ Hcat] _]. exact Hcat.
Defined.

Lemma summary_record_shape_witness :
  ∃ records,
    (@AISummarizer.summarize_and_classify sample_config offline_world sample_repos).1
    = Return records
    ∧ Forall (λ rec, Forall (λ k, has_key k rec) common_fields) records
    ∧ length records = 2%nat.
Proof.
  eexists.
  assert (Hret :
    (@AISummarizer.summarize_and_classify sample_config offline_world sample_repos).1
    = Return (@AISummarizer._fallback_summaries sample_config sample_repos))
    by (vm_compute; reflexivity).
  split; [exact Hret |].
  destruct (@summary_record_shape sample_config offline_world sample_repos _ Hret)
    as [Hcommon _].
  split; [exact Hcommon | reflexivity].
Defined.

Lemma degraded_summaries_witness :
  ∃ records,
    (@AISummarizer.summarize_and_classify sample_config offline_world mixed_repos).1
    = Return records
    ∧ length records = 2%nat
    ∧ map (dict_lookup "summary") records
      = [ Some (PStr "A command line companion that keeps every project ...");
          Some (PStr chinese_description) ].
Proof.
  destruct (@degraded_summaries sample_config offline_world mixed_repos)
    as (records & Hret & Hall).
  - left. eexists. split; reflexivity.
  - exists records. split; [exact Hret |]. split.
    + symmetry. exact (Forall2_length _ _ _ Hall).
    + vm_compute in Hret. injection Hret as <-. reflexivity.
Defined.

(** * Further properties of the AI summarizer *)

Section assoc.
Context {K V : Type} `{EqDecision K}.


End assoc.

Section summarizer_more.
Context `{Config} `{World}.

(** X1. The prompt is built from the first twenty repositories only:
    for a batch of twenty or more, [_build_batch_prompt] gives the
    prompt of its first twenty, the announced count included. *)
Theorem prompt_covers_first_twenty (repos : list repo) :
  (20 ≤ length repos)%nat →
  AISummarizer._build_batch_prompt repos
  = AISummarizer._build_batch_prompt (take 20 repos).
Proof.
  intros Hlen. unfold AISummarizer._build_batch_prompt.
  rewrite take_idemp, length_take.
  replace (20 `min` length repos)%nat with 20%nat by lia.
  by replace (Z.min (Z.of_nat (length repos)) 20) with (Z.min (Z.of_nat 20) 20) by lia.
Qed.

Lemma kept_objects_length results :
  (length (kept_objects results) ≤ length results)%nat.
Proof.
  induction results as [| v results IH]; [done |].
  unfold kept_objects in *. simpl.
  destruct v as [| | | | | | d]; simpl; try (etrans; [apply IH | lia]).
  destruct (truthy _); simpl; [apply le_n_S, IH | etrans; [apply IH | lia]].
Qed.

(** X2. The validated records follow the response, not the input:
    when the response decodes and [_parse_batch_response] returns,
    it returns one record for each decoded object whose [repo_name]
    is true, in the order of the response, whatever the repositories
    that were sent; so never more records than decoded items, and
    each with a true, hashable [repo_name]. *)
Theorem validated_records_follow_response repos text v records :
  json_loads (AISummarizer.clean_response text) = Ok v →
  AISummarizer._parse_batch_response text repos = Ok records →
  records = map (record_of repos) (kept_objects (as_list v))
  ∧ (length records ≤ length (as_list v))%nat
  ∧ Forall (λ rec, ∃ n, dict_lookup "repo_name" rec = Some n
                        ∧ truthy n = true ∧ hashable n = true) records.
Proof.
  intros Hj. unfold AISummarizer._parse_batch_response. rewrite Hj.
  change (match v with PList l0 => l0 | _ => [v] end) with (as_list v).
  pose proof (validate_kept repos (as_list v)) as Hk. intros Hval.
  rewrite Hval in Hk. destruct Hk as [Hh ->].
  split; [done |]. split.
  - rewrite length_map. apply kept_objects_length.
  - apply Forall_fmap, Forall_forall. intros d Hd. simpl.
    exists (dict_get "repo_name" PNone d). split; [done |].
    rewrite forallb_forall in Hh. split; [| apply Hh; by apply list_elem_of_In].
    unfold kept_objects in Hd. apply list_elem_of_omap in Hd as (x & _ & Hx).
    destruct x; try done. destruct (truthy _) eqn:Ht; [| done]. by injection Hx as ->.
Qed.

(** X3. One unhashable name degrades the whole batch: if a decoded
    object carries a list or a dict as [repo_name], the lookup in
    [original_map] raises a TypeError, which [summarize_and_classify]
    catches: it returns the fallback summaries of all repositories,
    and the records of the well-formed objects are lost. *)
Theorem unhashable_name_degrades_batch repos text v d :
  repos ≠ [] →
  chat_completions_create_result (AISummarizer._build_batch_prompt repos)
  = Ok (Some text) →
  json_loads (AISummarizer.clean_response text) = Ok v →
  d ∈ kept_objects (as_list v) →
  hashable (dict_get "repo_name" PNone d) = false →
  (AISummarizer.summarize_and_classify repos).1
  = Return (AISummarizer._fallback_summaries repos).
Proof.
  intros Hne Hc Hj Hd Hh. unfold AISummarizer.summarize_and_classify.
  destruct repos as [| r repos]; [done |].
  set (l := r :: repos) in *. clearbody l.
  unfold try_except_Exception, try_except, call. rewrite Hc. simpl.
  unfold AISummarizer._parse_batch_response. rewrite Hj.
  change (match v with PList l0 => l0 | _ => [v] end) with (as_list v).
  pose proof (validate_kept l (as_list v)) as Hk.
  destruct (AISummarizer.validate l (as_list v)) as [recs | e].
  - destruct Hk as [Hall _]. rewrite forallb_forall in Hall.
    apply list_elem_of_In, Hall in Hd. congruence.
  - by destruct Hk as [_ (msg & ->)].
Qed.

(** An interrupt aside, the outcome of a batch. *)
Lemma summarize_and_classify_run repos :
  repos ≠ [] →
  uninterrupted
    (chat_completions_create_result (AISummarizer._build_batch_prompt repos)) →
  (∀ text, uninterrupted (json_loads text)) →
  ∃ records,
    AISummarizer.summarize_and_classify repos
    = (Return records,
       [chat_completions_create (AISummarizer._build_batch_prompt repos)]).
Proof.
  intros Hne Hc Hj. unfold AISummarizer.summarize_and_classify.
  destruct repos as [| r repos]; [done |].
  set (l := r :: repos) in *. clearbody l.
  unfold try_except_Exception, try_except, call.
  destruct (chat_completions_create_result _) as [[text |] | e]; simpl.
  - unfold AISummarizer._parse_batch_response.
    specialize (Hj (AISummarizer.clean_response text)).
    destruct (json_loads _) as [v | e]; simpl.
    + pose proof (validate_kept l (match v with PList l0 => l0 | _ => [v] end)) as Hk.
      destruct (AISummarizer.validate l _) as [recs | e]; simpl; [by eexists |].
      destruct Hk as [_ (msg & ->)]. by eexists.
    + destruct e; simpl; [by destruct Hj | by eexists | by eexists].
  - by eexists.
  - destruct e; simpl; [by destruct Hc | by eexists | by eexists].
Qed.

Lemma returned_records_named repos records :
  (AISummarizer.summarize_and_classify repos).1 = Return records →
  Forall (λ rec, ∃ n, dict_lookup "repo_name" rec = Some n ∧ hashable n = true)
         records.
Proof.
  intros Hret. apply Forall_forall. intros rec Hin.
  assert (Hfb : rec ∈ AISummarizer._fallback_summaries repos →
                ∃ n, dict_lookup "repo_name" rec = Some n ∧ hashable n = true).
  { intros (r & -> & _)%list_elem_of_fmap. by eexists. }
  apply summarize_and_classify_cases in Hret as [-> | [text Hp]]; [by apply Hfb |].
  apply parse_batch_response_cases in Hp as [(msg & _ & ->) | (v & _ & Hval)];
    [by apply Hfb |].
  pose proof (validate_kept repos (as_list v)) as Hk. rewrite Hval in Hk.
  destruct Hk as [Hh ->]. apply list_elem_of_fmap in Hin as (d & -> & Hd).
  exists (dict_get "repo_name" PNone d). split; [done |].
  rewrite forallb_forall in Hh. apply Hh. by apply list_elem_of_In.
Qed.

Lemma map_find_set {V} (k k' : pyval) (v : V) (d : list (pyval * V)) :
  map_find k (map_set k' v d)
  = if decide (key_of k' = key_of k) then Some v else map_find k d.
Proof.
  induction d as [| [k0 v0] d IH]; [done |].
  cbn [map_set map_find].
  destruct (decide (key_of k0 = key_of k')) as [Hsame | Hother]; cbn [map_find].
  - destruct (decide (key_of k0 = key_of k)) as [Hk | Hk].
    + rewrite decide_True by congruence. done.
    + rewrite decide_False by congruence. done.
  - destruct (decide (key_of k0 = key_of k)) as [Hk | Hk]; [| exact IH].
    rewrite decide_False by congruence. done.
Qed.

Lemma summary_map_from_named acc records :
  Forall (λ rec, ∃ n, dict_lookup "repo_name" rec = Some n ∧ hashable n = true)
         records →
  Driver.summary_map_from acc records
  = Ok (foldl (λ d s, map_set (dict_get "repo_name" PNone s) s d) acc records).
Proof.
  intros Hall. revert acc.
  induction Hall as [| rec records (n & Hn & Hh) _ IH]; intros acc; [done |].
  cbn [Driver.summary_map_from foldl]. unfold Driver.dict_item, dict_get.
  rewrite Hn, Hh. apply IH.
Qed.

(** X4. The summary map of the driver cannot fail: every record that
    [summarize_and_classify] returns, validated or fallback, has a
    hashable [repo_name], so the comprehension
    [{s["repo_name"]: s for s in ai_summaries}] of [main] raises
    neither a KeyError nor a TypeError; the dict it builds holds for
    a key the last record whose [repo_name] equals the key, and
    nothing for a key that equals no record's [repo_name]. *)
Theorem summary_map_never_fails repos records :
  (AISummarizer.summarize_and_classify repos).1 = Return records →
  ∃ ai_summary_map,
    Driver.summary_map records = Ok ai_summary_map
    ∧ ∀ k, hashable k = true →
           map_find k ai_summary_map
           = last (filter (λ s, key_of (dict_get "repo_name" PNone s) = key_of k)
                          records).
Proof.
  intros Hall%returned_records_named. eexists. split.
  { unfold Driver.summary_map. by apply summary_map_from_named. }
  intros k _. clear Hall.
  induction records as [| rec records IH] using rev_ind; [done |].
  rewrite foldl_app, filter_app. cbn [foldl]. rewrite map_find_set.
  destruct (decide (key_of (dict_get "repo_name" PNone rec) = key_of k)) as [Hk | Hk].
  - rewrite (filter_cons_True _ rec) by done. rewrite filter_nil. by rewrite last_snoc.
  - rewrite (filter_cons_False _ rec) by done. rewrite filter_nil.
    by rewrite app_nil_r.
Qed.



(** X6. The summary of a fallback record is short: it is a string
    of at most 53 characters, as [len] counts them (the first 50 of
    the description and an ellipsis, or the description itself). *)
Theorem fallback_summary_is_short r :
  ∃ s, dict_lookup "summary" (AISummarizer.fallback_record r) = Some (PStr s)
       ∧ (py_len s ≤ 53)%nat.
Proof.
  eexists. split; [reflexivity |].
  destruct (fallback_summary_spec (default EmptyString (description r)))
    as [[Hle ->] | (Hlt & pre & rest & Hd & Hpre & ->)]; [lia |].
  rewrite py_len_app by done. unfold py_len at 1. rewrite Hpre, length_take.
  change (py_len "...") with 3%nat. lia.
Qed.

(** X7. The summarizer always answers: unless the process is
    interrupted, [summarize_and_classify] returns a list of records
    whatever the AI endpoint and the JSON decoder do; it makes
    exactly one completion request for a batch that is not empty,
    and for an empty batch it makes none and returns the empty
    list. *)
Theorem summarizer_always_answers repos :
  (∀ prompt, uninterrupted (chat_completions_create_result prompt)) →
  (∀ text, uninterrupted (json_loads text)) →
  ∃ records,
    (AISummarizer.summarize_and_classify repos).1 = Return records
    ∧ trace (AISummarizer.summarize_and_classify repos)
      = match repos with
        | [] => []
        | _ => [chat_completions_create (AISummarizer._build_batch_prompt repos)]
        end
    ∧ (repos = [] → records = []).
Proof.
  intros Hc Hj. destruct repos as [| r repos]; [by exists [] |].
  destruct (summarize_and_classify_run (r :: repos)) as [records Hrun]; [done.. |].
  exists records. rewrite Hrun. done.
Qed.
End summarizer_more.

(** ** The markdown fence *)

Lemma rev_app_spec (a b : string) : String.rev_app a b = String.rev a +:+ b.
Proof.
  unfold String.rev. revert b. induction a as [| x a IH]; intros b; [done |].
  simpl. rewrite IH, (IH (String x EmptyString)). by rewrite append_assoc.
Qed.

Lemma rev_cons (x : ascii) (a : string) :
  String.rev (String x a) = String.rev a +:+ String x EmptyString.
Proof. unfold String.rev at 1. simpl. by rewrite rev_app_spec. Qed.

Lemma rev_append (a b : string) :
  String.rev (a +:+ b) = String.rev b +:+ String.rev a.
Proof.
  induction a as [| x a IH]; [by rewrite append_nil_r |].
  by rewrite append_cons, !rev_cons, IH, append_assoc.
Qed.

Lemma rev_involutive (s : string) : String.rev (String.rev s) = s.
Proof.
  induction s as [| x s IH]; [done |].
  by rewrite rev_cons, rev_append, IH.
Qed.

Lemma ord_starts (ch : string) n : ord ch = Some n → starts_char ch = true.
Proof.
  unfold ord, starts_char, is_continuation.
  destruct ch as [| a [| b [| c [| d [| e k]]]]]; try done; cbn zeta.
  - destruct (N.ltb_spec (N_of_ascii a) 128) as [Hlt | Hge]; [| done]. intros _.
    apply negb_true_iff, andb_false_iff. left. by apply N.leb_gt.
  - destruct (continuation b); [| done].
    destruct (N.leb_spec 192 (N_of_ascii a)) as [Hle | Hgt]; [| done]. intros _.
    apply negb_true_iff, andb_false_iff. right. by apply N.ltb_ge.
  - destruct (continuation b); [| done]. destruct (continuation c); [| done].
    destruct (N.leb_spec 224 (N_of_ascii a)) as [Hle | Hgt]; [| done]. intros _.
    apply negb_true_iff, andb_false_iff. right. apply N.ltb_ge. lia.
  - destruct (continuation b); [| done]. destruct (continuation c); [| done].
    destruct (continuation d); [| done].
    destruct (N.leb_spec 240 (N_of_ascii a)) as [Hle | Hgt]; [| done]. intros _.
    apply negb_true_iff, andb_false_iff. right. apply N.ltb_ge. lia.
Qed.

Lemma isspace_starts (ch : string) : isspace ch = true → starts_char ch = true.
Proof.
  unfold isspace. destruct (ord ch) as [n |] eqn:Hn; [| done].
  intros _. by apply ord_starts in Hn.
Qed.

Lemma all_space_starts (s : string) : all_space s = true → starts_char s = true.
Proof.
  destruct s as [| c s]; [done |]. unfold all_space.
  destruct (chars (String c s)) as [| ch rest] eqn:Hch;
    [by apply chars_cons_nonempty in Hch |].
  apply chars_head in Hch as [k ->]. cbn [forallb].
  intros [Hsp _]%andb_true_iff. by apply isspace_starts in Hsp.
Qed.

(** No character that starts with a backtick is white space. *)
Lemma isspace_backtick (k : string) : isspace (String "`" k) = false.
Proof.
  unfold isspace, ord.
  destruct k as [| b [| c [| d [| e k]]]]; try done; cbn zeta.
  - by destruct (continuation b).
  - destruct (continuation b); [| done]. by destruct (continuation c).
  - destruct (continuation b); [| done]. destruct (continuation c); [| done].
    by destruct (continuation d).
Qed.

Lemma drop_while_all {A} (p : A → bool) (l l' : list A) :
  forallb p l = true → drop_while p (l ++ l') = drop_while p l'.
Proof.
  induction l as [| x l IH]; [done |]. cbn [forallb app drop_while].
  intros [-> Hl]%andb_true_iff. by apply IH.
Qed.

Lemma forallb_rev {A} (p : A → bool) (l : list A) :
  forallb p (rev l) = forallb p l.
Proof.
  induction l as [| x l IH]; [done |]. cbn [rev forallb].
  rewrite forallb_app, IH. cbn [forallb]. rewrite andb_true_r. apply andb_comm.
Qed.

Lemma drop_while_stop {A} (p : A → bool) (x : A) (l : list A) :
  p x = false → drop_while p (x :: l) = x :: l.
Proof. intros Hx. cbn [drop_while]. by rewrite Hx. Qed.

Lemma strip_chars_core (l m r : list string) (x y : string) :
  forallb isspace l = true → forallb isspace r = true →
  isspace x = false → isspace y = false →
  strip_chars (l ++ (x :: m ++ [y]) ++ r)%list = (x :: m ++ [y])%list.
Proof.
  intros Hl Hr Hx Hy. unfold strip_chars.
  rewrite drop_while_all by done.
  change ((x :: m ++ [y]) ++ r)%list with (x :: (m ++ [y]) ++ r)%list.
  rewrite drop_while_stop by done.
  change (x :: (m ++ [y]) ++ r)%list with (((x :: m) ++ [y]) ++ r)%list.
  rewrite rev_app_distr, drop_while_all by by rewrite forallb_rev.
  rewrite rev_app_distr. change (rev [y] ++ rev (x :: m))%list with (y :: rev (x :: m)).
  rewrite drop_while_stop by done.
  change (y :: rev (x :: m)) with (rev [y] ++ rev (x :: m))%list.
  by rewrite <- rev_app_distr, List.rev_involutive.
Qed.

(** What is between two backticks stays, the white space around them
    goes. *)
Lemma strip_fenced (a mid b : string) :
  all_space a = true → all_space b = true →
  strip (a +:+ String "`" (mid +:+ String "`" b))
  = String "`" (mid +:+ "`").
Proof.
  intros Ha Hb. unfold strip.
  rewrite chars_app by done.
  change (String "`" (mid +:+ String "`" b)) with (String "`" mid +:+ String "`" b).
  rewrite chars_app by done. rewrite (chars_start _ b) by by apply all_space_starts.
  destruct (chars (String "`" mid)) as [| ch rest] eqn:Hch;
    [by apply chars_cons_nonempty in Hch |].
  pose proof Hch as [k ->]%chars_head.
  change (String "`" EmptyString :: chars b) with (["`"] ++ chars b)%list.
  rewrite (app_assoc (String "`" k :: rest)).
  change ((String "`" k :: rest) ++ ["`"])%list
    with (String "`" k :: rest ++ ["`"])%list.
  rewrite strip_chars_core; [| done | done | apply isspace_backtick | done].
  change (String "`" k :: rest ++ ["`"])%list
    with ((String "`" k :: rest) ++ ["`"])%list.
  rewrite <- Hch, join_chars_app, join_chars_chars. done.
Qed.

Lemma substring_all (s : string) : String.substring 0 (String.length s) s = s.
Proof. induction s as [| x s IH]; [done |]. simpl. by rewrite IH. Qed.

Lemma str_drop_app (p s : string) : str_drop (String.length p) (p +:+ s) = s.
Proof.
  unfold str_drop. rewrite length_append.
  replace (String.length p + String.length s - String.length p)%nat
    with (String.length s) by lia.
  induction p as [| x p IH]; [apply substring_all |].
  rewrite append_cons. simpl. apply IH.
Qed.

Lemma str_take_app (a b : string) : str_take (String.length a) (a +:+ b) = a.
Proof.
  unfold str_take. induction a as [| x a IH]; [by destruct b |].
  rewrite append_cons. simpl. by rewrite IH.
Qed.

Lemma endswith_app (s p : string) : endswith p (s +:+ p) = true.
Proof.
  unfold endswith. rewrite length_append.
  replace (String.length s + String.length p - String.length p)%nat
    with (String.length s) by lia.
  rewrite str_drop_app, String.eqb_refl. simpl. apply Nat.leb_le. lia.
Qed.

Lemma str_drop_end_app (s p : string) :
  str_drop_end (String.length p) (s +:+ p) = s.
Proof.
  unfold str_drop_end. rewrite length_append.
  replace (String.length s + String.length p - String.length p)%nat
    with (String.length s) by lia.
  apply str_take_app.
Qed.

(** X8. A fenced response is unwrapped: for a response that consists
    of a json code fence around a body, with white space before and
    after the fence, what [_parse_batch_response] hands to the JSON
    decoder is the body without its surrounding white space. *)
Theorem fenced_response_is_unwrapped (a body b : string) :
  all_space a = true → all_space b = true →
  AISummarizer.clean_response (a +:+ "```json" +:+ body +:+ "```" +:+ b)
  = strip body.
Proof.
  intros Ha Hb. unfold AISummarizer.clean_response.
  assert (Hs : strip (a +:+ "```json" +:+ body +:+ "```" +:+ b)
               = "```json" +:+ body +:+ "```").
  { replace (body +:+ "```" +:+ b) with ((body +:+ "``") +:+ String "`" b)
      by by rewrite append_assoc.
    replace (body +:+ "```") with ((body +:+ "``") +:+ "`")
      by by rewrite append_assoc.
    by apply (strip_fenced a ("``json" +:+ body +:+ "``") b). }
  rewrite Hs.
  change (startswith "```json" ("```json" +:+ ?s)) with (String.prefix EmptyString s).
  replace (String.prefix EmptyString (body +:+ "```")) with true
    by by destruct (body +:+ "```").
  change 7%nat with (String.length "```json").
  rewrite str_drop_app, endswith_app.
  change 3%nat with (String.length "```").
  by rewrite str_drop_end_app.
Qed.

(** * Further properties of the Telegram sender *)

Section telegram_more.
Context `{World}.
Variables (token chat_id : string).

Lemma configured_iff :
  String.eqb token EmptyString || String.eqb chat_id EmptyString = false
  ↔ token ≠ EmptyString ∧ chat_id ≠ EmptyString.
Proof.
  rewrite orb_false_iff.
  by rewrite !String.eqb_neq.
Qed.

(** X9. What a reported success means: the dict that [send_message]
    returns says [success] exactly when token and chat id are set
    and the body of Telegram's answer is an object whose [ok] is
    true.  When the sender is configured and Telegram answers with a
    false [ok], the returned [message] is Telegram's [description]. *)
Theorem success_means_telegram_accepted text parse_mode d :
  (TelegramSender.send_message token chat_id text parse_mode).1 = Return d →
  let answer :=
    requests_post_result (TelegramSender.api_url token) chat_id text parse_mode in
  (reports_success d ↔
     token ≠ EmptyString ∧ chat_id ≠ EmptyString
     ∧ ∃ r, answer = Ok (PDict r) ∧ truthy (dict_get "ok" PNone r) = true)
  ∧ (∀ r, token ≠ EmptyString → chat_id ≠ EmptyString →
          answer = Ok (PDict r) → truthy (dict_get "ok" PNone r) = false →
          d = [ ("success", PBool false);
                ("message", dict_get "description" PNone r) ]).
Proof.
  rewrite send_message_run. intros Hd answer. subst answer.
  destruct (String.eqb token EmptyString || String.eqb chat_id EmptyString) eqn:Hc.
  - assert (Hno : ¬ (token ≠ EmptyString ∧ chat_id ≠ EmptyString)).
    { intros Hboth%configured_iff. congruence. }
    injection Hd as <-. unfold not_configured. split.
    + rewrite reports_success_flag. split; [done |].
      intros (Ht & Hi & _). by destruct Hno.
    + intros r Ht Hi. by destruct Hno.
  - apply configured_iff in Hc as [Ht Hi]. simpl in Hd.
    destruct (requests_post_result _ _ _ _) as [v | e].
    + destruct v as [| | | | | | r];
        try (injection Hd as <-; split;
             [rewrite reports_success_flag; split; [done | by intros (_ & _ & ? & ? & _)]
             | by intros]).
      destruct (truthy (dict_get "ok" PNone r)) eqn:Hok; injection Hd as <-.
      * split; [| intros r' _ _ [= <-]; congruence].
        rewrite reports_success_flag. split; [| done]. intros _.
        split; [done |]. split; [done |]. by exists r.
      * split; [| by intros r' _ _ [= <-] _].
        rewrite reports_success_flag. split; [done |].
        intros (_ & _ & r' & [= <-] & Hok'). congruence.
    + destruct (is_Exception e); [| done]. injection Hd as <-.
      split; [| by intros].
      rewrite reports_success_flag. split; [done | by intros (_ & _ & ? & ? & _)].
Qed.

Lemma item_summary_bound (s : string) :
  (py_len (if (60 <? py_len s)%nat then py_take 57 s +:+ "..." else s) ≤ 60)%nat.
Proof.
  destruct (60 <? py_len s)%nat eqn:Hlen.
  - rewrite py_len_app by done. rewrite py_len_take.
    change (py_len "...") with 3%nat. lia.
  - apply Nat.ltb_ge in Hlen. lia.
Qed.

Lemma append_assoc7 (a b c d e f g rest : string) :
  a +:+ b +:+ c +:+ d +:+ e +:+ f +:+ g +:+ rest
  = (a +:+ b +:+ c +:+ d +:+ e +:+ f +:+ g) +:+ rest.
Proof. by rewrite !append_assoc. Qed.

(** A summary of 26 Chinese characters is shown in full. *)
Example chinese_summary_is_shown :
  py_len chinese_summary = 26%nat
  ∧ endswith ("  _" +:+ chinese_summary +:+ "_")
      (TelegramSender._format_repo_item 4
         {| repo_name := Some "acme/gamma"; name := None; owner := None;
            description := None; language := None; topics := None;
            url := None; stars := None; stars_delta := None;
            readme_summary := None; summary := Some chinese_summary;
            category_zh := None |})
    = true.
Proof. split; reflexivity. Qed.

(** X10. The summary of a top pick is cut to size: the item that
    [_format_repo_item] renders ends with a line that holds the
    summary between underscores, at most 60 characters of it, as
    [len] counts them; a summary of up to 60 characters is shown in
    full, a longer one as its first 57 characters and an ellipsis. *)
Theorem report_item_summary_is_bounded index r :
  ∃ head s,
    TelegramSender._format_repo_item index r = head +:+ nl +:+ "  _" +:+ s +:+ "_"
    ∧ (py_len s ≤ 60)%nat
    ∧ ((py_len (summary_or_description r) ≤ 60)%nat →
       s = summary_or_description r)
    ∧ ((60 < py_len (summary_or_description r))%nat →
       ∃ pre, chars pre = take 57 (chars (summary_or_description r))
              ∧ s = pre +:+ "...").
Proof.
  unfold TelegramSender._format_repo_item.
  eexists _, _. split; [apply append_assoc7 |].
  split; [apply item_summary_bound |].
  generalize (summary_or_description r). intros s. split.
  - intros Hle. apply Nat.ltb_ge in Hle. by rewrite Hle.
  - intros Hlt. apply Nat.ltb_lt in Hlt. rewrite Hlt.
    exists (py_take 57 s). split; [apply chars_take | done].
Qed.
End telegram_more.

(** * Further properties of the site generator *)

Lemma first_match_own_key (l : list (string * category_info)) kv :
  NoDup (map snd l) → kv ∈ l →
  ∃ rest, filter (λ kv', kv'.2 = kv.2) l = kv :: rest.
Proof.
  induction l as [| kv0 l IH]; [by intros _ ?%elem_of_nil |].
  simpl. intros [Hnot Hnd]%NoDup_cons [-> | Hin]%elem_of_cons.
  - rewrite filter_cons_True by done. by eexists.
  - rewrite filter_cons_False; [by apply IH |].
    intros Heq. apply Hnot. rewrite Heq. by apply list_elem_of_fmap_2.
Qed.

Lemma map_result_elem {A B} (f : A → result B) (l : list A) ys x :
  map_result f l = Ok ys → x ∈ l → ∃ y, f x = Ok y ∧ y ∈ ys.
Proof.
  revert ys. induction l as [| a l IH]; intros ys; simpl;
    [by intros _ ?%elem_of_nil |].
  destruct (f a) as [b | e] eqn:Hfa; [| done].
  destruct (map_result f l) as [bs | e]; [| done].
  intros [= <-] [-> | Hin]%elem_of_cons.
  - exists b. split; [done | apply list_elem_of_here].
  - destruct (IH bs eq_refl Hin) as (y & Hy & Hys).
    exists y. split; [done | by apply list_elem_of_further].
Qed.

Lemma str_replace_app (c : ascii) (t a b : string) :
  str_replace c t (a +:+ b) = str_replace c t a +:+ str_replace c t b.
Proof.
  induction a as [| x a IH]; [done |].
  rewrite append_cons. simpl. rewrite IH.
  destruct (Ascii.eqb x c); [by rewrite append_assoc | by rewrite append_cons].
Qed.

Lemma str_replace_absent (c : ascii) (t s : string) :
  has_char c s = false → str_replace c t s = s.
Proof.
  induction s as [| x s IH]; [done |]. simpl.
  intros [-> Hs]%orb_false_iff. by rewrite IH.
Qed.

Lemma has_char_app (c : ascii) (a b : string) :
  has_char c (a +:+ b) = has_char c a || has_char c b.
Proof.
  induction a as [| x a IH]; [done |].
  rewrite append_cons. simpl. by rewrite IH, orb_assoc.
Qed.

Lemma split_last_absent (c : ascii) (s : string) :
  has_char c s = false → split_last c s = s.
Proof. destruct s as [| x s]; [done |]. simpl. by intros ->. Qed.

Lemma split_last_app (c : ascii) (a b : string) :
  has_char c b = false → split_last c (a +:+ String c b) = b.
Proof.
  intros Hb. induction a as [| x a IH].
  - change (EmptyString +:+ ?s) with s. simpl.
    rewrite Ascii.eqb_refl. simpl. by apply split_last_absent.
  - rewrite append_cons. simpl. rewrite has_char_app. simpl.
    rewrite Ascii.eqb_refl. simpl. rewrite !orb_true_r. exact IH.
Qed.

Lemma lstrip_slash_head (s t : string) :
  WebGenerator.lstrip_slash s ≠ String WebGenerator.slash t.
Proof.
  induction s as [| x s IH]; [done |]. simpl.
  destruct (Ascii.eqb x WebGenerator.slash) eqn:Hx; [done |].
  intros [= -> _]. by rewrite Ascii.eqb_refl in Hx.
Qed.

Lemma rstrip_slash_last (s t : string) :
  WebGenerator.rstrip_slash s ≠ t +:+ "/".
Proof.
  unfold WebGenerator.rstrip_slash. intros Heq.
  apply (f_equal String.rev) in Heq. rewrite rev_involutive, rev_append in Heq.
  by apply lstrip_slash_head in Heq.
Qed.

Section site_more.
Context `{Config} `{World}.
Variable output_dir : string.

Lemma category_key_own kv :
  NoDup (map snd CATEGORIES) → kv ∈ CATEGORIES →
  WebGenerator.category_key kv.2 = Ok kv.1.
Proof.
  intros Hnd Hin. unfold WebGenerator.category_key.
  by destruct (first_match_own_key CATEGORIES kv Hnd Hin) as [rest ->].
Qed.

(** X11. A category card links the page of its own category: when
    no two categories of [CATEGORIES] have the same info, the key
    that [_format_category_card] looks up for the info of a category
    is the key of that category.  For an info that is not configured
    the lookup raises an IndexError. *)
Theorem category_card_links_own_page :
  (NoDup (map snd CATEGORIES) →
   ∀ kv, kv ∈ CATEGORIES → WebGenerator.category_key kv.2 = Ok kv.1)
  ∧ (∀ info, info ∉ map snd CATEGORIES →
       WebGenerator.category_key info
       = Err (Exception "IndexError" "list index out of range")).
Proof.
  split.
  - intros Hnd kv Hin. by apply category_key_own.
  - intros info Hnot. unfold WebGenerator.category_key.
    destruct (filter (λ kv, kv.2 = info) CATEGORIES) as [| kv l] eqn:Hf; [done |].
    assert (kv ∈ filter (λ kv, kv.2 = info) CATEGORIES) as Hkv
      by (rewrite Hf; apply list_elem_of_here).
    apply list_elem_of_filter in Hkv as [<- Hkv]. destruct Hnot.
    by apply list_elem_of_fmap_2.
Qed.

(** X12. What the home page holds: the page that [generate_index]
    writes contains the card of each of the first twenty entries of
    [top_20] and, when no two categories have the same info, a link
    to the page of every configured category. *)
Theorem home_page_content trends date path page :
  write_text path page ∈ trace (WebGenerator.generate_index output_dir trends date) →
  (∀ r, r ∈ take 20 (top_20 trends) →
        occurs (WebGenerator._format_repo_card r) page)
  ∧ (NoDup (map snd CATEGORIES) →
     ∀ kv, kv ∈ CATEGORIES → occurs (category_link kv.1) page).
Proof.
  unfold WebGenerator.generate_index.
  destruct (WebGenerator.index_content (take 20 (top_20 trends)) date)
    as [content | e] eqn:Hc; [| by intros ?%elem_of_nil].
  unfold WebGenerator.path_write_text, call, trace. simpl.
  intros Hin.
  assert (page = content) as ->.
  { destruct (write_text_result _ content) as [[] | e]; simpl in Hin;
      by apply list_elem_of_singleton in Hin as [= _ ->]. }
  clear Hin. revert Hc. unfold WebGenerator.index_content.
  destruct (map_result WebGenerator._format_category_card (map snd CATEGORIES))
    as [cards | e] eqn:Hcards; [| done].
  intros [= <-]. split.
  - intros r Hr. apply base_html_shows. unfold WebGenerator.index_body, lines.
    apply occurs_join
      with (s := "                    "
                 +:+ str_concat (map WebGenerator._format_repo_card
                                     (take 20 (top_20 trends))));
      [pick_line |].
    apply occurs_app_r.
    apply occurs_concat with (s := WebGenerator._format_repo_card r);
      [by apply list_elem_of_fmap_2 | apply occurs_refl].
  - intros Hnd kv Hkv. apply base_html_shows.
    unfold WebGenerator.index_body, lines.
    apply occurs_join with (s := "                    " +:+ str_concat cards);
      [pick_line |].
    apply occurs_app_r.
    destruct (map_result_elem _ _ _ kv.2 Hcards) as (card & Hcard & Hin);
      [by apply list_elem_of_fmap_2 |].
    apply occurs_concat with (s := card); [done |].
    revert Hcard. unfold WebGenerator._format_category_card.
    rewrite (category_key_own kv Hnd Hkv). intros [= <-]. unfold lines.
    eapply occurs_join; [apply list_elem_of_further, list_elem_of_here |].
    unfold category_link. exists "        <a ". eexists.
    rewrite !append_assoc. reflexivity.
Qed.

(** X13. How the pages show a repository name: for a repository
    named owner/short, where short holds no slash, a list item of
    the trending page shows short alone; when owner holds no slash
    either, a card shows the name with blanks around its slash. *)
Theorem pages_show_repository_names r owner short :
  repo_name r = Some (owner +:+ "/" +:+ short) →
  has_char WebGenerator.slash short = false →
  occurs ("<span class=" +:+ q "li-name" +:+ ">" +:+ short +:+ "</span>")
         (WebGenerator._format_repo_list_item r)
  ∧ (has_char WebGenerator.slash owner = false →
     occurs (">" +:+ owner +:+ " / " +:+ short +:+ "</a>")
            (WebGenerator._format_repo_card r)).
Proof.
  intros Hn Hshort.
  change (owner +:+ "/" +:+ short)
    with (owner +:+ String WebGenerator.slash short) in Hn.
  split.
  - unfold WebGenerator._format_repo_list_item, lines. rewrite Hn. simpl default.
    rewrite (split_last_app WebGenerator.slash owner short Hshort).
    eapply occurs_join;
      [do 3 apply list_elem_of_further; apply list_elem_of_here |].
    exists "                ". exists EmptyString.
    rewrite append_nil_r, ?append_assoc. reflexivity.
  - intros Howner.
    unfold WebGenerator._format_repo_card, lines. rewrite Hn. simpl default.
    rewrite str_replace_app, (str_replace_absent _ _ owner Howner).
    change (str_replace WebGenerator.slash " / " (String WebGenerator.slash short))
      with (" / " +:+ str_replace WebGenerator.slash " / " short).
    rewrite (str_replace_absent _ _ short Hshort).
    eapply occurs_join;
      [do 3 apply list_elem_of_further; apply list_elem_of_here |].
    do 8 apply occurs_app_r.
    exists EmptyString. exists "</div>".
    rewrite !append_assoc. reflexivity.
Qed.

(** X14. The shape of the URL prefix: whatever [BASE_URL] is, the
    prefix that the pages put before their links is empty or starts
    with a slash, and it never ends with one. *)
Theorem url_prefix_shape :
  (WebGenerator.url_prefix = EmptyString
   ∨ ∃ s, WebGenerator.url_prefix = "/" +:+ s)
  ∧ ∀ s, WebGenerator.url_prefix ≠ s +:+ "/".
Proof.
  unfold WebGenerator.url_prefix.
  pose proof (rstrip_slash_last BASE_URL) as Hlast.
  generalize dependent (WebGenerator.rstrip_slash BASE_URL). intros p Hlast.
  destruct (String.eqb p EmptyString) eqn:Hp; simpl.
  - apply String.eqb_eq in Hp. split; [left; exact Hp | exact Hlast].
  - apply String.eqb_neq in Hp.
    destruct (startswith "/" p) eqn:Hs; simpl.
    + split; [| exact Hlast]. right. unfold startswith in Hs.
      destruct p as [| c p']; [done |].
      change (String.prefix "/" (String c p'))
        with (if ascii_dec "/" c then String.prefix EmptyString p' else false) in Hs.
      destruct (ascii_dec "/" c) as [<- | ?]; [by exists p' | done].
    + split; [right; by exists p |].
      intros [| c s]; [intros [= ?]; done |].
      rewrite append_cons. intros [= <- Hp']. by apply Hlast in Hp'.
Qed.

Lemma category_pages_stop (stored : string → list repo) pre k info post e :
  (∀ path content, write_text_result path content = Ok tt) →
  (∀ kv, kv ∈ pre → get_repos_by_category_result kv.1 50 = Ok (stored kv.1)) →
  get_repos_by_category_result k 50 = Err e →
  map_M (WebGenerator.generate_category_page output_dir) (pre ++ (k, info) :: post)
  = (Raise (Exn e),
     flat_map (category_calls output_dir stored) pre
     ++ [get_repos_by_category k 50]).
Proof.
  intros Hw Hpre Hk. induction pre as [| kv pre IH].
  - simpl. unfold WebGenerator.generate_category_page at 1, call. simpl.
    by rewrite Hk.
  - simpl. rewrite IH by (intros; apply Hpre; by apply list_elem_of_further).
    unfold WebGenerator.generate_category_page at 1.
    unfold WebGenerator.path_write_text, call.
    rewrite (Hpre kv) by apply list_elem_of_here. simpl. rewrite Hw. simpl.
    done.
Qed.

(** X15. A failing category stops the generation: when the store
    raises for one category, [generate_all] raises that exception.
    By then the home page, both trending pages and the pages of the
    categories before the failing one are written; the pages of the
    later categories and the style sheet are not. *)
Theorem failed_category_stops_generation (stored : string → list repo)
    trends date pre k info post e :
  CATEGORIES = pre ++ (k, info) :: post →
  (∀ path content, write_text_result path content = Ok tt) →
  (∀ kv, kv ∈ pre → get_repos_by_category_result kv.1 50 = Ok (stored kv.1)) →
  get_repos_by_category_result k 50 = Err e →
  let out := WebGenerator.self_output_dir output_dir in
  let trending := WebGenerator.path_join out "trending" in
  let trending_page :=
    WebGenerator.trending_content (rising_top5 trends)
      (take 10 (new_entries trends)) (active trends) date in
  ∃ index_page,
    WebGenerator.generate_all output_dir trends date =
    (Raise (Exn e),
     [ write_text (WebGenerator.path_join out "index.html") index_page;
       write_text (WebGenerator.path_join trending (date +:+ ".html")) trending_page;
       write_text (WebGenerator.path_join trending "latest.html") trending_page ]
     ++ flat_map (category_calls output_dir stored) pre
     ++ [ get_repos_by_category k 50 ]).
Proof.
  intros Hcat Hw Hpre Hk out trending trending_page.
  destruct (index_content_Ok (take 20 (top_20 trends)) date) as [page Hpage].
  exists page.
  unfold WebGenerator.generate_all, WebGenerator.generate_index,
    WebGenerator.generate_trending_page, WebGenerator.generate_category_pages.
  rewrite Hpage, Hcat, (category_pages_stop stored pre k info post e Hw Hpre Hk).
  unfold WebGenerator.path_write_text, call. simpl.
  repeat (rewrite Hw; simpl). done.
Qed.
End site_more.

(** * Further properties of the driver *)

Lemma omap_confined {A B} (f : event → option B) (P : event → bool) (m : M A) :
  (∀ ev, P ev = true → f ev = None) → confined P m → omap f (trace m) = [].
Proof.
  intros HP [Hes _]. induction Hes as [| ev es Hev _ IH]; [done |].
  simpl. by rewrite (HP ev Hev).
Qed.

Lemma cleanups_app (es es' : list event) :
  cleanups (es ++ es') = cleanups es ++ cleanups es'.
Proof. unfold cleanups. apply omap_app. Qed.

Lemma analyzed_app (es es' : list event) :
  analyzed (es ++ es') = analyzed es ++ analyzed es'.
Proof. unfold analyzed. apply omap_app. Qed.

Lemma posted_texts_app (es es' : list event) :
  posted_texts (es ++ es') = posted_texts es ++ posted_texts es'.
Proof. unfold posted_texts. apply omap_app. Qed.

Lemma posted_texts_confined {A} (P : event → bool) (m : M A) :
  (∀ ev, P ev = true → is_send ev = false) →
  confined P m → posted_texts (trace m) = [].
Proof.
  intros HP. apply omap_confined. intros ev Hev%HP. by destruct ev.
Qed.

(** A step that hands nothing to the analyzer must return for a later
    one to do so. *)
Lemma analyzed_bind_quiet {A B} (m : M A) (f : A → M B) x :
  analyzed (trace m) = [] → x ∈ analyzed (trace (bind m f)) →
  ∃ a, m.1 = Return a ∧ x ∈ analyzed (trace (f a)).
Proof.
  intros Hm. rewrite trace_bind. destruct m.1 as [a | r].
  - rewrite analyzed_app, Hm. intros Hx. by exists a.
  - rewrite Hm. by intros ?%elem_of_nil.
Qed.

Lemma merge_readme_same summaries r :
  same_but_readme r (Driver.merge_readme summaries r).
Proof.
  unfold Driver.merge_readme, same_but_readme.
  destruct (repo_name r ≫= _) as [s |]; [right; by exists s | by left].
Qed.

Section driver_more.
Context `{Config} `{World}.

Lemma check_environment_false :
  Driver.check_environment = false
  ↔ GITHUB_TOKEN = EmptyString ∨ NVIDIA_API_KEY = EmptyString
    ∨ TELEGRAM_BOT_TOKEN = EmptyString ∨ TELEGRAM_CHAT_ID = EmptyString.
Proof.
  unfold Driver.check_environment.
  rewrite !andb_false_iff, !negb_false_iff, !String.eqb_eq. tauto.
Qed.

Lemma main_first_call :
  Driver.check_environment = true →
  ∃ es, trace Driver.main = Database_init DB_PATH :: es.
Proof.
  intros Henv. unfold Driver.main. rewrite Henv. simpl negb. cbv iota.
  match goal with
  | |- context [trace (bind ?m ?f)] =>
      destruct (trace_bind_prefix m f) as [es ->]
  end.
  by eexists.
Qed.

(** X16. A missing setting stops the run before its first call:
    [main] leaves with [sys.exit(1)] without having opened the store
    or called any collaborator exactly when one of GITHUB_TOKEN,
    NVIDIA_API_KEY, TELEGRAM_BOT_TOKEN and TELEGRAM_CHAT_ID is
    empty. *)
Theorem missing_setting_stops_before_any_call :
  Driver.main = (Raise (SystemExit 1), [])
  ↔ GITHUB_TOKEN = EmptyString ∨ NVIDIA_API_KEY = EmptyString
    ∨ TELEGRAM_BOT_TOKEN = EmptyString ∨ TELEGRAM_CHAT_ID = EmptyString.
Proof.
  rewrite <- check_environment_false. split.
  - intros Hmain. destruct Driver.check_environment eqn:Henv; [| done].
    destruct (main_first_call Henv) as [es Hes].
    rewrite Hmain in Hes. done.
  - intros Henv. unfold Driver.main. by rewrite Henv.
Qed.

Lemma pipeline_outcome today :
  (∃ u, (Driver.pipeline today).1 = Return u)
  ∨ (∃ e, (Driver.pipeline today).1 = Raise (Exn e)).
Proof.
  destruct (pipeline_confined today) as [_ Hx].
  destruct (Driver.pipeline today).1 as [u | [e | code]];
    [left; by exists u | right; by exists e | by destruct (Hx code)].
Qed.

(** X17. The exit status of a run is 0, 1 or 130, and it is 0
    exactly when the settings are complete, the store opens, all
    nine steps return and the store closes without raising. *)
Theorem exit_status_of_a_run :
  let status := Driver.exit_status Driver.main.1 in
  (status = 0 ∨ status = 1 ∨ status = 130)%Z
  ∧ (status = 0%Z
     ↔ Driver.check_environment = true ∧ Database_init_result = Ok tt
       ∧ (Driver.pipeline get_today_date).1 = Return tt
       ∧ db_close_result = Ok tt).
Proof.
  intros status. subst status.
  destruct Driver.check_environment eqn:Henv.
  2:{ destruct main_without_store as [Hno _]. rewrite (Hno Henv). simpl.
      split; [auto |]. split; [done | by intros (? & _)]. }
  destruct Database_init_result as [[] | e] eqn:Hinit.
  2:{ destruct main_without_store as [_ Hno]. rewrite (Hno e Henv Hinit). simpl.
      split; [destruct e; auto |].
      split; [by destruct e | by intros (_ & ? & _)]. }
  rewrite main_outcome by done.
  destruct db_close_result as [[] | e] eqn:Hclose.
  2:{ simpl. split; [destruct e; auto |].
      split; [by destruct e | by intros (_ & _ & _ & ?)]. }
  destruct (pipeline_outcome get_today_date) as [[[] ->] | [e ->]]; simpl.
  - split; [auto | done].
  - split; [destruct e; simpl; auto |].
    split; [by destruct e | by intros (_ & _ & ? & _)].
Qed.

Lemma publish_confined P trends today :
  (∀ ev, is_site ev = true → P ev = true) →
  confined P (Driver.publish trends today).
Proof.
  intros HP. unfold Driver.publish. confine.
  - apply WebGenerator_init_confined. intros p. by apply HP.
  - by apply generate_all_confined.
Qed.

(** X18. Old data is cleaned up only after everything else went
    through: if a run of [main] calls [cleanup_old_data], it does so
    once, with DB_RETENTION_DAYS, and steps 1 to 5 have returned the
    trends, the notification step has returned, and the site
    generator has returned its files. *)
Theorem cleanup_only_after_full_success days :
  days ∈ cleanups (trace Driver.main) →
  days = DB_RETENTION_DAYS
  ∧ cleanups (trace Driver.main) = [days]
  ∧ ∃ trends files,
      (Driver.analysis get_today_date).1 = Return trends
      ∧ (Driver.notify trends get_today_date).1 = Return tt
      ∧ (Driver.publish trends get_today_date).1 = Return files.
Proof.
  destruct Driver.check_environment eqn:Henv.
  2:{ destruct main_without_store as [Hno _]. rewrite (Hno Henv).
      by intros ?%elem_of_nil. }
  destruct Database_init_result as [[] | e] eqn:Hinit.
  2:{ destruct main_without_store as [_ Hno]. rewrite (Hno e Henv Hinit).
      by intros ?%elem_of_nil. }
  rewrite main_trace by done.
  change (Database_init DB_PATH :: ?es) with ([Database_init DB_PATH] ++ es).
  rewrite !cleanups_app. simpl. rewrite app_nil_r.
  unfold Driver.pipeline. rewrite trace_bind.
  assert (Han : cleanups (trace (Driver.analysis get_today_date)) = []).
  { apply (omap_confined _ is_analysis); [by intros [] | apply analysis_confined]. }
  destruct (Driver.analysis get_today_date).1 as [trends | r] eqn:Hat;
    [| rewrite Han; by intros ?%elem_of_nil].
  rewrite cleanups_app, Han. simpl.
  unfold Driver.delivery. rewrite trace_bind.
  destruct (call (generate_email_html get_today_date) _).1 as [html | r];
    [| by intros ?%elem_of_nil].
  rewrite cleanups_app, trace_bind.
  change (cleanups (trace (call (generate_email_html _) _))) with (@nil Z).
  rewrite app_nil_l.
  assert (Hno : cleanups (trace (Driver.notify trends get_today_date)) = []).
  { apply (omap_confined _ (λ ev, is_send ev || is_record_notification ev));
      [by intros [] |]. apply notify_confined; reflexivity. }
  destruct (Driver.notify trends get_today_date).1 as [[] | r] eqn:Hnt;
    [| rewrite Hno; by intros ?%elem_of_nil].
  rewrite cleanups_app, Hno, app_nil_l, trace_bind.
  assert (Hpu : cleanups (trace (Driver.publish trends get_today_date)) = []).
  { apply (omap_confined _ is_site); [by intros [] |]. by apply publish_confined. }
  destruct (Driver.publish trends get_today_date).1 as [files | r] eqn:Hpt;
    [| rewrite Hpu; by intros ?%elem_of_nil].
  rewrite cleanups_app, Hpu, app_nil_l, trace_bind.
  assert (Hcl : cleanups (trace (call (cleanup_old_data DB_RETENTION_DAYS)
                             (cleanup_old_data_result DB_RETENTION_DAYS)))
                = [DB_RETENTION_DAYS]) by by destruct (cleanup_old_data_result _).
  assert (Hcl' : ∀ tail, cleanups tail = [] →
            cleanups (match (call (cleanup_old_data DB_RETENTION_DAYS)
                               (cleanup_old_data_result DB_RETENTION_DAYS)).1 with
                      | Return a =>
                          trace (call (cleanup_old_data DB_RETENTION_DAYS)
                                   (cleanup_old_data_result DB_RETENTION_DAYS)) ++ tail
                      | Raise _ =>
                          trace (call (cleanup_old_data DB_RETENTION_DAYS)
                                   (cleanup_old_data_result DB_RETENTION_DAYS))
                      end) = [DB_RETENTION_DAYS]).
  { intros tail Htail. destruct (call _ _).1; [| done].
    by rewrite cleanups_app, Hcl, Htail. }
  rewrite Hcl' by done.
  intros ->%list_elem_of_singleton. split; [done |]. split; [done |].
  exists trends, files. by rewrite Hnt, Hpt.
Qed.

(** X19. The trend analyzer sees every fetched repository: when the
    fetch returns, any call of [calculate_trends] in steps 1 to 5 is
    made with today's date, with DEDUPLICATE_DAYS, and with all the
    fetched repositories in the fetched order, not only the first
    TOP_N_DETAILS of them; a repository differs from the fetched one
    at most by the README summary it received. *)
Theorem analyzer_sees_every_fetched_repository today repos rs date days :
  fetch_result = Ok repos →
  (rs, date, days) ∈ analyzed (trace (Driver.analysis today)) →
  Forall2 same_but_readme repos rs ∧ date = today ∧ days = DEDUPLICATE_DAYS.
Proof.
  intros Hf. unfold Driver.analysis. rewrite Hf.
  intros (? & [= <-] & Hin)%analyzed_bind_quiet; [| done].
  apply analyzed_bind_quiet in Hin as (summaries & _ & Hin);
    [| by destruct (batch_fetch_readmes_result _)].
  apply analyzed_bind_quiet in Hin as (_ & _ & Hin).
  2:{ apply (omap_confined _ (λ ev, match ev with AISummarizer_init => true | _ => false end));
        [by intros [] | by apply AISummarizer_init_confined]. }
  apply analyzed_bind_quiet in Hin as (ai_summaries & _ & Hin).
  2:{ apply (omap_confined _ (λ ev, match ev with
                                    | chat_completions_create _ => true
                                    | _ => false
                                    end));
        [by intros [] | by apply summarize_and_classify_confined]. }
  apply analyzed_bind_quiet in Hin as (ai_summary_map & _ & Hin);
    [| by destruct (Driver.summary_map _)].
  apply analyzed_bind_quiet in Hin as (_ & _ & Hin);
    [| by destruct (save_repo_details_result _)].
  assert ((rs, date, days)
          = (map (Driver.merge_readme summaries) (slice_to TOP_N_DETAILS repos)
             ++ slice_from TOP_N_DETAILS repos, today, DEDUPLICATE_DAYS)) as [= -> -> ->].
  { destruct (calculate_trends_result _ _ _ _); simpl in Hin;
      by apply list_elem_of_singleton in Hin. }
  split; [| done].
  rewrite <- (take_drop (slice_len TOP_N_DETAILS repos) repos) at 1.
  apply Forall2_app.
  - apply Forall2_fmap_r, Forall_Forall2_diag, Forall_forall.
    intros r _. apply merge_readme_same.
  - apply Forall_Forall2_diag, Forall_forall. intros r _. by left.
Qed.

Lemma configured_of_environment :
  Driver.check_environment = true →
  String.eqb TELEGRAM_BOT_TOKEN EmptyString
  || String.eqb TELEGRAM_CHAT_ID EmptyString = false.
Proof.
  unfold Driver.check_environment.
  rewrite !andb_true_iff, !negb_true_iff. intros [[_ ->] ->]. done.
Qed.

Lemma notify_posts trends today :
  Driver.check_environment = true →
  posted_texts (trace (Driver.notify trends today))
  = [TelegramSender._format_report trends today].
Proof.
  intros Henv%configured_of_environment. unfold Driver.notify. rewrite trace_bind.
  assert (Hsent : posted_texts
            (trace (TelegramSender.send_report TELEGRAM_BOT_TOKEN TELEGRAM_CHAT_ID
                      trends today))
          = [TelegramSender._format_report trends today]).
  { unfold TelegramSender.send_report. by rewrite send_message_trace, Henv. }
  destruct (TelegramSender.send_report _ _ _ _).1 as [d | r]; [| done].
  rewrite posted_texts_app, Hsent.
  rewrite (posted_texts_confined is_record_notification); [done | by intros [] |].
  confine.
Qed.

(** X20. One digest per run: a run of [main] with complete settings
    and an open store, in which steps 1 to 5 return the trends and
    the HTML report is rendered, posts exactly one message to
    Telegram, the formatted report of these trends, whatever
    Telegram answers and whatever happens afterwards. *)
Theorem one_digest_per_run trends html :
  Driver.check_environment = true → Database_init_result = Ok tt →
  (Driver.analysis get_today_date).1 = Return trends →
  generate_email_html_result trends get_today_date = Ok html →
  posted_texts (trace Driver.main)
  = [TelegramSender._format_report trends get_today_date].
Proof.
  intros Henv Hinit Han Hhtml. rewrite main_trace by done.
  change (Database_init DB_PATH :: ?es) with ([Database_init DB_PATH] ++ es).
  rewrite !posted_texts_app. simpl. rewrite app_nil_r.
  unfold Driver.pipeline. rewrite trace_bind, Han, posted_texts_app.
  rewrite (posted_texts_confined is_analysis);
    [| by intros [] | apply analysis_confined].
  rewrite app_nil_l. unfold Driver.delivery.
  assert (Hc : call (generate_email_html get_today_date)
                    (generate_email_html_result trends get_today_date)
               = (Return html, [generate_email_html get_today_date]))
    by (unfold call; by rewrite Hhtml).
  rewrite trace_bind, Hc. cbn [fst]. rewrite posted_texts_app.
  change (posted_texts (trace (Return html, _))) with (@nil string).
  rewrite app_nil_l, trace_bind.
  pose proof (notify_posts trends get_today_date Henv) as Hposts.
  destruct (Driver.notify trends get_today_date).1 as [[] | r]; [| done].
  rewrite posted_texts_app, Hposts.
  match goal with
  | |- context [trace (bind (Driver.publish ?a ?b) ?f)] =>
      rewrite (posted_texts_confined (λ ev, negb (is_send ev))
                 (bind (Driver.publish a b) f))
  end; [done | by intros [] |].
  confine. apply publish_confined. by intros [].
Qed.

(** X21. A push that cannot be recorded aborts the run after the
    message is out: when Telegram has accepted the report and
    [record_notification] raises, steps 6 to 9 raise that exception
    after exactly three calls (the HTML report, the Telegram
    request, the failed record); the web site is not generated and
    old data is not cleaned up. *)
Theorem failed_record_aborts_after_push trends today html e :
  named (top_20 trends) → top_20 trends ≠ [] →
  (∃ d, (TelegramSender.send_report TELEGRAM_BOT_TOKEN TELEGRAM_CHAT_ID
           trends today).1 = Return d ∧ reports_success d) →
  record_notification_result (repo_names (top_20 trends)) = Err e →
  generate_email_html_result trends today = Ok html →
  Driver.delivery trends today
  = (Raise (Exn e),
     [ generate_email_html today;
       requests_post (TelegramSender.api_url TELEGRAM_BOT_TOKEN) TELEGRAM_CHAT_ID
         (TelegramSender._format_report trends today) "Markdown";
       record_notification (repo_names (top_20 trends)) ]).
Proof.
  intros Hnamed Htop (d & Hd & Hok) Hrec Hhtml.
  pose proof (notify_run trends today) as Hrun. simpl in Hrun.
  rewrite Hd in Hrun. destruct Hrun as (b & rest & -> & Hrun).
  apply reports_success_flag in Hok as ->.
  destruct (repo_names_named _ Hnamed) as [Hnames _]. rewrite Hnames in Hrun.
  assert (Htrace : trace (TelegramSender.send_report TELEGRAM_BOT_TOKEN
                            TELEGRAM_CHAT_ID trends today)
                   = [requests_post (TelegramSender.api_url TELEGRAM_BOT_TOKEN)
                        TELEGRAM_CHAT_ID
                        (TelegramSender._format_report trends today) "Markdown"]).
  { revert Hd. unfold TelegramSender.send_report.
    rewrite send_message_trace, send_message_run.
    by destruct (_ || _). }
  destruct (repo_names (top_20 trends)) as [| n names] eqn:Hn.
  { destruct Htop. by apply (repo_names_nil _ Hnamed). }
  rewrite Hrec, Htrace in Hrun.
  unfold Driver.delivery, call at 1. rewrite Hhtml, Hrun. reflexivity.
Qed.
End driver_more.

(** * Witnesses of the further properties *)

Lemma prompt_covers_first_twenty_witness :
  (20 ≤ length twenty_one_repos)%nat
  ∧ @AISummarizer._build_batch_prompt sample_config twenty_one_repos
    = @AISummarizer._build_batch_prompt sample_config (take 20 twenty_one_repos).
Proof.
  assert (Hlen : (20 ≤ length twenty_one_repos)%nat) by (simpl; lia).
  split; [exact Hlen |].
  exact (@prompt_covers_first_twenty sample_config twenty_one_repos Hlen).
Defined.

Lemma validated_records_follow_response_witness :
  ∃ records,
    @AISummarizer._parse_batch_response sample_config happy_world
      sample_response sample_repos = Ok records
    ∧ records = map (@record_of sample_config happy_world sample_repos)
                    (kept_objects (as_list sample_decoded)).
Proof.
  eexists.
  assert (Hparse :
    @AISummarizer._parse_batch_response sample_config happy_world
      sample_response sample_repos
    = Ok (map (@record_of sample_config happy_world sample_repos)
              (kept_objects (as_list sample_decoded))))
    by (vm_compute; reflexivity).
  split; [exact Hparse |].
  destruct (@validated_records_follow_response sample_config happy_world
              sample_repos sample_response sample_decoded _
              ltac:(vm_compute; reflexivity) Hparse)
    as (Hrecords & _ & _).
  exact Hrecords.
Defined.

Lemma unhashable_name_degrades_batch_witness :
  (@AISummarizer.summarize_and_classify sample_config
     (faulty_world unhashable_decoded EmptyString (Ok tt)) sample_repos).1
  = Return (@AISummarizer._fallback_summaries sample_config sample_repos).
Proof.
  apply (@unhashable_name_degrades_batch sample_config
           (faulty_world unhashable_decoded EmptyString (Ok tt))
           sample_repos sample_response unhashable_decoded
           [ ("repo_name", PList [PStr "acme/alpha"]); ("summary", PStr "Notes") ]).
  - discriminate.
  - reflexivity.
  - reflexivity.
  - apply list_elem_of_In. vm_compute. left. reflexivity.
  - reflexivity.
Defined.

Lemma summary_map_never_fails_witness :
  ∃ records ai_summary_map,
    (@AISummarizer.summarize_and_classify sample_config offline_world
       (sample_repos ++ sample_repos)).1
    = Return records
    ∧ Driver.summary_map records = Ok ai_summary_map
    ∧ length records = 4%nat
    ∧ map fst ai_summary_map = [PStr "acme/alpha"; PStr "acme/beta"]
    ∧ map_find (PStr "acme/beta") ai_summary_map = last records.
Proof.
  eexists.
  assert (Hret :
    (@AISummarizer.summarize_and_classify sample_config offline_world
       (sample_repos ++ sample_repos)).1
    = Return (@AISummarizer._fallback_summaries sample_config
                (sample_repos ++ sample_repos)))
    by (vm_compute; reflexivity).
  destruct (@summary_map_never_fails sample_config offline_world
              (sample_repos ++ sample_repos) _ Hret)
    as (ai_summary_map & Hmap & Hfind).
  exists ai_summary_map. split; [exact Hret |]. split; [exact Hmap |].
  split; [reflexivity |]. split.
  - vm_compute in Hmap. injection Hmap as <-. reflexivity.
  - rewrite (Hfind (PStr "acme/beta") eq_refl). reflexivity.
Defined.

Lemma summarizer_always_answers_witness :
  ∃ records,
    (@AISummarizer.summarize_and_classify sample_config happy_world sample_repos).1
    = Return records.
Proof.
  destruct (@summarizer_always_answers sample_config happy_world sample_repos)
    as (records & Hret & _).
  - intros prompt. unfold uninterrupted. simpl. discriminate.
  - intros text. unfold uninterrupted. simpl.
    destruct (String.eqb text sample_response); discriminate.
  - exists records. exact Hret.
Defined.

Lemma fenced_response_is_unwrapped_witness :
  AISummarizer.clean_response
    (nbsp +:+ "```json" +:+ (nl +:+ "[1]" +:+ wide_space) +:+ "```" +:+ nl)
  = "[1]".
Proof.
  etrans; [apply (fenced_response_is_unwrapped nbsp (nl +:+ "[1]" +:+ wide_space) nl);
           reflexivity |].
  reflexivity.
Defined.

Lemma success_means_telegram_accepted_witness :
  ∃ d, (@TelegramSender.send_message happy_world "123:abc" "-1001"
          "hello" "Markdown").1 = Return d
       ∧ reports_success d.
Proof.
  eexists. split; [reflexivity |].
  apply (@success_means_telegram_accepted happy_world "123:abc" "-1001"
           "hello" "Markdown" _ eq_refl).
  split; [discriminate |]. split; [discriminate |].
  eexists. split; reflexivity.
Defined.

Lemma category_card_links_own_page_witness :
  NoDup (map snd (@CATEGORIES sample_config))
  ∧ @WebGenerator.category_key sample_config
      {| cat_name := "Tools"; cat_icon := "T"; cat_description := "Utilities" |}
    = Ok "tool".
Proof.
  assert (Hnd : NoDup (map snd (@CATEGORIES sample_config))).
  { apply (bool_decide_unpack _). vm_compute. reflexivity. }
  split; [exact Hnd |].
  destruct (@category_card_links_own_page sample_config) as [Hkey _].
  apply (Hkey Hnd ("tool", {| cat_name := "Tools"; cat_icon := "T";
                              cat_description := "Utilities" |})).
  apply list_elem_of_In. vm_compute. right. left. reflexivity.
Defined.

Lemma home_page_content_witness :
  ∃ page,
    write_text "docs/index.html" page
    ∈ trace (@WebGenerator.generate_index sample_config happy_world "docs"
               sample_trends "2026-01-15")
    ∧ occurs (@category_link sample_config "tool") page
    ∧ occurs (@WebGenerator._format_repo_card sample_config
                (mk_repo "org/one" "About one" 100 0)) page.
Proof.
  destruct (@index_content_Ok sample_config happy_world
              (take 20 (top_20 sample_trends)) "2026-01-15") as [page Hpage].
  exists page.
  assert (Hin : write_text "docs/index.html" page
                ∈ trace (@WebGenerator.generate_index sample_config happy_world "docs"
                           sample_trends "2026-01-15")).
  { unfold WebGenerator.generate_index. rewrite Hpage. apply list_elem_of_here. }
  split; [exact Hin |].
  destruct (@home_page_content sample_config happy_world "docs" sample_trends
              "2026-01-15" _ _ Hin) as [Hcards Hlinks].
  split.
  - apply (Hlinks ltac:(apply (bool_decide_unpack _); vm_compute; reflexivity)
             ("tool", {| cat_name := "Tools"; cat_icon := "T";
                         cat_description := "Utilities" |})).
    apply list_elem_of_In. vm_compute. right. left. reflexivity.
  - apply Hcards. apply list_elem_of_here.
Defined.

Lemma pages_show_repository_names_witness :
  occurs ("<span class=" +:+ q "li-name" +:+ ">" +:+ "alpha" +:+ "</span>")
         (@WebGenerator._format_repo_list_item sample_config
            (mk_repo "acme/alpha" "Notes" 1 0)).
Proof.
  apply (@pages_show_repository_names sample_config
           (mk_repo "acme/alpha" "Notes" 1 0) "acme" "alpha"); reflexivity.
Defined.

Lemma failed_category_stops_generation_witness :
  ∃ index_page es,
    @WebGenerator.generate_all sample_config
      (faulty_world sample_decoded "tool" (Ok tt)) "docs" sample_trends "2026-01-15"
    = (Raise (Exn (Exception "OperationalError" "database is locked")),
       write_text "docs/index.html" index_page :: es)
    ∧ last es = Some (get_repos_by_category "tool" 50).
Proof.
  destruct (@failed_category_stops_generation sample_config
              (faulty_world sample_decoded "tool" (Ok tt)) "docs"
              (λ _, sample_repos) sample_trends "2026-01-15"
              [ ("plugin", {| cat_name := "Plugins"; cat_icon := "P";
                              cat_description := "Extensions" |}) ]
              "tool"
              {| cat_name := "Tools"; cat_icon := "T"; cat_description := "Utilities" |}
              [ ("other", {| cat_name := "Other"; cat_icon := "O";
                             cat_description := "Everything else" |}) ]
              (Exception "OperationalError" "database is locked"))
    as [page Hrun].
  - reflexivity.
  - intros path content. reflexivity.
  - intros kv Hkv. apply list_elem_of_singleton in Hkv. rewrite Hkv. reflexivity.
  - reflexivity.
  - exists page. eexists. split; [exact Hrun | reflexivity].
Defined.

Lemma cleanup_only_after_full_success_witness :
  90%Z ∈ cleanups (trace (@Driver.main sample_config happy_world))
  ∧ cleanups (trace (@Driver.main sample_config happy_world)) = [90%Z].
Proof.
  assert (Hin : 90%Z ∈ cleanups (trace (@Driver.main sample_config happy_world))).
  { apply list_elem_of_In. vm_compute. left. reflexivity. }
  split; [exact Hin |].
  destruct (@cleanup_only_after_full_success sample_config happy_world 90%Z Hin)
    as (_ & Honce & _).
  exact Honce.
Defined.

Lemma analyzer_sees_every_fetched_repository_witness :
  let rs := map (Driver.merge_readme [("acme/alpha", "Alpha keeps notes.")])
                sample_repos in
  (rs, "2026-01-15", 7%Z)
  ∈ analyzed (trace (@Driver.analysis sample_config happy_world "2026-01-15"))
  ∧ Forall2 same_but_readme sample_repos rs.
Proof.
  intros rs.
  assert (Hin : (rs, "2026-01-15", 7%Z)
                ∈ analyzed (trace (@Driver.analysis sample_config happy_world
                                     "2026-01-15"))).
  { apply list_elem_of_In. vm_compute. left. reflexivity. }
  split; [exact Hin |].
  destruct (@analyzer_sees_every_fetched_repository sample_config happy_world
              "2026-01-15" sample_repos rs "2026-01-15" 7%Z eq_refl Hin)
    as (Hall & _ & _).
  exact Hall.
Defined.

Lemma one_digest_per_run_witness :
  posted_texts (trace (@Driver.main sample_config happy_world))
  = [TelegramSender._format_report sample_trends "2026-01-15"].
Proof.
  apply (@one_digest_per_run sample_config happy_world sample_trends "<html></html>").
  - reflexivity.
  - reflexivity.
  - vm_compute. reflexivity.
  - reflexivity.
Defined.

Lemma failed_record_aborts_after_push_witness :
  ∃ es,
    @Driver.delivery sample_config
      (faulty_world sample_decoded EmptyString
         (Err (Exception "OperationalError" "database is locked")))
      sample_trends "2026-01-15"
    = (Raise (Exn (Exception "OperationalError" "database is locked")), es)
    ∧ length es = 3%nat.
Proof.
  eexists. split.
  - apply (@failed_record_aborts_after_push sample_config
             (faulty_world sample_decoded EmptyString
                (Err (Exception "OperationalError" "database is locked")))
             sample_trends "2026-01-15" "<html></html>").
    + unfold named. simpl. repeat constructor; by eexists.
    + discriminate.
    + eexists. split; [reflexivity |]. eexists. split; reflexivity.
    + reflexivity.
    + reflexivity.
  - reflexivity.
Defined.
